(** * Tavily research agent: pipeline and comparison engine

    A shallow embedding of the four-stage research workflow
    ([app/workflow/research_workflow.py]) and of its agents
    ([app/agents/*.py]), with the properties of the orchestration
    and of the comparison engine proved over it.

    Conventions of the embedding.
    - Python [str] is [string]; the text helpers of module [Py] follow the
      Python methods on ASCII text.
    - Python [float] values that are only stored or compared with a
      constant (confidence, relevance and similarity scores) are
      rationals [Q]; non-finite floats are outside the model.
    - A Python [dict] that is iterated is an association list in insertion
      order, since iteration order is observable in the results.
    - A call that may raise returns a [Result]; [Raise msg] carries
      [str(e)].
    - The external collaborators (Tavily search, the Ollama text
      generation endpoint, [json.loads], [float], the pydantic field
      validators) are the fields of a record [Env]; every theorem holds
      for every environment.  A collaborator answers as a function of its
      request; no proof compares two of its answers.
    - The entries of a search response are JSON values; an entry on which
      the loop body of [_process_search_results] raises is skipped.
    - The executor of the compiled graph belongs to the langgraph
      package; module [Workflow] models it as running, after a node,
      every node that an edge leaving it names.
    - A prompt is represented by the values interpolated into its
      template, so a collaborator may depend on all of them. *)

From Stdlib Require Import List String Ascii Bool Arith ZArith QArith Lia.
From Stdlib Require Import DecimalString.
Import ListNotations.

Local Open Scope string_scope.
Local Open Scope nat_scope.

(** ** Results of calls that may raise *)

Inductive Result (A : Type) : Type :=
| Ok (a : A)
| Raise (msg : string).

Arguments Ok {A} a.
Arguments Raise {A} msg.

(** ** Python text primitives used by the agents *)

Module Py.

Definition dquote : ascii := "034"%char.
Definition newline : ascii := "010"%char.
Definition nl : string := String newline "".
Definition dq : string := String dquote "".

(** [str.isspace] on one ASCII character: tab, line feed, vertical tab,
    form feed, carriage return, the four separators 28..31 and space. *)
Definition isspace (c : ascii) : bool :=
  let n := nat_of_ascii c in
  ((9 <=? n) && (n <=? 13)) || ((28 <=? n) && (n <=? 32)).

Definition lower_char (c : ascii) : ascii :=
  let n := nat_of_ascii c in
  if (65 <=? n) && (n <=? 90) then ascii_of_nat (n + 32) else c.

Definition upper_char (c : ascii) : ascii :=
  let n := nat_of_ascii c in
  if (97 <=? n) && (n <=? 122) then ascii_of_nat (n - 32) else c.

Fixpoint lower (s : string) : string :=
  match s with
  | EmptyString => EmptyString
  | String c s' => String (lower_char c) (lower s')
  end.

Fixpoint upper (s : string) : string :=
  match s with
  | EmptyString => EmptyString
  | String c s' => String (upper_char c) (upper s')
  end.

Definition len (s : string) : nat := String.length s.

Definition is_empty (s : string) : bool :=
  match s with EmptyString => true | String _ _ => false end.

Fixpoint lstrip (s : string) : string :=
  match s with
  | EmptyString => EmptyString
  | String c s' => if isspace c then lstrip s' else s
  end.

Fixpoint rstrip (s : string) : string :=
  match s with
  | EmptyString => EmptyString
  | String c s' =>
      let r := rstrip s' in
      if isspace c && is_empty r then EmptyString else String c r
  end.

Definition strip (s : string) : string := rstrip (lstrip s).

Definition startswith (s p : string) : bool := String.prefix p s.

(** [t in s] for two strings. *)
Fixpoint contains (t s : string) : bool :=
  String.prefix t s ||
  match s with
  | EmptyString => false
  | String _ s' => contains t s'
  end.

(** [s.find(c, start)] for a one-character needle: the first index at or
    after [start] holding [c], or -1. *)
Fixpoint find_from (c : ascii) (s : string) (start : nat) : Z :=
  match s with
  | EmptyString => (-1)%Z
  | String a s' =>
      match start with
      | O => if Ascii.eqb a c then 0%Z
             else match find_from c s' O with
                  | Zneg _ => (-1)%Z
                  | i => (i + 1)%Z
                  end
      | S k => match find_from c s' k with
               | Zneg _ => (-1)%Z
               | i => (i + 1)%Z
               end
      end
  end.

Definition find (c : ascii) (s : string) : Z := find_from c s 0.

(** [s.rfind(c)]: the last index holding [c], or -1. *)
Fixpoint rfind (c : ascii) (s : string) : Z :=
  match s with
  | EmptyString => (-1)%Z
  | String a s' =>
      match rfind c s' with
      | Zneg _ => if Ascii.eqb a c then 0%Z else (-1)%Z
      | i => (i + 1)%Z
      end
  end.

(** [s[a:b]] for indices that are not negative. *)
Definition slice (s : string) (a b : Z) : string :=
  if (a <? b)%Z
  then String.substring (Z.to_nat a) (Z.to_nat (b - a)) s
  else EmptyString.

(** [s[:n]]. *)
Definition take (n : nat) (s : string) : string := String.substring 0 n s.

(** [s.split('\n')]. *)
Fixpoint split_lines (s : string) : list string :=
  match s with
  | EmptyString => [EmptyString]
  | String c s' =>
      match split_lines s' with
      | [] => [EmptyString]
      | l :: ls =>
          if Ascii.eqb c newline then EmptyString :: l :: ls
          else String c l :: ls
      end
  end.

(** [sep.join(parts)]. *)
Fixpoint join (sep : string) (parts : list string) : string :=
  match parts with
  | [] => EmptyString
  | [p] => p
  | p :: ps => p ++ sep ++ join sep ps
  end.

(** [str(n)] for a length. *)
Definition str_of_nat (n : nat) : string :=
  NilZero.string_of_uint (Nat.to_uint n).

(** [l[:k]] for a list and a Python integer [k]: a negative bound counts
    from the end. *)
Definition list_upto {A} (k : Z) (l : list A) : list A :=
  if (k <? 0)%Z
  then firstn (Z.to_nat (Z.of_nat (List.length l) + k)) l
  else firstn (Z.to_nat k) l.

(** Membership test [x in l] on a list of strings. *)
Definition mem (x : string) (l : list string) : bool :=
  existsb (String.eqb x) l.

End Py.

(** ** Insertion-ordered dictionaries

    [defaultdict(list)] and plain dictionaries that the code iterates are
    association lists whose keys appear in the order of first insertion. *)

Module Dict.

Definition t (V : Type) : Type := list (string * V).

Definition keys {V} (d : t V) : list string := map fst d.

Fixpoint get {V} (d : t V) (k : string) : option V :=
  match d with
  | [] => None
  | (k', v) :: d' => if String.eqb k' k then Some v else get d' k
  end.

(** [d[k] = f(d[k])] when [k] is present, [d[k] = f(init)] otherwise:
    the update a [defaultdict] performs. *)
Fixpoint upsert {V} (init : V) (f : V -> V) (k : string) (d : t V) : t V :=
  match d with
  | [] => [(k, f init)]
  | (k', v) :: d' =>
      if String.eqb k' k then (k', f v) :: d'
      else (k', v) :: upsert init f k d'
  end.

(** [d[k].append(x)] on a [defaultdict(list)]. *)
Definition append {A} (k : string) (x : A) (d : t (list A)) : t (list A) :=
  upsert [] (fun xs => (xs ++ [x])%list) k d.

(** [d[k].add(x)] on a [defaultdict(set)], the set kept as a list without
    repetition. *)
Definition add (k : string) (x : string) (d : t (list string))
  : t (list string) :=
  upsert [] (fun xs => if Py.mem x xs then xs else (xs ++ [x])%list) k d.

End Dict.

(** ** Data model ([app/models/query.py], [app/models/response.py]) *)

Inductive QueryStatus : Type :=
| PENDING | SEARCHING | EXTRACTING | COMPARING | SUMMARIZING
| COMPLETED | FAILED.

Module ResearchQuery.
Record t : Type := mk {
  query : string;
  regions : option (list string);
  document_types : option (list string);
  max_documents : option Z
}.
End ResearchQuery.

Module Document.
Record t : Type := mk {
  title : string;
  url : string;
  content : string;
  source : string;
  region : option string;
  document_type : option string;
  relevance_score : option Q
}.
End Document.

Module ExtractedClause.
Record t : Type := mk {
  clause_text : string;
  clause_type : string;
  topic : string;
  jurisdiction : string;
  document_source : string;
  confidence_score : option Q;
  key_entities : option (list string)
}.
End ExtractedClause.

Module Comparison.
Record t : Type := mk {
  topic : string;
  similarities : list string;
  differences : list string;
  gaps : list string;
  jurisdictions_compared : list string;
  comparison_score : option Q
}.
End Comparison.

Module Summary.
Record t : Type := mk {
  executive_summary : string;
  key_findings : list string;
  recommendations : list string;
  methodology : string;
  limitations : list string
}.
End Summary.

Module ResearchResult.
Record t : Type := mk {
  query : string;
  documents : list Document.t;
  extracted_clauses : list ExtractedClause.t;
  comparisons : list Comparison.t;
  summary : option Summary.t;
  metadata_regions : list string;
  metadata_document_types : list string;
  metadata_max_documents : Z
}.
End ResearchResult.

(** ** Values returned by [json.loads] *)

#[local] Unset Elimination Schemes.
Inductive Json : Type :=
| JNull
| JBool (b : bool)
| JNum (q : Q)
| JStr (s : string)
| JArr (items : list Json)
| JObj (members : list (string * Json)).
#[local] Set Elimination Schemes.

(** [item.get(key, default)]: raises [AttributeError] unless [item] is a
    dictionary. *)
Definition json_get (item : Json) (key : string) (default : Json)
  : Result Json :=
  match item with
  | JObj members =>
      match Dict.get members key with
      | Some v => Ok v
      | None => Ok default
      end
  | _ => Raise "object has no attribute 'get'"
  end.

(** ** Raw search results and prompts *)

Module RawResult.
(** The fields of one entry of Tavily's ["results"] as the loop body of
    [_process_search_results] reads them; [None] is an absent key. *)
Record t : Type := mk {
  title : option string;
  url : option string;
  content : option string;
  source : option string;
  score : option Q;
  published_date : bool
}.
End RawResult.

(** The values interpolated into the extraction prompt. *)
Record ExtractionPrompt : Type := {
  ep_title : string;
  ep_source : string;
  ep_region : string;
  ep_content : string
}.

(** The values interpolated into the comparison prompt: the topic and,
    per jurisdiction, the texts of its first three clauses. *)
Record ComparisonPrompt : Type := {
  cp_topic : string;
  cp_context : list (string * list string)
}.

(** The three digests interpolated into the summary prompt. *)
Record RegionDigest : Type := {
  rd_region : string;
  rd_count : nat;
  rd_shown : list (string * string);
  rd_more : option nat
}.

Record TopicDigest : Type := {
  td_topic : string;
  td_count : nat;
  td_shown : list string;
  td_more : option nat
}.

Record ComparisonDigest : Type := {
  cd_topic : string;
  cd_jurisdictions : string;
  cd_score : Q;
  cd_similarities : option nat;
  cd_differences : option nat;
  cd_gaps : option nat
}.

Record SummaryPrompt : Type := {
  sp_query : string;
  sp_documents : option (nat * list RegionDigest);
  sp_clauses : option (nat * list TopicDigest);
  sp_comparisons : option (nat * list ComparisonDigest)
}.

(** ** External collaborators *)

Record Env : Type := {
  (** [TavilyClient.search]: [Ok None] is a response that is empty or has
      no ["results"] key. *)
  tavily_search : string -> Result (option (list Json));
  (** The three [_call_ollama] methods: the POST, [raise_for_status] and
      the ["response"] member of the reply. *)
  ollama_extract : ExtractionPrompt -> Result string;
  ollama_compare : ComparisonPrompt -> Result string;
  ollama_summarize : SummaryPrompt -> Result string;
  (** [json.loads]; [None] is [JSONDecodeError]. *)
  json_loads : string -> option Json;
  (** pydantic's validation of a field value; [None] is
      [ValidationError]. *)
  as_str : Json -> option string;
  as_str_list : Json -> option (list string);
  as_opt_str_list : Json -> option (option (list string));
  as_opt_float : Json -> option (option Q);
  (** [float(x)]; [None] is [TypeError] or [ValueError]. *)
  as_float : Json -> option Q
}.

(** [app/config.py] *)
Module settings.
Definition max_extraction_length : nat := 4000.
End settings.

(** ** Search agent ([app/agents/search_agent.py]) *)

Module SearchAgent.

Definition opt_str (default : string) (o : option string) : string :=
  match o with Some s => s | None => default end.

Definition region_terms (region : string) : list string :=
  if String.eqb (Py.upper region) "EU"
  then ["European Union"; "EU"; "European Commission"]
  else if String.eqb (Py.upper region) "US"
  then ["United States"; "US"; "USA"; "federal"]
  else if String.eqb (Py.upper region) "UK"
  then ["United Kingdom"; "UK"; "British"]
  else [region].

Definition type_terms (doc_type : string) : list string :=
  if String.eqb doc_type "legislation"
  then ["legislation"; "law"; "act"; "regulation"]
  else if String.eqb doc_type "policy_framework"
  then ["policy"; "framework"; "guidelines"; "strategy"]
  else if String.eqb doc_type "white_paper"
  then ["white paper"; "whitepaper"; "report"]
  else [doc_type].

Definition _build_search_query (query : string)
    (regions document_types : option (list string)) : string :=
  let search_terms := [query] in
  let search_terms :=
    match regions with
    | Some (r :: rs) => (search_terms ++ flat_map region_terms (r :: rs))%list
    | _ => search_terms
    end in
  let search_terms :=
    match document_types with
    | Some (d :: ds) => (search_terms ++ flat_map type_terms (d :: ds))%list
    | _ => search_terms
    end in
  let ai_terms :=
    ["artificial intelligence"; "AI"; "machine learning"; "algorithm"] in
  Py.join " " (search_terms ++ ai_terms)%list.

Definition _perform_search (env : Env) (search_query : string)
  : Result (list Json) :=
  match tavily_search env search_query with
  | Raise e => Raise e
  | Ok None => Ok []
  | Ok (Some results) => Ok results
  end.

(** [any(term in content or term in url for term in terms)] *)
Definition any_term (terms : list string) (content url : string) : bool :=
  existsb (fun term => Py.contains term content || Py.contains term url)
          terms.

Definition eu_terms : list string := ["european union"; "eu"; "europa"].
Definition us_terms : list string :=
  ["united states"; "us"; "usa"; "federal"].
Definition uk_terms : list string := ["united kingdom"; "uk"; "british"].

Definition _extract_region (result : RawResult.t)
    (regions : option (list string)) : string :=
  match regions with
  | Some [r] => r
  | _ =>
      let content := Py.lower (opt_str "" (RawResult.content result)) in
      let url := Py.lower (opt_str "" (RawResult.url result)) in
      if any_term eu_terms content url then "EU"
      else if any_term us_terms content url then "US"
      else if any_term uk_terms content url then "UK"
      else match regions with
           | None => "Global"
           | Some (r :: _) => r
           | Some [] => "Unknown"
           end
  end.

Definition _classify_document_type (result : RawResult.t) : string :=
  let content := Py.lower (opt_str "" (RawResult.content result)) in
  let url := Py.lower (opt_str "" (RawResult.url result)) in
  if any_term ["act"; "regulation"; "law"; "legislation"] content url
  then "legislation"
  else if any_term ["policy"; "framework"; "guidelines"] content url
  then "policy_framework"
  else if any_term ["white paper"; "whitepaper"; "report"] content url
  then "white_paper"
  else "other".

Definition _calculate_relevance_score (result : RawResult.t) : Q :=
  let score := 0%Q in
  let score :=
    match RawResult.score result with
    | Some s => (score + s * (1 # 2))%Q
    | None => score
    end in
  let url := Py.lower (opt_str "" (RawResult.url result)) in
  let score :=
    if existsb (fun domain => Py.contains domain url)
               ["europa.eu"; "whitehouse.gov"; "gov.uk"]
    then (score + (3 # 10))%Q else score in
  let score :=
    if RawResult.published_date result
    then (score + (1 # 10))%Q else score in
  let content_length := Py.len (opt_str "" (RawResult.content result)) in
  let score :=
    if 1000 <? content_length then (score + (1 # 10))%Q else score in
  if Qle_bool score 1 then score else 1%Q.

Definition make_document (result : RawResult.t)
    (regions : option (list string)) : Document.t :=
  Document.mk
    (opt_str "Untitled" (RawResult.title result))
    (opt_str "" (RawResult.url result))
    (opt_str "" (RawResult.content result))
    (opt_str "Unknown" (RawResult.source result))
    (Some (_extract_region result regions))
    (Some (_classify_document_type result))
    (Some (_calculate_relevance_score result)).

(** The sort key [x.relevance_score or 0]. *)
Definition sort_key (d : Document.t) : Q :=
  match Document.relevance_score d with
  | Some q => q
  | None => 0%Q
  end.

(** [documents.sort(key=..., reverse=True)]: descending and stable. *)
Fixpoint insert_desc (d : Document.t) (l : list Document.t)
  : list Document.t :=
  match l with
  | [] => [d]
  | d' :: l' =>
      if Qle_bool (sort_key d') (sort_key d)
      then d :: d' :: l'
      else d' :: insert_desc d l'
  end.

Definition sort_desc (l : list Document.t) : list Document.t :=
  fold_right insert_desc [] l.

(** [result.get(key, "")] where the body calls [lower] on the value: only
    a [str] has it, so any other value, [None] included, raises.  The
    first [option] is the raise. *)
Definition get_text (members : list (string * Json)) (key : string)
  : option (option string) :=
  match Dict.get members key with
  | None => Some None
  | Some (JStr s) => Some (Some s)
  | Some _ => None
  end.

(** [result.get(key, default)] given to a field of [Document] declared
    [str]: a value that is present goes through the validation. *)
Definition get_validated (env : Env) (members : list (string * Json))
    (key : string) : option (option string) :=
  match Dict.get members key with
  | None => Some None
  | Some v => option_map Some (as_str env v)
  end.

(** [float(result["score"])] when the key is present. *)
Definition get_score (env : Env) (members : list (string * Json))
  : option (option Q) :=
  match Dict.get members "score" with
  | None => Some None
  | Some v => option_map Some (as_float env v)
  end.

(** [key in result] *)
Definition has_key (members : list (string * Json)) (key : string) : bool :=
  match Dict.get members key with
  | Some _ => true
  | None => false
  end.

(** What the body of the loop reads of an entry.  [None] stands for the
    body raising, which skips the entry: an entry that is not a
    dictionary has no [get]; a content or URL that is not a string has no
    [lower]; a score may have no [float]; a title or source may fail the
    validation of [Document].  Every raise of the body has the same
    effect, so the order of the reads does not matter. *)
Definition read_result (env : Env) (result : Json) : option RawResult.t :=
  match result with
  | JObj members =>
      match get_validated env members "title", get_text members "url",
            get_text members "content", get_validated env members "source",
            get_score env members
      with
      | Some title, Some url, Some content, Some source, Some score =>
          Some (RawResult.mk title url content source score
                             (has_key members "published_date"))
      | _, _, _, _, _ => None
      end
  | _ => None
  end.

(** The documents of the entries on which the body did not raise, in
    the order of the entries. *)
Definition built_documents (env : Env) (results : list Json)
    (regions : option (list string)) : list Document.t :=
  flat_map
    (fun result =>
       match read_result env result with
       | Some fields => [make_document fields regions]
       | None => []
       end)
    results.

Definition _process_search_results (env : Env) (results : list Json)
    (regions : option (list string)) : list Document.t :=
  sort_desc (built_documents env results regions).

Definition search_documents (env : Env) (query : string)
    (regions document_types : option (list string))
  : Result (list Document.t) :=
  let search_query := _build_search_query query regions document_types in
  match _perform_search env search_query with
  | Raise e => Raise e
  | Ok search_results =>
      Ok (_process_search_results env search_results regions)
  end.

End SearchAgent.

(** ** Extract agent ([app/agents/extract_agent.py]) *)

Module ExtractAgent.

(** [document.region or 'Unknown'] *)
Definition region_or_unknown (document : Document.t) : string :=
  match Document.region document with
  | Some r => if Py.is_empty r then "Unknown" else r
  | None => "Unknown"
  end.

Definition _create_extraction_prompt (document : Document.t)
  : ExtractionPrompt :=
  {| ep_title := Document.title document;
     ep_source := Document.source document;
     ep_region := region_or_unknown document;
     ep_content :=
       Py.take settings.max_extraction_length (Document.content document) |}.

Definition _call_ollama (env : Env) (prompt : ExtractionPrompt)
  : Result string :=
  ollama_extract env prompt.

(** The confidence given to a clause recovered by the text scan, and the
    default given to a structured item without a ["confidence"] member. *)
Definition fallback_confidence : Q := 6 # 10.
Definition default_confidence : Q := 8 # 10.

(** The clause a line of the response yields in the text scan, if any. *)
Definition fallback_line (line0 : string) (document : Document.t)
  : option ExtractedClause.t :=
  let line := Py.strip line0 in
  if Py.startswith line (Py.dq ++ "clause_text" ++ Py.dq)
     || Py.startswith line "clause_text"
  then
    let text_start :=
      (Py.find_from Py.dquote line
         (Z.to_nat (Py.find Py.dquote line + 1)) + 1)%Z in
    let text_end := Py.rfind Py.dquote line in
    if (0 <? text_start)%Z && (text_start <? text_end)%Z
    then
      let current_clause := Py.slice line text_start text_end in
      if 10 <? Py.len current_clause
      then Some (ExtractedClause.mk
                   current_clause
                   "requirement"
                   "general"
                   (region_or_unknown document)
                   (Document.title document)
                   (Some fallback_confidence)
                   None)
      else None
    else None
  else None.

Definition _fallback_extraction (response : string) (document : Document.t)
  : list ExtractedClause.t :=
  flat_map
    (fun line =>
       match fallback_line line document with
       | Some clause => [clause]
       | None => []
       end)
    (Py.split_lines response).

(** The body of the loop over the decoded items: [None] when the item
    raises (it is skipped by the inner handler) or is too short. *)
Definition parse_item (env : Env) (item : Json) (document : Document.t)
  : option ExtractedClause.t :=
  match json_get item "clause_text" (JStr ""),
        json_get item "clause_type" (JStr "other"),
        json_get item "topic" (JStr "other"),
        json_get item "confidence" (JNum default_confidence),
        json_get item "key_entities" (JArr [])
  with
  | Ok j_text, Ok j_type, Ok j_topic, Ok j_conf, Ok j_ents =>
      match as_str env j_text, as_str env j_type, as_str env j_topic,
            as_opt_float env j_conf, as_opt_str_list env j_ents
      with
      | Some text, Some type, Some topic, Some conf, Some ents =>
          let clause :=
            ExtractedClause.mk text type topic
              (region_or_unknown document) (Document.title document)
              conf ents in
          if 10 <? Py.len (Py.strip (ExtractedClause.clause_text clause))
          then Some clause
          else None
      | _, _, _, _, _ => None
      end
  | _, _, _, _, _ => None
  end.

(** What [for item in extracted_data] ranges over; a value that is not
    iterable raises [TypeError]. *)
Definition iterate (data : Json) : Result (list Json) :=
  match data with
  | JArr items => Ok items
  | JObj members => Ok (map (fun kv => JStr (fst kv)) members)
  | JStr s =>
      Ok (map (fun c => JStr (String c "")) (list_ascii_of_string s))
  | _ => Raise "object is not iterable"
  end.

Definition _parse_extraction_response (env : Env) (response : string)
    (document : Document.t) : Result (list ExtractedClause.t) :=
  let json_start := Py.find "[" response in
  let json_end := (Py.rfind "]" response + 1)%Z in
  if (json_start =? -1)%Z || (json_end =? 0)%Z
  then Ok []
  else
    let json_str := Py.slice response json_start json_end in
    match json_loads env json_str with
    | None => Ok (_fallback_extraction response document)
    | Some extracted_data =>
        match iterate extracted_data with
        | Raise e => Raise e
        | Ok items =>
            Ok (flat_map
                  (fun item =>
                     match parse_item env item document with
                     | Some clause => [clause]
                     | None => []
                     end)
                  items)
        end
    end.

Definition _extract_from_document (env : Env) (document : Document.t)
  : list ExtractedClause.t :=
  let prompt := _create_extraction_prompt document in
  match _call_ollama env prompt with
  | Raise _ => []
  | Ok response =>
      match _parse_extraction_response env response document with
      | Raise _ => []
      | Ok clauses => clauses
      end
  end.

Definition extract_clauses (env : Env) (documents : list Document.t)
  : Result (list ExtractedClause.t) :=
  Ok (flat_map (_extract_from_document env) documents).

(** [clause.confidence_score and clause.confidence_score > 0.5] *)
Definition confidence_ok (clause : ExtractedClause.t) : bool :=
  match ExtractedClause.confidence_score clause with
  | Some c => negb (Qeq_bool c 0) && negb (Qle_bool c (5 # 10))
  | None => false
  end.

Definition validate_clauses (clauses : list ExtractedClause.t)
  : list ExtractedClause.t :=
  filter
    (fun clause =>
       (20 <? Py.len (Py.strip (ExtractedClause.clause_text clause)))
       && confidence_ok clause)
    clauses.

End ExtractAgent.

(** ** Compare agent ([app/agents/compare_agent.py]) *)

Module CompareAgent.

(** [Dict[str, List[ExtractedClause]]]: the clauses of one topic, per
    jurisdiction. *)
Definition JurisdictionClauses : Type := Dict.t (list ExtractedClause.t).

Definition _group_clauses (clauses : list ExtractedClause.t)
  : Dict.t JurisdictionClauses :=
  fold_left
    (fun grouped clause =>
       let topic := Py.lower (ExtractedClause.topic clause) in
       let jurisdiction := ExtractedClause.jurisdiction clause in
       Dict.upsert [] (Dict.append jurisdiction clause) topic grouped)
    clauses [].

Definition _create_comparison_prompt (topic : string)
    (jurisdiction_clauses : JurisdictionClauses) : ComparisonPrompt :=
  {| cp_topic := topic;
     cp_context :=
       map (fun '(jurisdiction, clauses) =>
              (jurisdiction,
               map ExtractedClause.clause_text (firstn 3 clauses)))
           jurisdiction_clauses |}.

Definition _call_ollama (env : Env) (prompt : ComparisonPrompt)
  : Result string :=
  ollama_compare env prompt.

Definition _create_fallback_comparison (topic : string)
    (jurisdiction_clauses : JurisdictionClauses) : Comparison.t :=
  let jurisdictions := Dict.keys jurisdiction_clauses in
  let similarities :=
    ["All jurisdictions have some form of " ++ topic ++ " regulation"] in
  let differences :=
    ["Different jurisdictions approach " ++ topic
       ++ " with varying levels of detail"] in
  let gaps :=
    ["Some jurisdictions may lack comprehensive " ++ topic
       ++ " frameworks"] in
  Comparison.mk topic similarities differences gaps jurisdictions
                (Some (5 # 10)).

Definition _parse_comparison_response (env : Env) (response topic : string)
    (jurisdiction_clauses : JurisdictionClauses) : Result Comparison.t :=
  let json_start := Py.find "{" response in
  let json_end := (Py.rfind "}" response + 1)%Z in
  if (json_start =? -1)%Z || (json_end =? 0)%Z
  then Ok (_create_fallback_comparison topic jurisdiction_clauses)
  else
    let json_str := Py.slice response json_start json_end in
    match json_loads env json_str with
    | None => Ok (_create_fallback_comparison topic jurisdiction_clauses)
    | Some comparison_data =>
        match json_get comparison_data "similarities" (JArr []),
              json_get comparison_data "differences" (JArr []),
              json_get comparison_data "gaps" (JArr []),
              json_get comparison_data "comparison_score" (JNum (5 # 10))
        with
        | Ok j_sim, Ok j_diff, Ok j_gaps, Ok j_score =>
            match as_str_list env j_sim, as_str_list env j_diff,
                  as_str_list env j_gaps, as_opt_float env j_score
            with
            | Some sim, Some diff, Some gaps, Some score =>
                Ok (Comparison.mk topic sim diff gaps
                      (Dict.keys jurisdiction_clauses) score)
            | _, _, _, _ => Raise "validation error for Comparison"
            end
        | _, _, _, _ => Raise "object has no attribute 'get'"
        end
    end.

(** [None] is the value returned when anything raised. *)
Definition _compare_topic (env : Env) (topic : string)
    (jurisdiction_clauses : JurisdictionClauses) : option Comparison.t :=
  let prompt := _create_comparison_prompt topic jurisdiction_clauses in
  match _call_ollama env prompt with
  | Raise _ => None
  | Ok response =>
      match _parse_comparison_response env response topic
              jurisdiction_clauses with
      | Raise _ => None
      | Ok comparison => Some comparison
      end
  end.

Definition compare_clauses (env : Env) (clauses : list ExtractedClause.t)
  : Result (list Comparison.t) :=
  let grouped_clauses := _group_clauses clauses in
  Ok (flat_map
        (fun '(topic, jurisdiction_clauses) =>
           if 1 <? List.length jurisdiction_clauses
           then match _compare_topic env topic jurisdiction_clauses with
                | Some comparison => [comparison]
                | None => []
                end
           else [])
        grouped_clauses).

(** *** Coverage gaps *)

(** [jurisdiction_topics]: per jurisdiction, the set of its lower-cased
    topics. *)
Definition jurisdiction_topics (clauses : list ExtractedClause.t)
  : Dict.t (list string) :=
  fold_left
    (fun d clause =>
       Dict.add (ExtractedClause.jurisdiction clause)
                (Py.lower (ExtractedClause.topic clause)) d)
    clauses [].

(** [all_topics.update(topics)] *)
Definition set_update (acc topics : list string) : list string :=
  fold_left (fun acc t => if Py.mem t acc then acc else (acc ++ [t])%list)
            topics acc.

Definition all_topics (jt : Dict.t (list string)) : list string :=
  fold_left (fun acc kv => set_update acc (snd kv)) jt [].

(** [jurisdiction_topics[j]] *)
Definition topics_of (jt : Dict.t (list string)) (j : string)
  : list string :=
  match Dict.get jt j with Some ts => ts | None => [] end.

(** The gaps before they are rendered: each topic that some observed
    jurisdiction lacks, with the jurisdictions lacking it.  The order in
    which Python iterates the set [all_topics] is not specified; here it
    is the order of first occurrence. *)
Definition gap_entries (clauses : list ExtractedClause.t)
  : list (string * list string) :=
  let jt := jurisdiction_topics clauses in
  let jurisdictions := Dict.keys jt in
  flat_map
    (fun topic =>
       let jurisdictions_with_topic :=
         filter (fun j => Py.mem topic (topics_of jt j)) jurisdictions in
       if List.length jurisdictions_with_topic <? List.length jurisdictions
       then
         let missing_jurisdictions :=
           filter (fun j => negb (Py.mem j jurisdictions_with_topic))
                  jurisdictions in
         [(topic, missing_jurisdictions)]
       else [])
    (all_topics jt).

Definition gap_statement (entry : string * list string) : string :=
  "Topic '" ++ fst entry ++ "' is missing in jurisdictions: "
    ++ Py.join ", " (snd entry).

Definition identify_regulatory_gaps (clauses : list ExtractedClause.t)
  : list string :=
  map gap_statement (gap_entries clauses).

End CompareAgent.

(** ** Summarize agent ([app/agents/summarize_agent.py]) *)

Module SummarizeAgent.

Definition more_than (k n : nat) : option nat :=
  if k <? n then Some (n - k) else None.

Definition _summarize_documents (documents : list Document.t)
  : option (nat * list RegionDigest) :=
  match documents with
  | [] => None
  | _ =>
      let regions :=
        fold_left
          (fun regions doc =>
             Dict.append (ExtractAgent.region_or_unknown doc) doc regions)
          documents [] in
      Some (List.length documents,
            map (fun '(region, docs) =>
                   {| rd_region := region;
                      rd_count := List.length docs;
                      rd_shown :=
                        map (fun doc => (Document.title doc,
                                         Document.source doc))
                            (firstn 3 docs);
                      rd_more := more_than 3 (List.length docs) |})
                regions)
  end.

Definition _summarize_clauses (clauses : list ExtractedClause.t)
  : option (nat * list TopicDigest) :=
  match clauses with
  | [] => None
  | _ =>
      let topics :=
        fold_left
          (fun topics clause =>
             Dict.append (ExtractedClause.topic clause) clause topics)
          clauses [] in
      Some (List.length clauses,
            map (fun '(topic, topic_clauses) =>
                   {| td_topic := topic;
                      td_count := List.length topic_clauses;
                      td_shown :=
                        map (fun clause =>
                               Py.take 100
                                 (ExtractedClause.clause_text clause))
                            (firstn 2 topic_clauses);
                      td_more := more_than 2 (List.length topic_clauses) |})
                topics)
  end.

Definition count_if_any {A} (l : list A) : option nat :=
  match l with [] => None | _ => Some (List.length l) end.

(** One comparison of the digest; formatting a score that is [None]
    with [:.2f] raises [TypeError]. *)
Definition digest_comparison (comparison : Comparison.t)
  : Result ComparisonDigest :=
  match Comparison.comparison_score comparison with
  | None => Raise "unsupported format string passed to NoneType.__format__"
  | Some score =>
      Ok {| cd_topic := Comparison.topic comparison;
            cd_jurisdictions :=
              Py.join ", " (Comparison.jurisdictions_compared comparison);
            cd_score := score;
            cd_similarities :=
              count_if_any (Comparison.similarities comparison);
            cd_differences :=
              count_if_any (Comparison.differences comparison);
            cd_gaps := count_if_any (Comparison.gaps comparison) |}
  end.

Fixpoint digest_all (comparisons : list Comparison.t)
  : Result (list ComparisonDigest) :=
  match comparisons with
  | [] => Ok []
  | c :: cs =>
      match digest_comparison c with
      | Raise e => Raise e
      | Ok d =>
          match digest_all cs with
          | Raise e => Raise e
          | Ok ds => Ok (d :: ds)
          end
      end
  end.

Definition _summarize_comparisons (comparisons : list Comparison.t)
  : Result (option (nat * list ComparisonDigest)) :=
  match comparisons with
  | [] => Ok None
  | _ =>
      match digest_all comparisons with
      | Raise e => Raise e
      | Ok ds => Ok (Some (List.length comparisons, ds))
      end
  end.

Definition _create_summary_prompt (query : string)
    (documents : list Document.t) (clauses : list ExtractedClause.t)
    (comparisons : list Comparison.t) : Result SummaryPrompt :=
  let doc_summary := _summarize_documents documents in
  let clause_summary := _summarize_clauses clauses in
  match _summarize_comparisons comparisons with
  | Raise e => Raise e
  | Ok comparison_summary =>
      Ok {| sp_query := query;
            sp_documents := doc_summary;
            sp_clauses := clause_summary;
            sp_comparisons := comparison_summary |}
  end.

Definition _call_ollama (env : Env) (prompt : SummaryPrompt)
  : Result string :=
  ollama_summarize env prompt.

Definition _create_fallback_summary (query : string)
    (documents : list Document.t) (clauses : list ExtractedClause.t)
    (comparisons : list Comparison.t) : Summary.t :=
  let n_documents := Py.str_of_nat (List.length documents) in
  let n_clauses := Py.str_of_nat (List.length clauses) in
  let n_comparisons := Py.str_of_nat (List.length comparisons) in
  let executive_summary :=
    Py.nl
    ++ "This research analyzed AI policy documents in response to the query: "
    ++ Py.dq ++ query ++ Py.dq ++ ". " ++ Py.nl
    ++ "The analysis covered " ++ n_documents
    ++ " documents and extracted " ++ n_clauses ++ " legal clauses "
    ++ Py.nl
    ++ "across " ++ n_comparisons
    ++ " comparative topics. The research provides insights into "
    ++ Py.nl
    ++ "regulatory approaches across different jurisdictions and identifies key policy differences."
    ++ Py.nl in
  let key_findings :=
    ["Analyzed " ++ n_documents
       ++ " policy documents from multiple jurisdictions";
     "Extracted " ++ n_clauses
       ++ " legal clauses covering various regulatory topics";
     "Identified " ++ n_comparisons
       ++ " key areas of regulatory comparison"] in
  let recommendations :=
    ["Consider harmonizing regulatory approaches across jurisdictions";
     "Address identified regulatory gaps in policy frameworks";
     "Monitor emerging AI policy developments in key jurisdictions"] in
  let methodology :=
    Py.nl
    ++ "This research used a multi-agent AI system to:" ++ Py.nl
    ++ "1. Search for relevant AI policy documents using the Tavily API"
    ++ Py.nl
    ++ "2. Extract key legal clauses using local LLM analysis" ++ Py.nl
    ++ "3. Compare regulatory approaches across jurisdictions" ++ Py.nl
    ++ "4. Generate policy recommendations based on the analysis"
    ++ Py.nl in
  let limitations :=
    ["Analysis limited to publicly available documents";
     "Language barriers may affect document coverage";
     "Rapidly evolving nature of AI policy may affect currency of findings"]
  in
  Summary.mk (Py.strip executive_summary) key_findings recommendations
             (Py.strip methodology) limitations.

Definition _parse_summary_response (env : Env) (response query : string)
    (documents : list Document.t) (clauses : list ExtractedClause.t)
    (comparisons : list Comparison.t) : Result Summary.t :=
  let json_start := Py.find "{" response in
  let json_end := (Py.rfind "}" response + 1)%Z in
  if (json_start =? -1)%Z || (json_end =? 0)%Z
  then Ok (_create_fallback_summary query documents clauses comparisons)
  else
    let json_str := Py.slice response json_start json_end in
    match json_loads env json_str with
    | None =>
        Ok (_create_fallback_summary query documents clauses comparisons)
    | Some summary_data =>
        match json_get summary_data "executive_summary" (JStr ""),
              json_get summary_data "key_findings" (JArr []),
              json_get summary_data "recommendations" (JArr []),
              json_get summary_data "methodology" (JStr ""),
              json_get summary_data "limitations" (JArr [])
        with
        | Ok j_exec, Ok j_find, Ok j_rec, Ok j_meth, Ok j_lim =>
            match as_str env j_exec, as_str_list env j_find,
                  as_str_list env j_rec, as_str env j_meth,
                  as_str_list env j_lim
            with
            | Some exec, Some findings, Some recs, Some meth, Some lims =>
                Ok (Summary.mk exec findings recs meth lims)
            | _, _, _, _, _ => Raise "validation error for Summary"
            end
        | _, _, _, _, _ => Raise "object has no attribute 'get'"
        end
    end.

Definition generate_summary (env : Env) (query : string)
    (documents : list Document.t) (clauses : list ExtractedClause.t)
    (comparisons : list Comparison.t) : Result Summary.t :=
  match _create_summary_prompt query documents clauses comparisons with
  | Raise e => Raise e
  | Ok prompt =>
      match _call_ollama env prompt with
      | Raise e => Raise e
      | Ok response =>
          _parse_summary_response env response query documents clauses
                                  comparisons
      end
  end.

End SummarizeAgent.

(** ** Workflow ([app/workflow/research_workflow.py]) *)

Module Workflow.

Record Progress : Type := {
  search_agent : Q;
  extract_agent : Q;
  compare_agent : Q;
  summarize_agent : Q
}.

(** The state dictionary of the graph. *)
Record State : Type := mkState {
  query : string;
  regions : list string;
  document_types : list string;
  max_documents : Z;
  status : QueryStatus;
  progress : Progress;
  documents : list Document.t;
  clauses : list ExtractedClause.t;
  comparisons : list Comparison.t;
  summary : option Summary.t;
  result : option ResearchResult.t;
  error : option string
}.

Definition set_status (v : QueryStatus) (s : State) : State :=
  mkState (query s) (regions s) (document_types s) (max_documents s) v
          (progress s) (documents s) (clauses s) (comparisons s)
          (summary s) (result s) (error s).

Definition set_progress (v : Progress) (s : State) : State :=
  mkState (query s) (regions s) (document_types s) (max_documents s)
          (status s) v (documents s) (clauses s) (comparisons s)
          (summary s) (result s) (error s).

Definition set_documents (v : list Document.t) (s : State) : State :=
  mkState (query s) (regions s) (document_types s) (max_documents s)
          (status s) (progress s) v (clauses s) (comparisons s)
          (summary s) (result s) (error s).

Definition set_clauses (v : list ExtractedClause.t) (s : State) : State :=
  mkState (query s) (regions s) (document_types s) (max_documents s)
          (status s) (progress s) (documents s) v (comparisons s)
          (summary s) (result s) (error s).

Definition set_comparisons (v : list Comparison.t) (s : State) : State :=
  mkState (query s) (regions s) (document_types s) (max_documents s)
          (status s) (progress s) (documents s) (clauses s) v
          (summary s) (result s) (error s).

Definition set_summary (v : option Summary.t) (s : State) : State :=
  mkState (query s) (regions s) (document_types s) (max_documents s)
          (status s) (progress s) (documents s) (clauses s) (comparisons s)
          v (result s) (error s).

Definition set_result (v : option ResearchResult.t) (s : State) : State :=
  mkState (query s) (regions s) (document_types s) (max_documents s)
          (status s) (progress s) (documents s) (clauses s) (comparisons s)
          (summary s) v (error s).

Definition set_error (v : option string) (s : State) : State :=
  mkState (query s) (regions s) (document_types s) (max_documents s)
          (status s) (progress s) (documents s) (clauses s) (comparisons s)
          (summary s) (result s) v.

Definition set_search_agent (v : Q) (p : Progress) : Progress :=
  {| search_agent := v; extract_agent := extract_agent p;
     compare_agent := compare_agent p;
     summarize_agent := summarize_agent p |}.

Definition set_extract_agent (v : Q) (p : Progress) : Progress :=
  {| search_agent := search_agent p; extract_agent := v;
     compare_agent := compare_agent p;
     summarize_agent := summarize_agent p |}.

Definition set_compare_agent (v : Q) (p : Progress) : Progress :=
  {| search_agent := search_agent p; extract_agent := extract_agent p;
     compare_agent := v; summarize_agent := summarize_agent p |}.

Definition set_summarize_agent (v : Q) (p : Progress) : Progress :=
  {| search_agent := search_agent p; extract_agent := extract_agent p;
     compare_agent := compare_agent p; summarize_agent := v |}.

(** The [except] clause shared by the nodes:
    [state["error"] = f"<label> failed: {str(e)}"] and
    [state["status"] = FAILED]. *)
Definition fail (label e : string) (state : State) : State :=
  set_status FAILED (set_error (Some (label ++ " failed: " ++ e)) state).

Definition _search_node (env : Env) (state : State) : State :=
  let state := set_status SEARCHING state in
  let state := set_progress (set_search_agent 0 (progress state)) state in
  match SearchAgent.search_documents env (query state)
          (Some (regions state)) (Some (document_types state)) with
  | Raise e => fail "Search" e state
  | Ok documents =>
      let documents :=
        if (max_documents state =? 0)%Z then documents
        else Py.list_upto (max_documents state) documents in
      let state := set_documents documents state in
      set_progress (set_search_agent 1 (progress state)) state
  end.

Definition _extract_node (env : Env) (state : State) : State :=
  let state := set_status EXTRACTING state in
  let state := set_progress (set_extract_agent 0 (progress state)) state in
  match ExtractAgent.extract_clauses env (documents state) with
  | Raise e => fail "Extraction" e state
  | Ok clauses =>
      let validated_clauses := ExtractAgent.validate_clauses clauses in
      let state := set_clauses validated_clauses state in
      set_progress (set_extract_agent 1 (progress state)) state
  end.

Definition _compare_node (env : Env) (state : State) : State :=
  let state := set_status COMPARING state in
  let state := set_progress (set_compare_agent 0 (progress state)) state in
  match CompareAgent.compare_clauses env (clauses state) with
  | Raise e => fail "Comparison" e state
  | Ok comparisons =>
      let state := set_comparisons comparisons state in
      set_progress (set_compare_agent 1 (progress state)) state
  end.

Definition _summarize_node (env : Env) (state : State) : State :=
  let state := set_status SUMMARIZING state in
  let state :=
    set_progress (set_summarize_agent 0 (progress state)) state in
  match SummarizeAgent.generate_summary env (query state)
          (documents state) (clauses state) (comparisons state) with
  | Raise e => fail "Summarization" e state
  | Ok summary =>
      let state := set_summary (Some summary) state in
      set_progress (set_summarize_agent 1 (progress state)) state
  end.

(** Building the [ResearchResult] from a state of this type raises
    nothing; the time stamp [completed_at] is left out. *)
Definition _finalize_node (state : State) : State :=
  let result :=
    ResearchResult.mk (query state) (documents state) (clauses state)
      (comparisons state) (summary state) (regions state)
      (document_types state) (max_documents state) in
  let state := set_result (Some result) state in
  set_status COMPLETED state.

(** [state.get("error")] as a condition. *)
Definition has_error (state : State) : bool :=
  match error state with
  | Some e => negb (Py.is_empty e)
  | None => false
  end.

Definition _should_continue (state : State) : string :=
  if has_error state then "error" else "continue".

(** *** The graph built by [_create_workflow] *)

Inductive Node : Type := search | extract | compare | summarize | finalize.

Inductive Target : Type := To (n : Node) | END.

Definition node_eqb (a b : Node) : bool :=
  match a, b with
  | search, search | extract, extract | compare, compare
  | summarize, summarize | finalize, finalize => true
  | _, _ => false
  end.

Definition node_fn (env : Env) (n : Node) : State -> State :=
  match n with
  | search => _search_node env
  | extract => _extract_node env
  | compare => _compare_node env
  | summarize => _summarize_node env
  | finalize => _finalize_node
  end.

Definition entry_point : Node := search.

Definition edges : list (Node * Target) :=
  [(search, To extract); (extract, To compare); (compare, To summarize);
   (summarize, To finalize); (finalize, END)].

Definition conditional_edges : list (Node * list (string * Target)) :=
  [(search, [("continue", To extract); ("error", END)]);
   (extract, [("continue", To compare); ("error", END)]);
   (compare, [("continue", To summarize); ("error", END)]);
   (summarize, [("continue", To finalize); ("error", END)])].

Fixpoint lookup_node {V} (n : Node) (l : list (Node * V)) : option V :=
  match l with
  | [] => None
  | (m, v) :: l' => if node_eqb m n then Some v else lookup_node n l'
  end.

(** The executor of the compiled graph ([StateGraph.compile(...).ainvoke])
    belongs to the langgraph package, which is not part of the
    repository.  After a node has returned, a compiled graph runs every
    node that an edge leaving it names: [add_edge] and
    [add_conditional_edges] both add to the edges of a node, neither
    replaces the other.  [edge_targets] lists what the edges of [n] name
    once [n] has returned [state]: the targets of its plain edges, then
    the branch that the router of its conditional edge selects. *)
Definition edge_targets (n : Node) (state : State) : list Target :=
  (map snd (filter (fun e => node_eqb (fst e) n) edges)
   ++ match lookup_node n conditional_edges with
      | Some mapping =>
          match Dict.get mapping (_should_continue state) with
          | Some t => [t]
          | None => []
          end
      | None => []
      end)%list.

(** The nodes to run next, each once; [END] names none. *)
Definition next_nodes (n : Node) (state : State) : list Node :=
  fold_left
    (fun acc t =>
       match t with
       | To m => if existsb (node_eqb m) acc then acc else (acc ++ [m])%list
       | END => acc
       end)
    (edge_targets n state) [].

(** A run with one node at a time: [None] is a run that names two nodes
    at once or does not end within the given number of steps; neither
    happens on this graph. *)
Fixpoint run_graph (fuel : nat) (env : Env) (n : Node) (state : State)
  : option (list (Node * State) * State) :=
  match fuel with
  | O => None
  | S fuel' =>
      let state' := node_fn env n state in
      match next_nodes n state' with
      | [] => Some ([(n, state')], state')
      | [m] =>
          match run_graph fuel' env m state' with
          | None => None
          | Some (trace, final) => Some ((n, state') :: trace, final)
          end
      | _ => None
      end
  end.

(** The run of the graph from its entry point: the nodes executed, each
    with the state it returned, and the final state. *)
Definition ainvoke (env : Env) (initial_state : State)
  : option (list (Node * State) * State) :=
  run_graph (List.length edges) env entry_point initial_state.

(** [x or default] on an optional list. *)
Definition list_or_empty (o : option (list string)) : list string :=
  match o with Some l => l | None => [] end.

(** [research_query.max_documents or 10] *)
Definition max_documents_or_10 (o : option Z) : Z :=
  match o with
  | Some n => if (n =? 0)%Z then 10%Z else n
  | None => 10%Z
  end.

Definition initial_state (research_query : ResearchQuery.t) : State :=
  {| query := ResearchQuery.query research_query;
     regions := list_or_empty (ResearchQuery.regions research_query);
     document_types :=
       list_or_empty (ResearchQuery.document_types research_query);
     max_documents :=
       max_documents_or_10 (ResearchQuery.max_documents research_query);
     status := PENDING;
     progress := {| search_agent := 0; extract_agent := 0;
                    compare_agent := 0; summarize_agent := 0 |};
     documents := [];
     clauses := [];
     comparisons := [];
     summary := None;
     result := None;
     error := None |}.

(** [run_research] as [app/api/routes.py] calls it, without [config]
    overrides.  [None] stands for a graph run that did not end. *)
Definition run_research (env : Env) (research_query : ResearchQuery.t)
  : option (Result (option ResearchResult.t)) :=
  match ainvoke env (initial_state research_query) with
  | None => None
  | Some (_, final_state) =>
      if has_error final_state
      then Some (Raise ("Workflow failed: "
                          ++ match error final_state with
                             | Some e => e
                             | None => ""
                             end))
      else Some (Ok (result final_state))
  end.

End Workflow.

(** ** Sample collaborators and inputs *)

Module Samples.

Definition strict_str (j : Json) : option string :=
  match j with JStr s => Some s | _ => None end.

Definition strict_str_list (j : Json) : option (list string) :=
  match j with
  | JArr items =>
      fold_right
        (fun item acc =>
           match strict_str item, acc with
           | Some s, Some l => Some (s :: l)
           | _, _ => None
           end)
        (Some []) items
  | _ => None
  end.

Definition strict_opt_str_list (j : Json) : option (option (list string)) :=
  match j with
  | JNull => Some None
  | _ => option_map Some (strict_str_list j)
  end.

Definition strict_opt_float (j : Json) : option (option Q) :=
  match j with
  | JNull => Some None
  | JNum q => Some (Some q)
  | _ => None
  end.

Definition strict_float (j : Json) : option Q :=
  match j with
  | JNum q => Some q
  | _ => None
  end.

Definition member {A} (key : string) (make : A -> Json) (value : option A)
  : list (string * Json) :=
  match value with
  | Some v => [(key, make v)]
  | None => []
  end.

(** The entry of the search response that holds the given fields. *)
Definition entry (fields : RawResult.t) : Json :=
  JObj (member "title" JStr (RawResult.title fields)
        ++ member "url" JStr (RawResult.url fields)
        ++ member "content" JStr (RawResult.content fields)
        ++ member "source" JStr (RawResult.source fields)
        ++ member "score" JNum (RawResult.score fields)
        ++ (if RawResult.published_date fields
            then [("published_date", JStr "2024-03-13")]
            else []))%list.

Definition response_of (found : Result (option (list RawResult.t)))
  : Result (option (list Json)) :=
  match found with
  | Ok (Some results) => Ok (Some (map entry results))
  | Ok None => Ok None
  | Raise e => Raise e
  end.

(** An environment whose decoder rejects every text, built from the
    answers of the four providers. *)
Definition env_of (found : Result (option (list RawResult.t)))
    (extract_reply compare_reply summarize_reply : Result string) : Env :=
  {| tavily_search := fun _ => response_of found;
     ollama_extract := fun _ => extract_reply;
     ollama_compare := fun _ => compare_reply;
     ollama_summarize := fun _ => summarize_reply;
     json_loads := fun _ => None;
     as_str := strict_str;
     as_str_list := strict_str_list;
     as_opt_str_list := strict_opt_str_list;
     as_opt_float := strict_opt_float;
     as_float := strict_float |}.

Definition raw (title url content : string) : RawResult.t :=
  RawResult.mk (Some title) (Some url) (Some content) None None false.

Definition plain_query (text : string) (max_documents : option Z)
  : ResearchQuery.t :=
  ResearchQuery.mk text None None max_documents.

Definition clause (topic jurisdiction : string) : ExtractedClause.t :=
  ExtractedClause.mk
    "Providers must keep a record of every automated decision."
    "requirement" topic jurisdiction "doc" (Some (9 # 10)) None.

(** Two clauses on one topic, written in different case, from the same
    jurisdiction. *)
Definition eu_only : list ExtractedClause.t :=
  [clause "Safety" "EU"; clause "safety" "EU"].

(** The same topic covered by two jurisdictions. *)
Definition eu_and_us : list ExtractedClause.t :=
  [clause "Safety" "EU"; clause "safety" "US"].

(** One European and one American result. *)
Definition two_results : list RawResult.t :=
  [raw "EU AI Act" "https://europa.eu/ai-act"
       "The regulation lays down harmonised rules.";
   raw "Executive Order" "https://whitehouse.gov/eo"
       "A federal order on safe and trustworthy systems."].

(** A reply that is not valid JSON but holds a line the text scan
    recognises. *)
Definition scanned_reply : string :=
  "[" ++ Py.nl
  ++ Py.dq ++ "clause_text" ++ Py.dq ++ ": " ++ Py.dq
  ++ "Providers of high-risk systems must register them" ++ Py.dq ++ ","
  ++ Py.nl ++ "]".

(** The same reply cut off before its closing bracket. *)
Definition truncated_reply : string :=
  "[" ++ Py.nl
  ++ Py.dq ++ "clause_text" ++ Py.dq ++ ": " ++ Py.dq
  ++ "Providers of high-risk systems must register them" ++ Py.dq ++ ",".

Definition eu_document : Document.t :=
  Document.mk "EU AI Act" "https://europa.eu/ai-act"
    "The regulation lays down harmonised rules." "Unknown"
    (Some "EU") (Some "legislation") (Some (3 # 10)).

(** The extraction endpoint is down; everything else answers. *)
Definition env_extract_down : Env :=
  env_of (Ok (Some two_results)) (Raise "timed out") (Ok "none") (Ok "none").

(** The comparison endpoint is down; extraction answers with
    [scanned_reply]. *)
Definition env_compare_down : Env :=
  env_of (Ok (Some two_results)) (Ok scanned_reply)
         (Raise "503 Service Unavailable") (Ok "none").

(** Twelve results, none of which mentions a jurisdiction keyword. *)
Definition twelve_results : list RawResult.t :=
  repeat (raw "Report" "https://oecd.org/a" "machine learning") 12.

Definition env_twelve : Env :=
  env_of (Ok (Some twelve_results)) (Ok "none") (Ok "none") (Ok "none").

End Samples.

(** * Properties *)

(** ** Validation of extracted clauses *)

(** The quality invariant of a retained clause: stripped text longer than
    20 characters, and a confidence that is present and above 0.5. *)
Definition retained_ok (clause : ExtractedClause.t) : Prop :=
  20 < Py.len (Py.strip (ExtractedClause.clause_text clause))
  /\ exists q, ExtractedClause.confidence_score clause = Some q
               /\ (5 # 10 < q)%Q.

Lemma confidence_ok_iff (clause : ExtractedClause.t) :
  ExtractAgent.confidence_ok clause = true
  <-> exists q, ExtractedClause.confidence_score clause = Some q
                /\ (5 # 10 < q)%Q.
Proof.
  unfold ExtractAgent.confidence_ok.
  destruct (ExtractedClause.confidence_score clause) as [c|].
  - rewrite andb_true_iff, !negb_true_iff. split.
    + intros [_ Hle]. exists c. split; [reflexivity|].
      apply Qnot_le_lt. intro H. apply Qle_bool_iff in H. congruence.
    + intros [q [Hq Hlt]]. injection Hq as <-. split.
      * destruct (Qeq_bool c 0) eqn:E; [|reflexivity].
        apply Qeq_bool_iff in E. rewrite E in Hlt. discriminate.
      * destruct (Qle_bool c (5 # 10)) eqn:E; [|reflexivity].
        apply Qle_bool_iff in E. exfalso. exact (Qlt_not_le _ _ Hlt E).
  - split; [discriminate|]. intros [q [Hq _]]. discriminate.
Qed.

Lemma validate_keeps_iff (clauses : list ExtractedClause.t)
    (clause : ExtractedClause.t) :
  In clause (ExtractAgent.validate_clauses clauses)
  <-> In clause clauses /\ retained_ok clause.
Proof.
  unfold ExtractAgent.validate_clauses, retained_ok.
  rewrite filter_In, andb_true_iff, Nat.ltb_lt, confidence_ok_iff.
  reflexivity.
Qed.

(** C8. After the Extract stage every clause in the context has stripped
    text longer than 20 characters and a confidence that is present and
    above 0.5; the clauses kept are exactly the extracted ones that pass
    both checks, in their order, and dropping the others records no
    error: the stage leaves the error field as it was and completes its
    progress. *)
Theorem C8_validated_clauses_meet_thresholds
    (env : Env) (state : Workflow.State) :
  let state' := Workflow._extract_node env state in
  exists extracted,
    ExtractAgent.extract_clauses env (Workflow.documents state) = Ok extracted
    /\ Workflow.clauses state' = ExtractAgent.validate_clauses extracted
    /\ Forall retained_ok (Workflow.clauses state')
    /\ (forall clause, In clause extracted ->
          (In clause (Workflow.clauses state') <-> retained_ok clause))
    /\ Workflow.error state' = Workflow.error state
    /\ Workflow.status state' = EXTRACTING
    /\ Workflow.extract_agent (Workflow.progress state') = 1%Q.
Proof.
  intros state'.
  exists (flat_map (ExtractAgent._extract_from_document env)
                   (Workflow.documents state)).
  subst state'. unfold Workflow._extract_node, ExtractAgent.extract_clauses.
  cbn -[ExtractAgent.validate_clauses flat_map].
  split; [reflexivity|]. split; [reflexivity|]. split.
  { apply Forall_forall. intros c Hc.
    apply validate_keeps_iff in Hc. exact (proj2 Hc). }
  split.
  { intros c Hc. rewrite validate_keeps_iff. tauto. }
  repeat split; reflexivity.
Qed.

(** ** The document limit *)

(** C9. A query whose [max_documents] is absent or 0 starts the run with a
    limit of 10: the Search stage keeps the first 10 documents found (all
    of them when fewer were found), so never more than 10 and never none
    when some were found. *)
Theorem C9_zero_or_absent_max_documents_means_ten
    (env : Env) (research_query : ResearchQuery.t) :
  ResearchQuery.max_documents research_query = None
  \/ ResearchQuery.max_documents research_query = Some 0%Z ->
  let state0 := Workflow.initial_state research_query in
  Workflow.max_documents state0 = 10%Z
  /\ forall found,
       SearchAgent.search_documents env (Workflow.query state0)
         (Some (Workflow.regions state0))
         (Some (Workflow.document_types state0)) = Ok found ->
       let state1 := Workflow._search_node env state0 in
       Workflow.documents state1 = firstn 10 found
       /\ List.length (Workflow.documents state1)
          = Nat.min 10 (List.length found)
       /\ List.length (Workflow.documents state1) <= 10
       /\ (found <> [] -> Workflow.documents state1 <> []).
Proof.
  intros Hmax state0.
  assert (H10 : Workflow.max_documents state0 = 10%Z).
  { subst state0. unfold Workflow.initial_state. cbn.
    destruct Hmax as [-> | ->]; reflexivity. }
  split; [exact H10|].
  intros found Hfound state1.
  assert (Hdocs : Workflow.documents state1 = firstn 10 found).
  { subst state1. unfold Workflow._search_node.
    cbn [Workflow.query Workflow.regions Workflow.document_types
         Workflow.set_status Workflow.set_progress Workflow.max_documents].
    rewrite Hfound, H10. reflexivity. }
  split; [exact Hdocs|].
  rewrite Hdocs, length_firstn.
  split; [reflexivity|]. split; [apply Nat.le_min_l|].
  destruct found as [|d found']; [congruence|]. discriminate.
Qed.

Lemma C9_witness :
  ResearchQuery.max_documents (Samples.plain_query "ai act" (Some 0%Z))
  = Some 0%Z
  /\ List.length
       (Workflow.documents
          (Workflow._search_node Samples.env_twelve
             (Workflow.initial_state
                (Samples.plain_query "ai act" (Some 0%Z))))) = 10.
Proof.
  split; [reflexivity|].
  destruct (C9_zero_or_absent_max_documents_means_ten Samples.env_twelve
              (Samples.plain_query "ai act" (Some 0%Z))
              (or_intror eq_refl)) as [_ H].
  destruct (H _ eq_refl) as (_ & L & _).
  rewrite L. reflexivity.
Defined.

(** ** Facts about the text primitives and dictionaries *)

Lemma mem_In (x : string) (l : list string) : Py.mem x l = true <-> In x l.
Proof.
  unfold Py.mem. rewrite existsb_exists. split.
  - intros [y [Hy E]]. apply String.eqb_eq in E. subst. exact Hy.
  - intros H. exists x. split; [exact H | apply String.eqb_refl].
Qed.

Lemma mem_false (x : string) (l : list string) :
  Py.mem x l = false <-> ~ In x l.
Proof.
  rewrite <- mem_In. destruct (Py.mem x l); split; congruence.
Qed.

Lemma lower_char_idem (c : ascii) :
  Py.lower_char (Py.lower_char c) = Py.lower_char c.
Proof. destruct c as [[] [] [] [] [] [] [] []]; reflexivity. Qed.

Lemma lower_idem (s : string) : Py.lower (Py.lower s) = Py.lower s.
Proof.
  induction s as [|c s IH]; [reflexivity|].
  cbn [Py.lower]. rewrite lower_char_idem, IH. reflexivity.
Qed.

Section DictFacts.

Context {V : Type} (init : V) (f : V -> V).

Lemma keys_upsert (k : string) (d : Dict.t V) :
  Dict.keys (Dict.upsert init f k d)
  = if Py.mem k (Dict.keys d) then Dict.keys d
    else (Dict.keys d ++ [k])%list.
Proof.
  induction d as [|[k' v] d IH]; [reflexivity|].
  cbn [Dict.upsert Dict.keys map fst Py.mem existsb] in *.
  rewrite (String.eqb_sym k k').
  destruct (String.eqb k' k); [reflexivity|].
  cbn [orb map fst]. fold (Dict.keys d) in *. unfold Py.mem in IH.
  fold (Dict.keys (Dict.upsert init f k d)). rewrite IH.
  destruct (existsb (String.eqb k) (Dict.keys d)); reflexivity.
Qed.

Lemma keys_upsert_In (k k' : string) (d : Dict.t V) :
  In k' (Dict.keys (Dict.upsert init f k d)) <-> k' = k \/ In k' (Dict.keys d).
Proof.
  rewrite keys_upsert. destruct (Py.mem k (Dict.keys d)) eqn:E.
  - apply mem_In in E. split; [tauto|]. intros [->|H]; assumption.
  - rewrite in_app_iff. cbn. intuition congruence.
Qed.

Lemma keys_upsert_NoDup (k : string) (d : Dict.t V) :
  NoDup (Dict.keys d) -> NoDup (Dict.keys (Dict.upsert init f k d)).
Proof.
  intros H. rewrite keys_upsert. destruct (Py.mem k (Dict.keys d)) eqn:E.
  - exact H.
  - apply mem_false in E. apply NoDup_rev in H.
    rewrite <- (rev_involutive (Dict.keys d ++ [k])%list).
    apply NoDup_rev. rewrite rev_app_distr. cbn. constructor.
    + rewrite <- in_rev. exact E.
    + exact H.
Qed.

Lemma get_upsert (k k' : string) (d : Dict.t V) :
  Dict.get (Dict.upsert init f k d) k'
  = if String.eqb k k'
    then Some (f (match Dict.get d k with Some v => v | None => init end))
    else Dict.get d k'.
Proof.
  induction d as [|[k0 v] d IH].
  - cbn. reflexivity.
  - cbn [Dict.upsert Dict.get].
    destruct (String.eqb k0 k) eqn:E0.
    + apply String.eqb_eq in E0. subst k0. cbn [Dict.get].
      destruct (String.eqb k k'); reflexivity.
    + cbn [Dict.get]. rewrite IH.
      destruct (String.eqb k0 k') eqn:E1; [|reflexivity].
      apply String.eqb_eq in E1. subst k0.
      rewrite String.eqb_sym, E0. reflexivity.
Qed.

Lemma get_In (d : Dict.t V) (k : string) (v : V) :
  Dict.get d k = Some v -> In (k, v) d.
Proof.
  induction d as [|[k0 v0] d IH]; [discriminate|].
  cbn [Dict.get]. destruct (String.eqb k0 k) eqn:E.
  - apply String.eqb_eq in E. subst. intros [= ->]. left. reflexivity.
  - intros H. right. exact (IH H).
Qed.

Lemma In_get (d : Dict.t V) (k : string) (v : V) :
  NoDup (Dict.keys d) -> In (k, v) d -> Dict.get d k = Some v.
Proof.
  induction d as [|[k0 v0] d IH]; [intros _ []|].
  cbn [Dict.keys map fst Dict.get]. intros Hnd [Heq | Hin].
  - injection Heq as -> ->. rewrite String.eqb_refl. reflexivity.
  - inversion Hnd as [|? ? Hnot Hnd']. subst.
    destruct (String.eqb k0 k) eqn:E.
    + apply String.eqb_eq in E. subst. exfalso. apply Hnot.
      change k with (fst (k, v)). apply in_map. exact Hin.
    + exact (IH Hnd' Hin).
Qed.

End DictFacts.

Lemma two_distinct_keys {A} (l : list A) :
  NoDup l -> 1 < List.length l ->
  exists a b, In a l /\ In b l /\ a <> b.
Proof.
  intros Hnd Hlen. destruct l as [|a [|b l]]; cbn in Hlen; try lia.
  exists a, b. repeat split; [left; reflexivity | right; left; reflexivity |].
  inversion Hnd as [|? ? Hnot _]. subst. intros ->. apply Hnot. left.
  reflexivity.
Qed.

(** ** Grouping of clauses by topic and jurisdiction *)

(** The grouping key of a clause. *)
Definition topic_key (clause : ExtractedClause.t) : string :=
  Py.lower (ExtractedClause.topic clause).

(** Some clause of the list has topic key [t] and jurisdiction [j]. *)
Definition contributes (clauses : list ExtractedClause.t) (t j : string)
  : Prop :=
  exists clause,
    In clause clauses /\ topic_key clause = t
    /\ ExtractedClause.jurisdiction clause = j.

Lemma contributes_snoc (clauses : list ExtractedClause.t)
    (c : ExtractedClause.t) (t j : string) :
  contributes (clauses ++ [c])%list t j
  <-> contributes clauses t j
      \/ (topic_key c = t /\ ExtractedClause.jurisdiction c = j).
Proof.
  unfold contributes. split.
  - intros [x [Hin [Ht Hj]]]. apply in_app_iff in Hin.
    destruct Hin as [Hin | [<- | []]]; [left; eauto | right; auto].
  - intros [[x [Hin H]] | [Ht Hj]].
    + exists x. split; [apply in_app_iff; left; exact Hin | exact H].
    + exists c. split; [apply in_app_iff; right; left; reflexivity | auto].
Qed.

Lemma group_clauses_snoc (clauses : list ExtractedClause.t)
    (c : ExtractedClause.t) :
  CompareAgent._group_clauses (clauses ++ [c])%list
  = Dict.upsert [] (Dict.append (ExtractedClause.jurisdiction c) c)
      (topic_key c) (CompareAgent._group_clauses clauses).
Proof.
  unfold CompareAgent._group_clauses. rewrite fold_left_app. reflexivity.
Qed.

Lemma group_clauses_inv (clauses : list ExtractedClause.t) :
  NoDup (Dict.keys (CompareAgent._group_clauses clauses))
  /\ forall t js,
       Dict.get (CompareAgent._group_clauses clauses) t = Some js ->
       NoDup (Dict.keys js)
       /\ forall j, In j (Dict.keys js) <-> contributes clauses t j.
Proof.
  induction clauses as [|c clauses IH] using rev_ind.
  - split; [constructor | discriminate].
  - destruct IH as [Hnd Hget]. rewrite group_clauses_snoc. split.
    + apply keys_upsert_NoDup. exact Hnd.
    + intros t js. rewrite get_upsert.
      destruct (String.eqb (topic_key c) t) eqn:E.
      * apply String.eqb_eq in E. intros [= <-].
        unfold Dict.append.
        destruct (Dict.get (CompareAgent._group_clauses clauses)
                           (topic_key c)) as [old|] eqn:Eold.
        -- destruct (Hget _ _ Eold) as [Hnd' Hmem]. split.
           ++ apply keys_upsert_NoDup. exact Hnd'.
           ++ intros j. rewrite keys_upsert_In, contributes_snoc.
              rewrite <- E, Hmem. intuition congruence.
        -- split.
           ++ apply keys_upsert_NoDup. constructor.
           ++ intros j. rewrite keys_upsert_In, contributes_snoc.
              split.
              ** intros [-> | []]. right. auto.
              ** intros [[x [Hin [Ht Hj]]] | [_ Hj]]; [|left; auto].
                 exfalso.
                 assert (Hk : In (topic_key c)
                                 (Dict.keys
                                    (CompareAgent._group_clauses clauses))).
                 { clear - Hin Ht E. rewrite <- E in Ht. clear E.
                   revert Hin. induction clauses as [|y ys IHy] using rev_ind;
                     [intros []|].
                   rewrite group_clauses_snoc, keys_upsert_In, in_app_iff.
                   intros [Hin | [-> | []]]; [right; auto | left; auto]. }
                 clear - Hk Eold.
                 induction (CompareAgent._group_clauses clauses)
                   as [|[k v] d IHd]; [destruct Hk|].
                 cbn in Eold, Hk. destruct (String.eqb k (topic_key c)) eqn:Ek;
                   [discriminate|].
                 destruct Hk as [-> | Hk];
                   [rewrite String.eqb_refl in Ek; discriminate | auto].
      * intros Hjs. destruct (Hget _ _ Hjs) as [Hnd' Hmem].
        split; [exact Hnd'|]. intros j. rewrite contributes_snoc, Hmem.
        apply String.eqb_neq in E. intuition congruence.
Qed.

Lemma group_clauses_entry (clauses : list ExtractedClause.t)
    (t : string) (js : CompareAgent.JurisdictionClauses) :
  In (t, js) (CompareAgent._group_clauses clauses) ->
  NoDup (Dict.keys js)
  /\ forall j, In j (Dict.keys js) <-> contributes clauses t j.
Proof.
  intros Hin. destruct (group_clauses_inv clauses) as [Hnd Hget].
  apply Hget. apply In_get; assumption.
Qed.

(** *** What a produced comparison carries *)

Lemma fallback_comparison_fields (t : string)
    (js : CompareAgent.JurisdictionClauses) :
  Comparison.topic (CompareAgent._create_fallback_comparison t js) = t
  /\ Comparison.jurisdictions_compared
       (CompareAgent._create_fallback_comparison t js) = Dict.keys js.
Proof. split; reflexivity. Qed.

Lemma parse_comparison_fields (env : Env) (response t : string)
    (js : CompareAgent.JurisdictionClauses) (cmp : Comparison.t) :
  CompareAgent._parse_comparison_response env response t js = Ok cmp ->
  Comparison.topic cmp = t
  /\ Comparison.jurisdictions_compared cmp = Dict.keys js.
Proof.
  unfold CompareAgent._parse_comparison_response.
  repeat match goal with
         | |- context [match ?x with _ => _ end] => destruct x
         | |- context [if ?x then _ else _] => destruct x
         end;
    intros H; try discriminate; injection H as <-; split; reflexivity.
Qed.

Lemma compare_topic_fields (env : Env) (t : string)
    (js : CompareAgent.JurisdictionClauses) (cmp : Comparison.t) :
  CompareAgent._compare_topic env t js = Some cmp ->
  Comparison.topic cmp = t
  /\ Comparison.jurisdictions_compared cmp = Dict.keys js.
Proof.
  unfold CompareAgent._compare_topic.
  destruct (CompareAgent._call_ollama env _) as [response|]; [|discriminate].
  destruct (CompareAgent._parse_comparison_response env response t js)
    as [c|] eqn:E; [|discriminate].
  intros [= <-]. exact (parse_comparison_fields _ _ _ _ _ E).
Qed.

Lemma compare_clauses_member (env : Env) (clauses : list ExtractedClause.t)
    (cmp : Comparison.t) :
  In cmp (flat_map
            (fun '(topic, jurisdiction_clauses) =>
               if 1 <? List.length jurisdiction_clauses
               then match CompareAgent._compare_topic env topic
                            jurisdiction_clauses with
                    | Some comparison => [comparison]
                    | None => []
                    end
               else [])
            (CompareAgent._group_clauses clauses)) ->
  exists js,
    In (Comparison.topic cmp, js) (CompareAgent._group_clauses clauses)
    /\ 1 < List.length js
    /\ Comparison.jurisdictions_compared cmp = Dict.keys js.
Proof.
  rewrite in_flat_map. intros [[t js] [Hin Hc]].
  destruct (1 <? List.length js) eqn:Hlen; [|destruct Hc].
  destruct (CompareAgent._compare_topic env t js) as [c|] eqn:E;
    [|destruct Hc].
  destruct Hc as [<- | []].
  destruct (compare_topic_fields _ _ _ _ E) as [Ht Hj]. subst t.
  exists js. apply Nat.ltb_lt in Hlen. auto.
Qed.

(** ** The Compare stage *)

(** C4. A comparison is produced only for a topic key under which two
    clauses of different jurisdictions are grouped; hence a topic whose
    clauses all carry one jurisdiction yields none, and a clause list with
    a single jurisdiction yields no comparison at all. *)
Theorem C4_comparisons_need_two_jurisdictions
    (env : Env) (clauses : list ExtractedClause.t) :
  exists comparisons,
    CompareAgent.compare_clauses env clauses = Ok comparisons
    /\ (forall cmp, In cmp comparisons ->
          exists c1 c2,
            In c1 clauses /\ In c2 clauses
            /\ topic_key c1 = Comparison.topic cmp
            /\ topic_key c2 = Comparison.topic cmp
            /\ ExtractedClause.jurisdiction c1
               <> ExtractedClause.jurisdiction c2)
    /\ (forall t,
          (forall c1 c2, In c1 clauses -> In c2 clauses ->
             topic_key c1 = t -> topic_key c2 = t ->
             ExtractedClause.jurisdiction c1
             = ExtractedClause.jurisdiction c2) ->
          forall cmp, In cmp comparisons -> Comparison.topic cmp <> t)
    /\ ((forall c1 c2, In c1 clauses -> In c2 clauses ->
           ExtractedClause.jurisdiction c1 = ExtractedClause.jurisdiction c2) ->
        comparisons = []).
Proof.
  eexists. split; [reflexivity|].
  assert (Hpair : forall cmp,
             In cmp (flat_map
               (fun '(topic, jurisdiction_clauses) =>
                  if 1 <? List.length jurisdiction_clauses
                  then match CompareAgent._compare_topic env topic
                               jurisdiction_clauses with
                       | Some comparison => [comparison]
                       | None => []
                       end
                  else [])
               (CompareAgent._group_clauses clauses)) ->
             exists c1 c2,
               In c1 clauses /\ In c2 clauses
               /\ topic_key c1 = Comparison.topic cmp
               /\ topic_key c2 = Comparison.topic cmp
               /\ ExtractedClause.jurisdiction c1
                  <> ExtractedClause.jurisdiction c2).
  { intros cmp Hin.
    destruct (compare_clauses_member _ _ _ Hin) as [js [Hg [Hlen _]]].
    destruct (group_clauses_entry _ _ _ Hg) as [Hnd Hmem].
    assert (Hlen' : 1 < List.length (Dict.keys js)).
    { unfold Dict.keys. rewrite length_map. exact Hlen. }
    destruct (two_distinct_keys _ Hnd Hlen') as [j1 [j2 [H1 [H2 Hne]]]].
    apply Hmem in H1. apply Hmem in H2.
    destruct H1 as [c1 [Hc1 [Ht1 Hj1]]]. destruct H2 as [c2 [Hc2 [Ht2 Hj2]]].
    exists c1, c2. repeat split; try assumption. congruence. }
  split; [exact Hpair|]. split.
  - intros t Hsame cmp Hin Ht.
    destruct (Hpair cmp Hin) as [c1 [c2 [H1 [H2 [Ht1 [Ht2 Hne]]]]]].
    apply Hne. apply Hsame; congruence.
  - intros Hsame.
    match goal with |- ?l = [] => destruct l as [|cmp rest] eqn:E end;
      [reflexivity|].
    exfalso.
    destruct (Hpair cmp (or_introl eq_refl))
      as [c1 [c2 [H1 [H2 [_ [_ Hne]]]]]].
    apply Hne. apply Hsame; assumption.
Qed.

Lemma C4_witness :
  (forall c1 c2, In c1 Samples.eu_only -> In c2 Samples.eu_only ->
     ExtractedClause.jurisdiction c1 = ExtractedClause.jurisdiction c2)
  /\ CompareAgent.compare_clauses
       (Samples.env_of (Ok None) (Ok "") (Ok "") (Ok "")) Samples.eu_only
     = Ok [].
Proof.
  assert (Hsame : forall c1 c2,
             In c1 Samples.eu_only -> In c2 Samples.eu_only ->
             ExtractedClause.jurisdiction c1
             = ExtractedClause.jurisdiction c2).
  { intros c1 c2 [<- | [<- | []]] [<- | [<- | []]]; reflexivity. }
  split; [exact Hsame|].
  destruct (C4_comparisons_need_two_jurisdictions
              (Samples.env_of (Ok None) (Ok "") (Ok "") (Ok ""))
              Samples.eu_only) as [comparisons [E [_ [_ Hnone]]]].
  rewrite E, (Hnone Hsame). reflexivity.
Defined.

(** C10. Every comparison the Compare stage produces has as topic the
    lower-cased grouping key of some input clause (so the topic is its
    own lower-casing), and its [jurisdictions_compared] lists, without
    repetition, exactly the jurisdictions of the clauses grouped under
    that key.  Both constructors of a comparison, the structured parse and
    the fallback, copy the key and the jurisdiction keys they are given. *)
Theorem C10_comparison_topic_is_lowercase_key
    (env : Env) (clauses : list ExtractedClause.t) :
  exists comparisons,
    CompareAgent.compare_clauses env clauses = Ok comparisons
    /\ (forall cmp, In cmp comparisons ->
          (exists clause,
              In clause clauses
              /\ Comparison.topic cmp
                 = Py.lower (ExtractedClause.topic clause))
          /\ Py.lower (Comparison.topic cmp) = Comparison.topic cmp
          /\ NoDup (Comparison.jurisdictions_compared cmp)
          /\ forall j,
               In j (Comparison.jurisdictions_compared cmp)
               <-> contributes clauses (Comparison.topic cmp) j)
    /\ (forall response t js cmp,
          CompareAgent._parse_comparison_response env response t js = Ok cmp ->
          Comparison.topic cmp = t
          /\ Comparison.jurisdictions_compared cmp = Dict.keys js)
    /\ (forall t js,
          Comparison.topic (CompareAgent._create_fallback_comparison t js) = t
          /\ Comparison.jurisdictions_compared
               (CompareAgent._create_fallback_comparison t js)
             = Dict.keys js).
Proof.
  eexists. split; [reflexivity|]. split.
  - intros cmp Hin.
    destruct (compare_clauses_member _ _ _ Hin) as [js [Hg [Hlen Hjc]]].
    destruct (group_clauses_entry _ _ _ Hg) as [Hnd Hmem].
    assert (Hkey : exists clause,
               In clause clauses
               /\ Comparison.topic cmp
                  = Py.lower (ExtractedClause.topic clause)).
    { destruct js as [|[j v] js']; [cbn in Hlen; lia|].
      destruct (proj1 (Hmem j)) as [c [Hc [Ht _]]]; [left; reflexivity|].
      exists c. split; [exact Hc | symmetry; exact Ht]. }
    split; [exact Hkey|]. split.
    + destruct Hkey as [c [_ ->]]. apply lower_idem.
    + rewrite Hjc. split; [exact Hnd | exact Hmem].
  - split.
    + intros response t js cmp. apply parse_comparison_fields.
    + intros t js. apply fallback_comparison_fields.
Qed.

Lemma C10_witness :
  CompareAgent.compare_clauses
    (Samples.env_of (Ok None) (Ok "") (Ok "not json") (Ok ""))
    Samples.eu_and_us
  = Ok [CompareAgent._create_fallback_comparison "safety"
          [("EU", [Samples.clause "Safety" "EU"]);
           ("US", [Samples.clause "safety" "US"])]]
  /\ forall cmp,
       In cmp [CompareAgent._create_fallback_comparison "safety"
                 [("EU", [Samples.clause "Safety" "EU"]);
                  ("US", [Samples.clause "safety" "US"])]] ->
       Py.lower (Comparison.topic cmp) = Comparison.topic cmp.
Proof.
  destruct (C10_comparison_topic_is_lowercase_key
              (Samples.env_of (Ok None) (Ok "") (Ok "not json") (Ok ""))
              Samples.eu_and_us) as [comparisons [E [H _]]].
  vm_compute in E. injection E as <-.
  split; [reflexivity|].
  intros cmp Hin. exact (proj1 (proj2 (H cmp Hin))).
Defined.

(** ** Coverage gaps *)

(** Jurisdiction [j] occurs in the clause list. *)
Definition observed (clauses : list ExtractedClause.t) (j : string) : Prop :=
  exists clause,
    In clause clauses /\ ExtractedClause.jurisdiction clause = j.

(** Topic key [t] occurs in the clause list. *)
Definition topic_seen (clauses : list ExtractedClause.t) (t : string)
  : Prop :=
  exists clause, In clause clauses /\ topic_key clause = t.

(** Every observed jurisdiction covers every topic that occurs. *)
Definition same_topics_everywhere (clauses : list ExtractedClause.t) : Prop :=
  forall j t, observed clauses j -> topic_seen clauses t ->
              contributes clauses t j.

(** Any two observed jurisdictions carry the same set of topic keys. *)
Definition same_topic_sets (clauses : list ExtractedClause.t) : Prop :=
  forall j1 j2 t, observed clauses j1 -> observed clauses j2 ->
                  (contributes clauses t j1 <-> contributes clauses t j2).

Lemma same_topic_sets_everywhere (clauses : list ExtractedClause.t) :
  same_topic_sets clauses <-> same_topics_everywhere clauses.
Proof.
  split.
  - intros Hsame j t Hobs [c [Hc Ht]].
    apply (Hsame (ExtractedClause.jurisdiction c) j t).
    + exists c. auto.
    + exact Hobs.
    + exists c. auto.
  - intros Hall j1 j2 t H1 H2. split; intros [c [Hc [Ht _]]].
    + apply Hall; [exact H2 | exists c; auto].
    + apply Hall; [exact H1 | exists c; auto].
Qed.

Lemma keys_get {V} (d : Dict.t V) (k : string) :
  In k (Dict.keys d) -> exists v, Dict.get d k = Some v.
Proof.
  induction d as [|[k0 v0] d IH]; [intros []|].
  cbn [Dict.keys map fst Dict.get]. intros [-> | Hin].
  - rewrite String.eqb_refl. eauto.
  - destruct (String.eqb k0 k); [eauto | exact (IH Hin)].
Qed.

Lemma jurisdiction_topics_snoc (clauses : list ExtractedClause.t)
    (c : ExtractedClause.t) :
  CompareAgent.jurisdiction_topics (clauses ++ [c])%list
  = Dict.add (ExtractedClause.jurisdiction c) (topic_key c)
      (CompareAgent.jurisdiction_topics clauses).
Proof.
  unfold CompareAgent.jurisdiction_topics. rewrite fold_left_app. reflexivity.
Qed.

Lemma observed_snoc (clauses : list ExtractedClause.t)
    (c : ExtractedClause.t) (j : string) :
  observed (clauses ++ [c])%list j
  <-> observed clauses j \/ ExtractedClause.jurisdiction c = j.
Proof.
  unfold observed. split.
  - intros [x [Hin Hj]]. apply in_app_iff in Hin.
    destruct Hin as [Hin | [<- | []]]; [left; eauto | right; auto].
  - intros [[x [Hin H]] | Hj].
    + exists x. split; [apply in_app_iff; left; exact Hin | exact H].
    + exists c. split; [apply in_app_iff; right; left; reflexivity | auto].
Qed.

Lemma jurisdiction_topics_inv (clauses : list ExtractedClause.t) :
  NoDup (Dict.keys (CompareAgent.jurisdiction_topics clauses))
  /\ (forall j, In j (Dict.keys (CompareAgent.jurisdiction_topics clauses))
                <-> observed clauses j)
  /\ forall j ts,
       Dict.get (CompareAgent.jurisdiction_topics clauses) j = Some ts ->
       forall t, In t ts <-> contributes clauses t j.
Proof.
  induction clauses as [|c clauses IH] using rev_ind.
  - split; [constructor|]. split; [|discriminate].
    intros j. split; [intros [] | intros [x [[] _]]].
  - destruct IH as [Hnd [Hkeys Hget]]. rewrite jurisdiction_topics_snoc.
    unfold Dict.add. split; [apply keys_upsert_NoDup; exact Hnd|]. split.
    + intros j. rewrite keys_upsert_In, observed_snoc, Hkeys.
      intuition congruence.
    + intros j ts. rewrite get_upsert.
      destruct (String.eqb (ExtractedClause.jurisdiction c) j) eqn:E.
      * apply String.eqb_eq in E. intros [= <-] t.
        rewrite contributes_snoc.
        assert (Hold : forall old,
                   (forall t', In t' old <-> contributes clauses t' j) ->
                   In t (if Py.mem (topic_key c) old then old
                         else (old ++ [topic_key c])%list)
                   <-> contributes clauses t j
                       \/ topic_key c = t
                          /\ ExtractedClause.jurisdiction c = j).
        { intros old Hold. destruct (Py.mem (topic_key c) old) eqn:M.
          - apply mem_In in M. rewrite Hold. split; [tauto|].
            intros [H | [<- _]]; [exact H | apply Hold; exact M].
          - rewrite in_app_iff, Hold. cbn. intuition congruence. }
        destruct (Dict.get (CompareAgent.jurisdiction_topics clauses)
                    (ExtractedClause.jurisdiction c)) as [old|] eqn:Eold.
        -- apply Hold. intros t'. rewrite <- E. apply Hget. exact Eold.
        -- apply Hold. intros t'. split; [intros []|].
           intros [x [Hin [_ Hj]]]. exfalso.
           assert (Hobs : observed clauses (ExtractedClause.jurisdiction c))
             by (exists x; split; [exact Hin | congruence]).
           apply Hkeys in Hobs. apply keys_get in Hobs.
           destruct Hobs as [v Hv]. congruence.
      * intros Hts t. rewrite contributes_snoc, (Hget _ _ Hts).
        apply String.eqb_neq in E. intuition congruence.
Qed.

Lemma set_update_In (acc topics : list string) (t : string) :
  In t (CompareAgent.set_update acc topics) <-> In t acc \/ In t topics.
Proof.
  unfold CompareAgent.set_update. revert acc.
  induction topics as [|x topics IH]; intros acc; cbn [fold_left].
  - cbn. tauto.
  - rewrite IH. destruct (Py.mem x acc) eqn:M.
    + apply mem_In in M. cbn. intuition congruence.
    + rewrite in_app_iff. cbn. tauto.
Qed.

Lemma all_topics_In (jt : Dict.t (list string)) (t : string) :
  In t (CompareAgent.all_topics jt)
  <-> exists j ts, In (j, ts) jt /\ In t ts.
Proof.
  unfold CompareAgent.all_topics.
  assert (H : forall acc,
             In t (fold_left
                     (fun acc kv => CompareAgent.set_update acc (snd kv))
                     jt acc)
             <-> In t acc \/ exists j ts, In (j, ts) jt /\ In t ts).
  { induction jt as [|[j0 ts0] jt IH]; intros acc; cbn [fold_left].
    - split; [tauto|]. intros [H | [j [ts [[] _]]]]. exact H.
    - rewrite IH, set_update_In. cbn [snd]. split.
      + intros [[H | H] | [j [ts [Hin Ht]]]].
        * left. exact H.
        * right. exists j0, ts0. split; [left; reflexivity | exact H].
        * right. exists j, ts. split; [right; exact Hin | exact Ht].
      + intros [H | [j [ts [[Heq | Hin] Ht]]]].
        * left. left. exact H.
        * injection Heq as -> ->. left. right. exact Ht.
        * right. exists j, ts. split; assumption. }
  rewrite H. cbn. tauto.
Qed.

Lemma all_topics_seen (clauses : list ExtractedClause.t) (t : string) :
  In t (CompareAgent.all_topics (CompareAgent.jurisdiction_topics clauses))
  <-> topic_seen clauses t.
Proof.
  destruct (jurisdiction_topics_inv clauses) as [Hnd [Hkeys Hget]].
  rewrite all_topics_In. split.
  - intros [j [ts [Hin Ht]]]. apply In_get in Hin; [|exact Hnd].
    apply (Hget _ _ Hin) in Ht. destruct Ht as [c [Hc [Hk _]]].
    exists c. split; assumption.
  - intros [c [Hc Hk]].
    assert (Hobs : observed clauses (ExtractedClause.jurisdiction c))
      by (exists c; split; [exact Hc | reflexivity]).
    apply Hkeys in Hobs. destruct (keys_get _ _ Hobs) as [ts Hts].
    exists (ExtractedClause.jurisdiction c), ts. split.
    + apply get_In. exact Hts.
    + apply (Hget _ _ Hts). exists c. auto.
Qed.

Lemma has_topic_iff (clauses : list ExtractedClause.t) (t j : string) :
  In j (Dict.keys (CompareAgent.jurisdiction_topics clauses)) ->
  Py.mem t (CompareAgent.topics_of
              (CompareAgent.jurisdiction_topics clauses) j) = true
  <-> contributes clauses t j.
Proof.
  intros Hj. destruct (jurisdiction_topics_inv clauses) as [_ [_ Hget]].
  destruct (keys_get _ _ Hj) as [ts Hts].
  unfold CompareAgent.topics_of. rewrite Hts, mem_In. apply Hget. exact Hts.
Qed.

Lemma filter_all {A} (p : A -> bool) (l : list A) :
  (forall x, In x l -> p x = true) -> filter p l = l.
Proof.
  induction l as [|a l IH]; intros H; [reflexivity|]. cbn.
  rewrite (H a (or_introl eq_refl)), IH; [reflexivity|].
  intros x Hx. apply H. right. exact Hx.
Qed.

Lemma filter_shorter {A} (p : A -> bool) (l : list A) :
  List.length (filter p l) < List.length l ->
  exists x, In x l /\ p x = false.
Proof.
  induction l as [|a l IH]; cbn; [lia|].
  destruct (p a) eqn:E.
  - cbn. intros H. destruct IH as [x [Hx Hp]]; [lia|].
    exists x. split; [right; exact Hx | exact Hp].
  - intros _. exists a. split; [left; reflexivity | exact E].
Qed.

Lemma filter_not_shorter {A} (p : A -> bool) (l : list A) :
  List.length l <= List.length (filter p l) ->
  forall x, In x l -> p x = true.
Proof.
  induction l as [|a l IH]; [intros _ x []|].
  cbn. assert (Hle := filter_length_le p l).
  destruct (p a) eqn:E; cbn; intros H x [<- | Hx];
    [exact E | apply IH; [lia | exact Hx] | lia | lia].
Qed.

Lemma gap_entries_In (clauses : list ExtractedClause.t)
    (t : string) (m : list string) :
  In (t, m) (CompareAgent.gap_entries clauses) ->
  topic_seen clauses t
  /\ m <> []
  /\ forall j, In j m <-> observed clauses j /\ ~ contributes clauses t j.
Proof.
  unfold CompareAgent.gap_entries. rewrite in_flat_map.
  intros [t' [Hseen Hin]].
  set (jt := CompareAgent.jurisdiction_topics clauses) in *.
  set (J := Dict.keys jt) in *.
  set (withs := filter (fun j => Py.mem t' (CompareAgent.topics_of jt j)) J)
    in *.
  destruct (List.length withs <? List.length J) eqn:Hlt; [|destruct Hin].
  destruct Hin as [Heq | []]. injection Heq as -> <-.
  apply Nat.ltb_lt in Hlt.
  destruct (jurisdiction_topics_inv clauses) as [_ [Hkeys _]].
  assert (Hm : forall j,
             In j (filter (fun j => negb (Py.mem j withs)) J)
             <-> observed clauses j /\ ~ contributes clauses t j).
  { intros j. rewrite filter_In, negb_true_iff, mem_false.
    subst withs. rewrite filter_In. subst J jt. rewrite Hkeys. split.
    - intros [Hobs Hnot]. split; [exact Hobs|]. intros Hc. apply Hnot.
      split; [exact Hobs|]. apply has_topic_iff; [apply Hkeys|]; assumption.
    - intros [Hobs Hnot]. split; [exact Hobs|]. intros [_ Hc]. apply Hnot.
      apply has_topic_iff in Hc; [exact Hc | apply Hkeys; exact Hobs]. }
  split; [apply all_topics_seen; exact Hseen|]. split; [|exact Hm].
  destruct (filter_shorter _ _ Hlt) as [j [Hj Hp]].
  intros Hnil.
  assert (Hjm : In j (filter (fun j => negb (Py.mem j withs)) J)).
  { apply Hm. subst J jt. split; [apply Hkeys; exact Hj|]. intros Hc.
    apply has_topic_iff in Hc; [|exact Hj]. congruence. }
  rewrite Hnil in Hjm. destruct Hjm.
Qed.

Lemma gap_entries_complete (clauses : list ExtractedClause.t)
    (t j : string) :
  topic_seen clauses t -> observed clauses j -> ~ contributes clauses t j ->
  exists m, In (t, m) (CompareAgent.gap_entries clauses) /\ In j m.
Proof.
  intros Hseen Hobs Hnot.
  destruct (jurisdiction_topics_inv clauses) as [_ [Hkeys _]].
  unfold CompareAgent.gap_entries.
  set (jt := CompareAgent.jurisdiction_topics clauses) in *.
  set (J := Dict.keys jt) in *.
  set (withs := filter (fun j => Py.mem t (CompareAgent.topics_of jt j)) J).
  exists (filter (fun j => negb (Py.mem j withs)) J).
  assert (HjJ : In j J) by (apply Hkeys; exact Hobs).
  assert (Hjw : ~ In j withs).
  { subst withs. rewrite filter_In. intros [_ Hc].
    apply has_topic_iff in Hc; [exact (Hnot Hc) | exact HjJ]. }
  split.
  - apply in_flat_map. exists t. split; [apply all_topics_seen; exact Hseen|].
    fold withs.
    assert (Hlt : List.length withs < List.length J).
    { destruct (Nat.lt_ge_cases (List.length withs) (List.length J))
        as [H | H]; [exact H|].
      exfalso. apply Hjw. subst withs.
      assert (Hall := filter_not_shorter _ _ H).
      rewrite (filter_all _ _ Hall). exact HjJ. }
    apply Nat.ltb_lt in Hlt. rewrite Hlt. left. reflexivity.
  - rewrite filter_In, negb_true_iff, mem_false. split; assumption.
Qed.

(** C7. When all observed jurisdictions carry the same set of lower-cased
    topics, no gap is reported.  A gap entry exists only for a topic that occurs
    and that some observed jurisdiction lacks, and it lists exactly the
    observed jurisdictions lacking it; a topic covered by all observed
    jurisdictions has no entry; each such lacking topic has an entry; and
    every reported statement renders one entry, naming its topic and its
    jurisdictions. *)
Theorem C7_gaps_only_for_uncovered_topics
    (clauses : list ExtractedClause.t) :
  (same_topic_sets clauses ->
   CompareAgent.identify_regulatory_gaps clauses = [])
  /\ (forall t m, In (t, m) (CompareAgent.gap_entries clauses) ->
        topic_seen clauses t
        /\ m <> []
        /\ forall j, In j m
                     <-> observed clauses j /\ ~ contributes clauses t j)
  /\ (forall t,
        (forall j, observed clauses j -> contributes clauses t j) ->
        forall m, ~ In (t, m) (CompareAgent.gap_entries clauses))
  /\ (forall t j,
        topic_seen clauses t -> observed clauses j ->
        ~ contributes clauses t j ->
        exists m, In (t, m) (CompareAgent.gap_entries clauses) /\ In j m)
  /\ (forall g, In g (CompareAgent.identify_regulatory_gaps clauses) ->
        exists t m,
          In (t, m) (CompareAgent.gap_entries clauses)
          /\ g = "Topic '" ++ t ++ "' is missing in jurisdictions: "
                   ++ Py.join ", " m).
Proof.
  assert (Hcovered : forall t,
             (forall j, observed clauses j -> contributes clauses t j) ->
             forall m, ~ In (t, m) (CompareAgent.gap_entries clauses)).
  { intros t Hall m Hin.
    destruct (gap_entries_In _ _ _ Hin) as [_ [Hne Hm]].
    destruct m as [|j m']; [congruence|].
    destruct (proj1 (Hm j) (or_introl eq_refl)) as [Hobs Hnot].
    exact (Hnot (Hall j Hobs)). }
  split; [|split; [|split; [|split]]].
  - intros Hsame. apply same_topic_sets_everywhere in Hsame.
    unfold CompareAgent.identify_regulatory_gaps.
    destruct (CompareAgent.gap_entries clauses) as [|[t m] rest] eqn:E;
      [reflexivity|].
    exfalso.
    assert (Hin : In (t, m) (CompareAgent.gap_entries clauses))
      by (rewrite E; left; reflexivity).
    destruct (gap_entries_In _ _ _ Hin) as [Hseen _].
    apply (Hcovered t) with (m := m); [|left; reflexivity].
    intros j Hobs. apply Hsame; assumption.
  - apply gap_entries_In.
  - exact Hcovered.
  - apply gap_entries_complete.
  - intros g Hg. unfold CompareAgent.identify_regulatory_gaps in Hg.
    apply in_map_iff in Hg. destruct Hg as [[t m] [<- Hin]].
    exists t, m. split; [exact Hin | reflexivity].
Qed.

Lemma C7_witness :
  same_topic_sets Samples.eu_and_us
  /\ CompareAgent.identify_regulatory_gaps Samples.eu_and_us = [].
Proof.
  assert (Hsame : same_topic_sets Samples.eu_and_us).
  { apply same_topic_sets_everywhere.
    intros j t [c [Hc Hj]] [c' [Hc' Ht]].
    destruct Hc' as [<- | [<- | []]]; cbn in Ht; subst t;
      destruct Hc as [<- | [<- | []]]; cbn in Hj; subst j.
    - exists (Samples.clause "Safety" "EU"). cbn. auto.
    - exists (Samples.clause "safety" "US"). cbn. auto.
    - exists (Samples.clause "Safety" "EU"). cbn. auto.
    - exists (Samples.clause "safety" "US"). cbn. auto. }
  split; [exact Hsame|].
  exact (proj1 (C7_gaps_only_for_uncovered_topics Samples.eu_and_us) Hsame).
Defined.

(** ** The workflow engine *)

(** The name under which a node reports its failure. *)
Definition stage_label (n : Workflow.Node) : string :=
  match n with
  | Workflow.search => "Search"
  | Workflow.extract => "Extraction"
  | Workflow.compare => "Comparison"
  | Workflow.summarize => "Summarization"
  | Workflow.finalize => "Finalization"
  end.

(** What the plain edge of [n] names. *)
Definition successor (n : Workflow.Node) : Workflow.Target :=
  match n with
  | Workflow.search => Workflow.To Workflow.extract
  | Workflow.extract => Workflow.To Workflow.compare
  | Workflow.compare => Workflow.To Workflow.summarize
  | Workflow.summarize => Workflow.To Workflow.finalize
  | Workflow.finalize => Workflow.END
  end.

Lemma failed_has_error (n : Workflow.Node) (msg : string)
    (state : Workflow.State) :
  Workflow.error state = Some (stage_label n ++ " failed: " ++ msg) ->
  Workflow.has_error state = true.
Proof.
  unfold Workflow.has_error. intros ->. destruct n; reflexivity.
Qed.

Lemma no_error_has_error (state : Workflow.State) :
  Workflow.error state = None -> Workflow.has_error state = false.
Proof. unfold Workflow.has_error. intros ->. reflexivity. Qed.

(** The router's answer is one of the two edges it can select, and the
    plain edge of the node is among the edges in either case. *)
Lemma edge_targets_of (n : Workflow.Node) (state : Workflow.State) :
  Workflow.edge_targets n state
  = match n with
    | Workflow.finalize => [Workflow.END]
    | _ =>
        [successor n;
         if Workflow.has_error state then Workflow.END else successor n]
    end.
Proof.
  unfold Workflow.edge_targets, Workflow._should_continue.
  destruct (Workflow.has_error state); destruct n; reflexivity.
Qed.

(** Whatever the state, the next node is the one the plain edge names. *)
Lemma next_nodes_successor (n : Workflow.Node) (state : Workflow.State) :
  Workflow.next_nodes n state
  = match successor n with
    | Workflow.To m => [m]
    | Workflow.END => []
    end.
Proof.
  unfold Workflow.next_nodes. rewrite edge_targets_of.
  destruct (Workflow.has_error state); destruct n; reflexivity.
Qed.

Lemma run_graph_step (fuel : nat) (env : Env) (n : Workflow.Node)
    (state : Workflow.State) :
  Workflow.run_graph (S fuel) env n state
  = match successor n with
    | Workflow.END =>
        Some ([(n, Workflow.node_fn env n state)],
              Workflow.node_fn env n state)
    | Workflow.To m =>
        match Workflow.run_graph fuel env m (Workflow.node_fn env n state)
        with
        | None => None
        | Some (trace, final) =>
            Some ((n, Workflow.node_fn env n state) :: trace, final)
        end
    end.
Proof.
  cbn [Workflow.run_graph]. rewrite next_nodes_successor.
  destruct (successor n); reflexivity.
Qed.

(** The states of a run, node after node. *)
Definition after_search (env : Env) (state0 : Workflow.State)
  : Workflow.State := Workflow._search_node env state0.
Definition after_extract (env : Env) (state0 : Workflow.State)
  : Workflow.State := Workflow._extract_node env (after_search env state0).
Definition after_compare (env : Env) (state0 : Workflow.State)
  : Workflow.State := Workflow._compare_node env (after_extract env state0).
Definition after_summarize (env : Env) (state0 : Workflow.State)
  : Workflow.State :=
  Workflow._summarize_node env (after_compare env state0).
Definition after_finalize (env : Env) (state0 : Workflow.State)
  : Workflow.State := Workflow._finalize_node (after_summarize env state0).

(** Every run executes the five nodes, in the order of the plain edges,
    whatever a node recorded. *)
Lemma ainvoke_runs_every_node (env : Env) (state0 : Workflow.State) :
  Workflow.ainvoke env state0
  = Some ([(Workflow.search, after_search env state0);
           (Workflow.extract, after_extract env state0);
           (Workflow.compare, after_compare env state0);
           (Workflow.summarize, after_summarize env state0);
           (Workflow.finalize, after_finalize env state0)],
          after_finalize env state0).
Proof.
  unfold Workflow.ainvoke, Workflow.entry_point.
  change (List.length Workflow.edges) with 5.
  repeat (rewrite run_graph_step; cbn [successor Workflow.node_fn]).
  unfold after_finalize, after_summarize, after_compare, after_extract,
    after_search.
  reflexivity.
Qed.

(** C2 fails on the code.  With the search provider down, the Search
    node records its error and the router answers "error", which selects
    [END]; but the plain edge of the node names Extract as well, so the
    run goes on: all five nodes execute, and the finalize step builds a
    result and sets [COMPLETED] over the recorded error. *)
Theorem C2_error_does_not_stop_the_run :
  exists trace final s,
    Workflow.ainvoke
      (Samples.env_of (Raise "connection refused") (Ok "") (Ok "") (Ok ""))
      (Workflow.initial_state (Samples.plain_query "ai act" None))
    = Some (trace, final)
    /\ nth_error trace 0 = Some (Workflow.search, s)
    /\ Workflow.status s = FAILED
    /\ Workflow.error s = Some "Search failed: connection refused"
    /\ Workflow._should_continue s = "error"
    /\ Workflow.edge_targets Workflow.search s
       = [Workflow.To Workflow.extract; Workflow.END]
    /\ map fst trace
       = [Workflow.search; Workflow.extract; Workflow.compare;
          Workflow.summarize; Workflow.finalize]
    /\ Workflow.status final = COMPLETED
    /\ Workflow.error final = Some "Search failed: connection refused"
    /\ Workflow.result final <> None.
Proof.
  eexists. eexists. eexists.
  split; [apply ainvoke_runs_every_node|].
  split; [reflexivity|].
  split; [reflexivity|]. split; [reflexivity|]. split; [reflexivity|].
  split; [reflexivity|]. split; [reflexivity|]. split; [reflexivity|].
  split; [reflexivity|]. vm_compute. discriminate.
Qed.

(** ** Provider failures, stage by stage *)

Lemma search_documents_raise (env : Env) (query : string)
    (regions document_types : option (list string)) (e : string) :
  tavily_search env
    (SearchAgent._build_search_query query regions document_types) = Raise e ->
  SearchAgent.search_documents env query regions document_types = Raise e.
Proof.
  intros H. unfold SearchAgent.search_documents, SearchAgent._perform_search.
  rewrite H. reflexivity.
Qed.

Lemma search_node_ok (env : Env) (state : Workflow.State)
    (found : list Document.t) :
  SearchAgent.search_documents env (Workflow.query state)
    (Some (Workflow.regions state)) (Some (Workflow.document_types state))
  = Ok found ->
  Workflow.error (Workflow._search_node env state) = Workflow.error state.
Proof.
  intros H. unfold Workflow._search_node.
  cbn [Workflow.query Workflow.regions Workflow.document_types
       Workflow.set_status Workflow.set_progress].
  rewrite H. reflexivity.
Qed.

Lemma search_node_raise (env : Env) (state : Workflow.State) (e : string) :
  SearchAgent.search_documents env (Workflow.query state)
    (Some (Workflow.regions state)) (Some (Workflow.document_types state))
  = Raise e ->
  Workflow.error (Workflow._search_node env state)
  = Some ("Search failed: " ++ e)
  /\ Workflow.status (Workflow._search_node env state) = FAILED.
Proof.
  intros H. unfold Workflow._search_node.
  cbn [Workflow.query Workflow.regions Workflow.document_types
       Workflow.set_status Workflow.set_progress].
  rewrite H. split; reflexivity.
Qed.

Lemma extract_node_error (env : Env) (state : Workflow.State) :
  Workflow.error (Workflow._extract_node env state) = Workflow.error state.
Proof. reflexivity. Qed.

Lemma compare_node_error (env : Env) (state : Workflow.State) :
  Workflow.error (Workflow._compare_node env state) = Workflow.error state.
Proof. reflexivity. Qed.

Lemma summarize_node_raise (env : Env) (state : Workflow.State) (e : string) :
  SummarizeAgent.generate_summary env (Workflow.query state)
    (Workflow.documents state) (Workflow.clauses state)
    (Workflow.comparisons state) = Raise e ->
  Workflow.error (Workflow._summarize_node env state)
  = Some ("Summarization failed: " ++ e)
  /\ Workflow.status (Workflow._summarize_node env state) = FAILED.
Proof.
  intros H. unfold Workflow._summarize_node.
  cbn [Workflow.query Workflow.documents Workflow.clauses Workflow.comparisons
       Workflow.set_status Workflow.set_progress].
  rewrite H. split; reflexivity.
Qed.

Lemma summarize_node_ok (env : Env) (state : Workflow.State)
    (summary : Summary.t) :
  SummarizeAgent.generate_summary env (Workflow.query state)
    (Workflow.documents state) (Workflow.clauses state)
    (Workflow.comparisons state) = Ok summary ->
  Workflow.error (Workflow._summarize_node env state) = Workflow.error state
  /\ Workflow.summary (Workflow._summarize_node env state) = Some summary.
Proof.
  intros H. unfold Workflow._summarize_node.
  cbn [Workflow.query Workflow.documents Workflow.clauses Workflow.comparisons
       Workflow.set_status Workflow.set_progress].
  rewrite H. split; reflexivity.
Qed.

(** The state that reaches the Summarize stage. *)
Definition state_before_summarize (env : Env)
    (research_query : ResearchQuery.t) : Workflow.State :=
  Workflow._compare_node env
    (Workflow._extract_node env
       (Workflow._search_node env (Workflow.initial_state research_query))).

(** When the search succeeds, the run reaches the Summarize stage and
    continues from it. *)
Lemma run_reaches_summarize (env : Env) (research_query : ResearchQuery.t)
    (found : list Document.t) :
  let state0 := Workflow.initial_state research_query in
  SearchAgent.search_documents env (Workflow.query state0)
    (Some (Workflow.regions state0)) (Some (Workflow.document_types state0))
  = Ok found ->
  Workflow.error (state_before_summarize env research_query) = None
  /\ Workflow.ainvoke env state0
     = match Workflow.run_graph 2 env Workflow.summarize
               (state_before_summarize env research_query) with
       | None => None
       | Some (trace, final) =>
           Some ((Workflow.search, Workflow._search_node env state0)
                 :: (Workflow.extract,
                     Workflow._extract_node env
                       (Workflow._search_node env state0))
                 :: (Workflow.compare,
                     state_before_summarize env research_query)
                 :: trace, final)
       end.
Proof.
  intros state0 Hfound.
  assert (H1 : Workflow.error (Workflow._search_node env state0) = None).
  { rewrite (search_node_ok _ _ _ Hfound). reflexivity. }
  assert (H3 : Workflow.error (state_before_summarize env research_query)
               = None).
  { unfold state_before_summarize.
    rewrite compare_node_error, extract_node_error. exact H1. }
  split; [exact H3|].
  unfold Workflow.ainvoke, Workflow.entry_point.
  change (List.length Workflow.edges) with 5.
  rewrite run_graph_step. cbn [successor Workflow.node_fn].
  rewrite run_graph_step. cbn [successor Workflow.node_fn].
  rewrite run_graph_step. cbn [successor Workflow.node_fn].
  unfold state_before_summarize. fold state0.
  destruct (Workflow.run_graph 2 env Workflow.summarize _)
    as [[trace final]|]; reflexivity.
Qed.

(** C1, as stated, fails on the code.  With the extraction endpoint down
    for every document, and likewise with the comparison endpoint down
    for the one topic that two jurisdictions share, the run executes all
    five nodes and ends [COMPLETED] with no error recorded. *)
Lemma C1_counterexample :
  (forall prompt,
      ollama_extract Samples.env_extract_down prompt = Raise "timed out")
  /\ (forall prompt,
        ollama_compare Samples.env_compare_down prompt
        = Raise "503 Service Unavailable")
  /\ exists trace1 final1 trace2 final2,
       Workflow.ainvoke Samples.env_extract_down
         (Workflow.initial_state (Samples.plain_query "compare ai rules" None))
       = Some (trace1, final1)
       /\ Workflow.ainvoke Samples.env_compare_down
            (Workflow.initial_state
               (Samples.plain_query "compare ai rules" None))
          = Some (trace2, final2)
       /\ map fst trace1
          = [Workflow.search; Workflow.extract; Workflow.compare;
             Workflow.summarize; Workflow.finalize]
       /\ map fst trace2 = map fst trace1
       /\ List.length (Workflow.documents final1) = 2
       /\ Workflow.clauses final1 = []
       /\ Workflow.status final1 = COMPLETED
       /\ Workflow.error final1 = None
       /\ map ExtractedClause.jurisdiction (Workflow.clauses final2)
          = ["EU"; "US"]
       /\ map ExtractedClause.topic (Workflow.clauses final2)
          = ["general"; "general"]
       /\ Workflow.comparisons final2 = []
       /\ Workflow.status final2 = COMPLETED
       /\ Workflow.error final2 = None.
Proof.
  split; [reflexivity|]. split; [reflexivity|].
  destruct (Workflow.ainvoke Samples.env_extract_down
              (Workflow.initial_state
                 (Samples.plain_query "compare ai rules" None)))
    as [[trace1 final1]|] eqn:E1; [|vm_compute in E1; discriminate].
  destruct (Workflow.ainvoke Samples.env_compare_down
              (Workflow.initial_state
                 (Samples.plain_query "compare ai rules" None)))
    as [[trace2 final2]|] eqn:E2; [|vm_compute in E2; discriminate].
  exists trace1, final1, trace2, final2.
  split; [reflexivity|]. split; [reflexivity|].
  vm_compute in E1. injection E1 as <- <-.
  vm_compute in E2. injection E2 as <- <-.
  repeat split; reflexivity.
Qed.

(** C1, amended.  A failure of the search provider makes the Search
    stage record the provider's message prefixed by "Search failed: " and
    set the status [FAILED], and a failure of the summary provider makes
    the Summarize stage do the same with "Summarization failed: "; on
    either state the routing function answers "error".  A failure of the
    extraction provider on a document yields no clause for that
    document, and a failure of the comparison provider on a topic yields
    no comparison for that topic; neither of these two stages records an
    error or fails. *)
Theorem C1_provider_errors_by_stage (env : Env) :
  (forall state e,
      tavily_search env
        (SearchAgent._build_search_query (Workflow.query state)
           (Some (Workflow.regions state))
           (Some (Workflow.document_types state))) = Raise e ->
      Workflow.status (Workflow._search_node env state) = FAILED
      /\ Workflow.error (Workflow._search_node env state)
         = Some ("Search failed: " ++ e)
      /\ Workflow._should_continue (Workflow._search_node env state)
         = "error")
  /\ (forall state prompt e,
        SummarizeAgent._create_summary_prompt (Workflow.query state)
          (Workflow.documents state) (Workflow.clauses state)
          (Workflow.comparisons state) = Ok prompt ->
        ollama_summarize env prompt = Raise e ->
        Workflow.status (Workflow._summarize_node env state) = FAILED
        /\ Workflow.error (Workflow._summarize_node env state)
           = Some ("Summarization failed: " ++ e)
        /\ Workflow._should_continue (Workflow._summarize_node env state)
           = "error")
  /\ (forall document e,
        ollama_extract env (ExtractAgent._create_extraction_prompt document)
        = Raise e ->
        ExtractAgent._extract_from_document env document = [])
  /\ (forall topic jurisdiction_clauses e,
        ollama_compare env
          (CompareAgent._create_comparison_prompt topic jurisdiction_clauses)
        = Raise e ->
        CompareAgent._compare_topic env topic jurisdiction_clauses = None)
  /\ (forall state,
        Workflow.error (Workflow._extract_node env state)
        = Workflow.error state
        /\ Workflow.status (Workflow._extract_node env state) = EXTRACTING
        /\ Workflow.error (Workflow._compare_node env state)
           = Workflow.error state
        /\ Workflow.status (Workflow._compare_node env state) = COMPARING).
Proof.
  split; [|split; [|split; [|split]]].
  - intros state e He.
    apply search_documents_raise in He.
    destruct (search_node_raise _ _ _ He) as [Herr Hstatus].
    split; [exact Hstatus|]. split; [exact Herr|].
    unfold Workflow._should_continue.
    rewrite (failed_has_error Workflow.search e _ Herr). reflexivity.
  - intros state prompt e Hprompt He.
    assert (Hgen : SummarizeAgent.generate_summary env (Workflow.query state)
                     (Workflow.documents state) (Workflow.clauses state)
                     (Workflow.comparisons state) = Raise e).
    { unfold SummarizeAgent.generate_summary. rewrite Hprompt.
      unfold SummarizeAgent._call_ollama. rewrite He. reflexivity. }
    destruct (summarize_node_raise _ _ _ Hgen) as [Herr Hstatus].
    split; [exact Hstatus|]. split; [exact Herr|].
    unfold Workflow._should_continue.
    rewrite (failed_has_error Workflow.summarize e _ Herr). reflexivity.
  - intros document e He. unfold ExtractAgent._extract_from_document,
      ExtractAgent._call_ollama. rewrite He. reflexivity.
  - intros topic js e He. unfold CompareAgent._compare_topic,
      CompareAgent._call_ollama. rewrite He. reflexivity.
  - intros state. repeat split; reflexivity.
Qed.

Lemma C1_witness :
  tavily_search
    (Samples.env_of (Raise "connection refused") (Ok "") (Ok "") (Ok ""))
    "ai act artificial intelligence AI machine learning algorithm"
  = Raise "connection refused"
  /\ Workflow.status
       (Workflow._search_node
          (Samples.env_of (Raise "connection refused") (Ok "") (Ok "")
             (Ok ""))
          (Workflow.initial_state (Samples.plain_query "ai act" None)))
     = FAILED
  /\ Workflow.error
       (Workflow._search_node
          (Samples.env_of (Raise "connection refused") (Ok "") (Ok "")
             (Ok ""))
          (Workflow.initial_state (Samples.plain_query "ai act" None)))
     = Some "Search failed: connection refused".
Proof.
  split; [reflexivity|].
  destruct (proj1 (C1_provider_errors_by_stage
                     (Samples.env_of (Raise "connection refused")
                        (Ok "") (Ok "") (Ok "")))
                  (Workflow.initial_state (Samples.plain_query "ai act" None))
                  "connection refused" eq_refl)
    as [Hstatus [Herr _]].
  split; [exact Hstatus | exact Herr].
Defined.

(** ** The fallback summary *)

(** [t] occurs in [s] as a contiguous piece. *)
Definition occurs_in (t s : string) : Prop :=
  exists pre post, s = pre ++ t ++ post.

Lemma append_assoc (a b c : string) : (a ++ b) ++ c = a ++ (b ++ c).
Proof.
  induction a as [|x a IH]; [reflexivity|]. cbn. rewrite IH. reflexivity.
Qed.

Lemma append_empty_r (a : string) : a ++ "" = a.
Proof.
  induction a as [|x a IH]; [reflexivity|]. cbn. rewrite IH. reflexivity.
Qed.

Lemma is_empty_append (a b : string) :
  Py.is_empty b = false -> Py.is_empty (a ++ b) = false.
Proof. intros H. destruct a; [exact H | reflexivity]. Qed.

Lemma rstrip_append (a b : string) :
  Py.is_empty (Py.rstrip b) = false -> Py.rstrip (a ++ b) = a ++ Py.rstrip b.
Proof.
  intros H. induction a as [|x a IH]; [reflexivity|].
  cbn [append Py.rstrip]. rewrite IH, (is_empty_append _ _ H), andb_false_r.
  reflexivity.
Qed.

Lemma rstrip_append_nonempty (a b : string) :
  Py.is_empty (Py.rstrip b) = false ->
  Py.is_empty (Py.rstrip (a ++ b)) = false.
Proof.
  intros H. rewrite (rstrip_append _ _ H). apply is_empty_append. exact H.
Qed.

Lemma lstrip_after_newline (a rest : string) :
  match a with
  | String c _ => Py.isspace c
  | EmptyString => true
  end = false ->
  Py.lstrip (Py.nl ++ a ++ rest) = a ++ rest.
Proof.
  destruct a as [|c a]; [discriminate|]. intros H. cbn. rewrite H.
  reflexivity.
Qed.

Lemma fallback_executive_summary (query : string)
    (documents : list Document.t) (clauses : list ExtractedClause.t)
    (comparisons : list Comparison.t) :
  Summary.executive_summary
    (SummarizeAgent._create_fallback_summary query documents clauses
       comparisons)
  = "This research analyzed AI policy documents in response to the query: "
    ++ Py.dq ++ query ++ Py.dq ++ ". " ++ Py.nl
    ++ "The analysis covered " ++ Py.str_of_nat (List.length documents)
    ++ " documents and extracted " ++ Py.str_of_nat (List.length clauses)
    ++ " legal clauses " ++ Py.nl
    ++ "across " ++ Py.str_of_nat (List.length comparisons)
    ++ " comparative topics. The research provides insights into "
    ++ Py.nl
    ++ "regulatory approaches across different jurisdictions and identifies key policy differences.".
Proof.
  unfold SummarizeAgent._create_fallback_summary.
  cbn [Summary.executive_summary]. unfold Py.strip.
  rewrite lstrip_after_newline by reflexivity.
  repeat (rewrite rstrip_append
            by (repeat (first [ reflexivity
                              | apply rstrip_append_nonempty ]))).
  reflexivity.
Qed.

(** The response holds no text that [json.loads] accepts between its first
    opening and its last closing brace. *)
Definition no_json_object (env : Env) (response : string) : Prop :=
  let json_start := Py.find "{" response in
  let json_end := (Py.rfind "}" response + 1)%Z in
  json_start = (-1)%Z
  \/ json_end = 0%Z
  \/ json_loads env (Py.slice response json_start json_end) = None.

Lemma parse_summary_fallback (env : Env) (response query : string)
    (documents : list Document.t) (clauses : list ExtractedClause.t)
    (comparisons : list Comparison.t) :
  no_json_object env response ->
  SummarizeAgent._parse_summary_response env response query documents
    clauses comparisons
  = Ok (SummarizeAgent._create_fallback_summary query documents clauses
          comparisons).
Proof.
  unfold no_json_object, SummarizeAgent._parse_summary_response.
  intros [H | [H | H]].
  - rewrite H. reflexivity.
  - rewrite H. rewrite orb_true_r. reflexivity.
  - rewrite H. destruct (_ || _); reflexivity.
Qed.

Lemma fallback_counts_occur (query : string)
    (documents : list Document.t) (clauses : list ExtractedClause.t)
    (comparisons : list Comparison.t) :
  let fallback :=
    SummarizeAgent._create_fallback_summary query documents clauses
      comparisons in
  occurs_in (Py.str_of_nat (List.length documents) ++ " documents")
            (Summary.executive_summary fallback)
  /\ occurs_in (Py.str_of_nat (List.length clauses) ++ " legal clauses")
               (Summary.executive_summary fallback)
  /\ occurs_in (Py.str_of_nat (List.length comparisons)
                  ++ " comparative topics")
               (Summary.executive_summary fallback)
  /\ Summary.key_findings fallback
     = ["Analyzed " ++ Py.str_of_nat (List.length documents)
          ++ " policy documents from multiple jurisdictions";
        "Extracted " ++ Py.str_of_nat (List.length clauses)
          ++ " legal clauses covering various regulatory topics";
        "Identified " ++ Py.str_of_nat (List.length comparisons)
          ++ " key areas of regulatory comparison"].
Proof.
  intros fallback. subst fallback. rewrite fallback_executive_summary.
  split; [|split; [|split]].
  - exists ("This research analyzed AI policy documents in response to the query: "
            ++ Py.dq ++ query ++ Py.dq ++ ". " ++ Py.nl
            ++ "The analysis covered ").
    eexists. rewrite !append_assoc. reflexivity.
  - exists ("This research analyzed AI policy documents in response to the query: "
            ++ Py.dq ++ query ++ Py.dq ++ ". " ++ Py.nl
            ++ "The analysis covered " ++ Py.str_of_nat (List.length documents)
            ++ " documents and extracted ").
    eexists. rewrite !append_assoc. reflexivity.
  - exists ("This research analyzed AI policy documents in response to the query: "
            ++ Py.dq ++ query ++ Py.dq ++ ". " ++ Py.nl
            ++ "The analysis covered " ++ Py.str_of_nat (List.length documents)
            ++ " documents and extracted "
            ++ Py.str_of_nat (List.length clauses)
            ++ " legal clauses " ++ Py.nl ++ "across ").
    eexists. rewrite !append_assoc. reflexivity.
  - reflexivity.
Qed.

(** C6. When the reply of the summary collaborator holds no JSON object
    that parses, the Summarize stage returns the fallback summary, which
    depends only on the query and on the documents, clauses and
    comparisons of the context; its text contains their three counts in
    decimal; the run executes the finalize step and ends [COMPLETED] with
    no error, the fallback being the summary of the result. *)
Theorem C6_unparsable_summary_falls_back
    (env : Env) (research_query : ResearchQuery.t)
    (found : list Document.t) (prompt : SummaryPrompt) (response : string) :
  let state0 := Workflow.initial_state research_query in
  let state3 := state_before_summarize env research_query in
  let fallback :=
    SummarizeAgent._create_fallback_summary (Workflow.query state3)
      (Workflow.documents state3) (Workflow.clauses state3)
      (Workflow.comparisons state3) in
  SearchAgent.search_documents env (Workflow.query state0)
    (Some (Workflow.regions state0)) (Some (Workflow.document_types state0))
  = Ok found ->
  SummarizeAgent._create_summary_prompt (Workflow.query state3)
    (Workflow.documents state3) (Workflow.clauses state3)
    (Workflow.comparisons state3) = Ok prompt ->
  ollama_summarize env prompt = Ok response ->
  no_json_object env response ->
  exists trace final,
    Workflow.ainvoke env state0 = Some (trace, final)
    /\ map fst trace
       = [Workflow.search; Workflow.extract; Workflow.compare;
          Workflow.summarize; Workflow.finalize]
    /\ Workflow.status final = COMPLETED
    /\ Workflow.error final = None
    /\ Workflow.summary final = Some fallback
    /\ Workflow.documents final = Workflow.documents state3
    /\ Workflow.clauses final = Workflow.clauses state3
    /\ Workflow.comparisons final = Workflow.comparisons state3
    /\ (exists r,
          Workflow.run_research env research_query = Some (Ok (Some r))
          /\ ResearchResult.summary r = Some fallback)
    /\ occurs_in
         (Py.str_of_nat (List.length (Workflow.documents final))
            ++ " documents")
         (Summary.executive_summary fallback)
    /\ occurs_in
         (Py.str_of_nat (List.length (Workflow.clauses final))
            ++ " legal clauses")
         (Summary.executive_summary fallback)
    /\ occurs_in
         (Py.str_of_nat (List.length (Workflow.comparisons final))
            ++ " comparative topics")
         (Summary.executive_summary fallback)
    /\ Summary.key_findings fallback
       = ["Analyzed "
            ++ Py.str_of_nat (List.length (Workflow.documents final))
            ++ " policy documents from multiple jurisdictions";
          "Extracted "
            ++ Py.str_of_nat (List.length (Workflow.clauses final))
            ++ " legal clauses covering various regulatory topics";
          "Identified "
            ++ Py.str_of_nat (List.length (Workflow.comparisons final))
            ++ " key areas of regulatory comparison"].
Proof.
  intros state0 state3 fallback Hfound Hprompt Hreply Hgarbage.
  destruct (run_reaches_summarize env research_query found Hfound)
    as [Hnone Hrun].
  fold state0 in Hrun. fold state3 in Hrun, Hnone.
  assert (Hgen : SummarizeAgent.generate_summary env (Workflow.query state3)
                   (Workflow.documents state3) (Workflow.clauses state3)
                   (Workflow.comparisons state3) = Ok fallback).
  { unfold SummarizeAgent.generate_summary. rewrite Hprompt.
    unfold SummarizeAgent._call_ollama. rewrite Hreply.
    apply parse_summary_fallback. exact Hgarbage. }
  destruct (summarize_node_ok _ _ _ Hgen) as [Herr Hsum].
  rewrite Hnone in Herr.
  rewrite run_graph_step in Hrun
    by (apply no_error_has_error; exact Herr).
  cbn [successor Workflow.node_fn] in Hrun.
  rewrite run_graph_step in Hrun
    by (apply no_error_has_error; exact Herr).
  cbn [successor Workflow.node_fn] in Hrun.
  set (state4 := Workflow._summarize_node env state3) in *.
  assert (Hdocs : Workflow.documents state4 = Workflow.documents state3
                  /\ Workflow.clauses state4 = Workflow.clauses state3
                  /\ Workflow.comparisons state4
                     = Workflow.comparisons state3).
  { subst state4. unfold Workflow._summarize_node.
    cbn [Workflow.query Workflow.documents Workflow.clauses
         Workflow.comparisons Workflow.set_status Workflow.set_progress].
    rewrite Hgen. repeat split. }
  destruct Hdocs as [Hd [Hc Hm]].
  exists [(Workflow.search, Workflow._search_node env state0);
          (Workflow.extract,
           Workflow._extract_node env (Workflow._search_node env state0));
          (Workflow.compare, state3);
          (Workflow.summarize, state4);
          (Workflow.finalize, Workflow._finalize_node state4)],
         (Workflow._finalize_node state4).
  split; [exact Hrun|]. split; [reflexivity|]. split; [reflexivity|].
  split; [exact Herr|]. split; [exact Hsum|].
  split; [exact Hd|]. split; [exact Hc|]. split; [exact Hm|].
  split.
  { unfold Workflow.run_research. fold state0. rewrite Hrun.
    unfold Workflow.has_error.
    cbn [Workflow._finalize_node Workflow.error Workflow.set_status
         Workflow.set_result Workflow.result].
    rewrite Herr. eexists. split; [reflexivity|]. exact Hsum. }
  cbn [Workflow._finalize_node Workflow.documents Workflow.clauses
       Workflow.comparisons Workflow.set_status Workflow.set_result].
  rewrite Hd, Hc, Hm.
  apply fallback_counts_occur.
Qed.

Lemma C6_witness :
  no_json_object Samples.env_twelve "none"
  /\ exists trace final,
       Workflow.ainvoke Samples.env_twelve
         (Workflow.initial_state (Samples.plain_query "ai act" None))
       = Some (trace, final)
       /\ Workflow.status final = COMPLETED
       /\ option_map Summary.key_findings (Workflow.summary final)
          = Some ["Analyzed 10 policy documents from multiple jurisdictions";
                  "Extracted 0 legal clauses covering various regulatory topics";
                  "Identified 0 key areas of regulatory comparison"].
Proof.
  assert (Hgarbage : no_json_object Samples.env_twelve "none")
    by (left; reflexivity).
  split; [exact Hgarbage|].
  destruct (C6_unparsable_summary_falls_back Samples.env_twelve
              (Samples.plain_query "ai act" None) _ _ "none"
              eq_refl eq_refl eq_refl Hgarbage)
    as [trace [final [Hrun [_ [Hstatus [_ [Hsum _]]]]]]].
  exists trace, final. split; [exact Hrun|]. split; [exact Hstatus|].
  rewrite Hsum. vm_compute. reflexivity.
Defined.

(** ** Region inference in the Search stage *)

Lemma prefix_iff (p s : string) :
  String.prefix p s = true <-> exists post, s = p ++ post.
Proof.
  revert s. induction p as [|a p IH]; intros s.
  - destruct s; cbn; split; eauto.
  - destruct s as [|b s]; cbn.
    + split; [discriminate | intros [post H]; discriminate].
    + destruct (ascii_dec a b) as [<- | Hne].
      * rewrite IH. split; intros [post H]; exists post; congruence.
      * split; [discriminate|]. intros [post H]. congruence.
Qed.

Lemma contains_iff (t s : string) :
  Py.contains t s = true <-> occurs_in t s.
Proof.
  unfold occurs_in. induction s as [|c s IH].
  - cbn [Py.contains]. rewrite orb_false_r, prefix_iff. split.
    + intros [post H]. exists "", post. exact H.
    + intros [pre [post H]]. destruct pre; [|discriminate].
      exists post. exact H.
  - cbn [Py.contains]. rewrite orb_true_iff, prefix_iff, IH. split.
    + intros [[post H] | [pre [post H]]].
      * exists "", post. exact H.
      * exists (String c pre), post. cbn. congruence.
    + intros [pre [post H]]. destruct pre as [|c' pre].
      * left. exists post. exact H.
      * right. exists pre, post. cbn in H. congruence.
Qed.

(** Some term of the vocabulary occurs in the lower-cased content or URL
    of the result. *)
Definition mentions (terms : list string) (result : RawResult.t) : Prop :=
  exists term,
    In term terms
    /\ (occurs_in term
          (Py.lower (SearchAgent.opt_str "" (RawResult.content result)))
        \/ occurs_in term
             (Py.lower (SearchAgent.opt_str "" (RawResult.url result)))).

Lemma any_term_iff (terms : list string) (result : RawResult.t) :
  SearchAgent.any_term terms
    (Py.lower (SearchAgent.opt_str "" (RawResult.content result)))
    (Py.lower (SearchAgent.opt_str "" (RawResult.url result))) = true
  <-> mentions terms result.
Proof.
  unfold SearchAgent.any_term, mentions. rewrite existsb_exists.
  split; intros [term [Hin H]]; exists term; split; try exact Hin.
  - apply orb_true_iff in H. rewrite !contains_iff in H. exact H.
  - apply orb_true_iff. rewrite !contains_iff. exact H.
Qed.

(** The region given to a result when the requested regions are [regions]
    and none or several were requested. *)
Definition inferred_region (fallback : string) (result : RawResult.t)
    (region : string) : Prop :=
  (mentions SearchAgent.eu_terms result -> region = "EU")
  /\ (~ mentions SearchAgent.eu_terms result ->
      mentions SearchAgent.us_terms result -> region = "US")
  /\ (~ mentions SearchAgent.eu_terms result ->
      ~ mentions SearchAgent.us_terms result ->
      mentions SearchAgent.uk_terms result -> region = "UK")
  /\ (~ mentions SearchAgent.eu_terms result ->
      ~ mentions SearchAgent.us_terms result ->
      ~ mentions SearchAgent.uk_terms result -> region = fallback).

Lemma extract_region_inferred (result : RawResult.t)
    (regions : option (list string)) (fallback : string) :
  (regions = None /\ fallback = "Global")
  \/ (regions = Some [] /\ fallback = "Unknown") ->
  inferred_region fallback result (SearchAgent._extract_region result regions).
Proof.
  intros Hreg.
  assert (E : SearchAgent._extract_region result regions
              = if SearchAgent.any_term SearchAgent.eu_terms
                     (Py.lower (SearchAgent.opt_str ""
                                  (RawResult.content result)))
                     (Py.lower (SearchAgent.opt_str "" (RawResult.url result)))
                then "EU"
                else if SearchAgent.any_term SearchAgent.us_terms
                     (Py.lower (SearchAgent.opt_str ""
                                  (RawResult.content result)))
                     (Py.lower (SearchAgent.opt_str "" (RawResult.url result)))
                then "US"
                else if SearchAgent.any_term SearchAgent.uk_terms
                     (Py.lower (SearchAgent.opt_str ""
                                  (RawResult.content result)))
                     (Py.lower (SearchAgent.opt_str "" (RawResult.url result)))
                then "UK"
                else fallback).
  { destruct Hreg as [[-> ->] | [-> ->]]; reflexivity. }
  rewrite E. clear E Hreg.
  pose proof (any_term_iff SearchAgent.eu_terms result) as Heu.
  pose proof (any_term_iff SearchAgent.us_terms result) as Hus.
  pose proof (any_term_iff SearchAgent.uk_terms result) as Huk.
  unfold inferred_region.
  destruct (SearchAgent.any_term SearchAgent.eu_terms _ _);
    destruct (SearchAgent.any_term SearchAgent.us_terms _ _);
    destruct (SearchAgent.any_term SearchAgent.uk_terms _ _);
    repeat split; intros;
    try reflexivity;
    repeat match goal with
           | H : ~ mentions _ _, I : true = true <-> mentions _ _ |- _ =>
               exfalso; apply H; apply I; reflexivity
           | H : mentions _ _, I : false = true <-> mentions _ _ |- _ =>
               apply I in H; discriminate
           end.
Qed.

Lemma insert_desc_In (d x : Document.t) (l : list Document.t) :
  In x (SearchAgent.insert_desc d l) <-> x = d \/ In x l.
Proof.
  induction l as [|d' l IH]; cbn.
  - intuition congruence.
  - destruct (Qle_bool _ _); cbn; [intuition congruence|].
    rewrite IH. intuition congruence.
Qed.

Lemma sort_desc_In (x : Document.t) (l : list Document.t) :
  In x (SearchAgent.sort_desc l) <-> In x l.
Proof.
  unfold SearchAgent.sort_desc. induction l as [|d l IH]; cbn; [tauto|].
  rewrite insert_desc_In, IH. intuition congruence.
Qed.

Lemma firstn_In {A} (n : nat) (l : list A) (x : A) :
  In x (firstn n l) -> In x l.
Proof.
  intros H. rewrite <- (firstn_skipn n l). apply in_or_app. left. exact H.
Qed.

Lemma list_upto_In {A} (k : Z) (l : list A) (x : A) :
  In x (Py.list_upto k l) -> In x l.
Proof.
  unfold Py.list_upto. destruct (k <? 0)%Z; apply firstn_In.
Qed.

Lemma search_node_documents (env : Env) (state : Workflow.State)
    (found : list Document.t) (doc : Document.t) :
  SearchAgent.search_documents env (Workflow.query state)
    (Some (Workflow.regions state)) (Some (Workflow.document_types state))
  = Ok found ->
  In doc (Workflow.documents (Workflow._search_node env state)) ->
  In doc found.
Proof.
  intros H. unfold Workflow._search_node.
  cbn [Workflow.query Workflow.regions Workflow.document_types
       Workflow.set_status Workflow.set_progress].
  rewrite H.
  cbn [Workflow.documents Workflow.set_documents Workflow.set_progress
       Workflow.max_documents Workflow.set_status].
  destruct (Workflow.max_documents state =? 0)%Z; [tauto|].
  apply list_upto_In.
Qed.

Lemma built_documents_In (env : Env) (results : list Json)
    (regions : option (list string)) (doc : Document.t) :
  In doc (SearchAgent.built_documents env results regions)
  <-> exists entry result,
        In entry results
        /\ SearchAgent.read_result env entry = Some result
        /\ doc = SearchAgent.make_document result regions.
Proof.
  unfold SearchAgent.built_documents. rewrite in_flat_map. split.
  - intros [entry [Hin Hdoc]].
    destruct (SearchAgent.read_result env entry) as [result|] eqn:E;
      [|destruct Hdoc].
    destruct Hdoc as [<- | []]. exists entry, result. auto.
  - intros [entry [result [Hin [E ->]]]]. exists entry.
    split; [exact Hin|]. rewrite E. left. reflexivity.
Qed.

Lemma extract_region_values (result : RawResult.t) :
  In (SearchAgent._extract_region result (Some []))
     ["EU"; "US"; "UK"; "Unknown"].
Proof.
  unfold SearchAgent._extract_region.
  destruct (SearchAgent.any_term SearchAgent.eu_terms _ _);
    [cbn; auto|].
  destruct (SearchAgent.any_term SearchAgent.us_terms _ _);
    [cbn; auto|].
  destruct (SearchAgent.any_term SearchAgent.uk_terms _ _); cbn; auto.
Qed.

(** C3, as stated, fails on the code.  In a run whose query names no
    region, a result that mentions no jurisdiction keyword becomes a
    document of region ["Unknown"], not ["Global"]. *)
Lemma C3_counterexample :
  ResearchQuery.regions (Samples.plain_query "ai act" None) = None
  /\ (forall result, In result Samples.twelve_results ->
        ~ mentions SearchAgent.eu_terms result
        /\ ~ mentions SearchAgent.us_terms result
        /\ ~ mentions SearchAgent.uk_terms result)
  /\ map Document.region
       (Workflow.documents
          (Workflow._search_node Samples.env_twelve
             (Workflow.initial_state (Samples.plain_query "ai act" None))))
     = repeat (Some "Unknown") 10
  /\ ~ In (Some "Global")
          (map Document.region
             (Workflow.documents
                (Workflow._search_node Samples.env_twelve
                   (Workflow.initial_state
                      (Samples.plain_query "ai act" None))))).
Proof.
  split; [reflexivity|]. split.
  - intros result Hin. apply repeat_spec in Hin. subst result.
    repeat split; intros H; apply any_term_iff in H; vm_compute in H;
      discriminate.
  - assert (E : map Document.region
                  (Workflow.documents
                     (Workflow._search_node Samples.env_twelve
                        (Workflow.initial_state
                           (Samples.plain_query "ai act" None))))
                = repeat (Some "Unknown") 10) by (vm_compute; reflexivity).
    split; [exact E|]. rewrite E. intros H. apply repeat_spec in H.
    discriminate.
Qed.

(** C3, amended.  In a run whose query names no region (absent or empty),
    every document of the Search stage is the document built from a
    search result and carries the region inferred from that result: ["EU"], else ["US"], else ["UK"],
    by the first vocabulary of which a term occurs in the lower-cased
    content or URL, and ["Unknown"] when no term occurs.  The fallback
    ["Global"] belongs to a call of the search agent with no region list
    at all, which the workflow never makes. *)
Theorem C3_region_by_keyword_else_unknown
    (env : Env) (research_query : ResearchQuery.t) :
  (ResearchQuery.regions research_query = None
   \/ ResearchQuery.regions research_query = Some [] ->
   let state0 := Workflow.initial_state research_query in
   forall found,
     SearchAgent.search_documents env (Workflow.query state0)
       (Some (Workflow.regions state0))
       (Some (Workflow.document_types state0)) = Ok found ->
     forall doc,
       In doc (Workflow.documents (Workflow._search_node env state0)) ->
       exists results entry result region,
         SearchAgent._perform_search env
           (SearchAgent._build_search_query (Workflow.query state0)
              (Some (Workflow.regions state0))
              (Some (Workflow.document_types state0))) = Ok results
         /\ In entry results
         /\ SearchAgent.read_result env entry = Some result
         /\ doc = SearchAgent.make_document result (Some [])
         /\ Document.region doc = Some region
         /\ inferred_region "Unknown" result region
         /\ In region ["EU"; "US"; "UK"; "Unknown"])
  /\ (forall result,
        inferred_region "Global" result
          (SearchAgent._extract_region result None)).
Proof.
  split.
  - intros Hreg state0 found Hfound doc Hdoc.
    apply (search_node_documents _ _ _ _ Hfound) in Hdoc.
    assert (Hnil : Workflow.regions state0 = []).
    { subst state0. cbn. destruct Hreg as [-> | ->]; reflexivity. }
    rewrite Hnil in *.
    unfold SearchAgent.search_documents in Hfound.
    destruct (SearchAgent._perform_search env _) as [results | e] eqn:E;
      [|discriminate].
    injection Hfound as <-.
    unfold SearchAgent._process_search_results in Hdoc.
    apply (proj1 (sort_desc_In _ _)) in Hdoc.
    apply built_documents_In in Hdoc.
    destruct Hdoc as [entry [result [Hin [Hread ->]]]].
    exists results, entry, result,
      (SearchAgent._extract_region result (Some [])).
    split; [reflexivity|]. split; [exact Hin|]. split; [exact Hread|].
    split; [reflexivity|]. split; [reflexivity|].
    split; [|apply extract_region_values].
    apply extract_region_inferred. right. split; reflexivity.
  - intros result. apply extract_region_inferred. left. split; reflexivity.
Qed.

Lemma C3_witness :
  ResearchQuery.regions (Samples.plain_query "compare ai rules" None) = None
  /\ forall doc,
       In doc
          (Workflow.documents
             (Workflow._search_node Samples.env_extract_down
                (Workflow.initial_state
                   (Samples.plain_query "compare ai rules" None)))) ->
       exists region,
         Document.region doc = Some region
         /\ In region ["EU"; "US"; "UK"; "Unknown"].
Proof.
  split; [reflexivity|]. intros doc Hdoc.
  destruct (proj1 (C3_region_by_keyword_else_unknown Samples.env_extract_down
                     (Samples.plain_query "compare ai rules" None))
                  (or_introl eq_refl) _ eq_refl doc Hdoc)
    as [results [entry [result [region [_ [_ [_ [_ [Hregion [_ Hin]]]]]]]]]].
  exists region. split; assumption.
Defined.

(** ** Parsing of the extraction reply *)

Lemma fallback_line_clause (line : string) (document : Document.t)
    (clause : ExtractedClause.t) :
  ExtractAgent.fallback_line line document = Some clause ->
  ExtractedClause.confidence_score clause
  = Some ExtractAgent.fallback_confidence
  /\ 10 < Py.len (ExtractedClause.clause_text clause)
  /\ (exists a b,
         ExtractedClause.clause_text clause = Py.slice (Py.strip line) a b)
  /\ ExtractedClause.jurisdiction clause
     = ExtractAgent.region_or_unknown document
  /\ ExtractedClause.document_source clause = Document.title document.
Proof.
  unfold ExtractAgent.fallback_line.
  destruct (_ || _); [|discriminate].
  destruct (_ && _); [|discriminate].
  destruct (10 <? _) eqn:Hlen; [|discriminate].
  intros [= <-]. cbn. apply Nat.ltb_lt in Hlen.
  repeat split; try assumption. eauto.
Qed.

Lemma fallback_extraction_In (response : string) (document : Document.t)
    (clause : ExtractedClause.t) :
  In clause (ExtractAgent._fallback_extraction response document) ->
  exists line,
    In line (Py.split_lines response)
    /\ ExtractAgent.fallback_line line document = Some clause.
Proof.
  unfold ExtractAgent._fallback_extraction. rewrite in_flat_map.
  intros [line [Hline Hin]]. exists line. split; [exact Hline|].
  destruct (ExtractAgent.fallback_line line document) as [c|];
    [|destruct Hin].
  destruct Hin as [<- | []]. reflexivity.
Qed.

(** C5, as stated, fails on the code.  A reply cut off before its closing
    bracket is not parsed as structured output, yet the text scan is not
    run on it: the parser returns no clause, although the scan would
    recover one. *)
Lemma C5_counterexample :
  Py.rfind "]" Samples.truncated_reply = (-1)%Z
  /\ (forall env,
        ExtractAgent._parse_extraction_response env Samples.truncated_reply
          Samples.eu_document = Ok [])
  /\ (exists clause,
        ExtractAgent._fallback_extraction Samples.truncated_reply
          Samples.eu_document = [clause]
        /\ ExtractedClause.confidence_score clause = Some (6 # 10))
  /\ ExtractAgent._extract_from_document
       (Samples.env_of (Ok None) (Ok Samples.truncated_reply) (Ok "") (Ok ""))
       Samples.eu_document = [].
Proof.
  split; [reflexivity|]. split; [intros env; reflexivity|].
  split; [|reflexivity].
  eexists. split; [vm_compute; reflexivity | reflexivity].
Qed.

(** C5, amended.  When the reply holds an opening and a closing bracket
    and [json.loads] rejects the text between them, the parser returns
    the result of the text scan; when a bracket is missing it returns no
    clause.  Every clause of the scan has confidence 0.6, below the 0.8
    given by default to a structured item, and a text longer than 10
    characters cut from a line of the reply.  Extraction from a document
    returns a list in every case, and the Extract node records no
    error. *)
Theorem C5_extraction_parse_failure_is_absorbed
    (env : Env) (response : string) (document : Document.t) :
  let json_start := Py.find "[" response in
  let json_end := (Py.rfind "]" response + 1)%Z in
  (json_start <> (-1)%Z -> json_end <> 0%Z ->
   json_loads env (Py.slice response json_start json_end) = None ->
   ExtractAgent._parse_extraction_response env response document
   = Ok (ExtractAgent._fallback_extraction response document))
  /\ (json_start = (-1)%Z \/ json_end = 0%Z ->
      ExtractAgent._parse_extraction_response env response document = Ok [])
  /\ (forall clause,
        In clause (ExtractAgent._fallback_extraction response document) ->
        ExtractedClause.confidence_score clause
        = Some ExtractAgent.fallback_confidence
        /\ (ExtractAgent.fallback_confidence
            < ExtractAgent.default_confidence)%Q
        /\ 10 < Py.len (ExtractedClause.clause_text clause)
        /\ exists line a b,
             In line (Py.split_lines response)
             /\ ExtractedClause.clause_text clause
                = Py.slice (Py.strip line) a b)
  /\ (forall documents,
        ExtractAgent.extract_clauses env documents
        = Ok (flat_map (ExtractAgent._extract_from_document env) documents))
  /\ (forall state,
        Workflow.error (Workflow._extract_node env state)
        = Workflow.error state
        /\ Workflow.status (Workflow._extract_node env state) = EXTRACTING).
Proof.
  intros json_start json_end. split; [|split; [|split; [|split]]].
  - intros Hs He Hloads. unfold ExtractAgent._parse_extraction_response.
    fold json_start json_end.
    apply Z.eqb_neq in Hs. apply Z.eqb_neq in He. rewrite Hs, He.
    cbn [orb]. rewrite Hloads. reflexivity.
  - intros H. unfold ExtractAgent._parse_extraction_response.
    fold json_start json_end.
    destruct H as [H | H]; rewrite H;
      [reflexivity | rewrite orb_true_r; reflexivity].
  - intros clause Hin.
    destruct (fallback_extraction_In _ _ _ Hin) as [line [Hline Hsome]].
    destruct (fallback_line_clause _ _ _ Hsome)
      as [Hconf [Hlen [[a [b Htext]] _]]].
    split; [exact Hconf|]. split; [reflexivity|]. split; [exact Hlen|].
    exists line, a, b. split; assumption.
  - intros documents. reflexivity.
  - intros state. split; reflexivity.
Qed.

Lemma C5_witness :
  json_loads Samples.env_compare_down
    (Py.slice Samples.scanned_reply (Py.find "[" Samples.scanned_reply)
       (Py.rfind "]" Samples.scanned_reply + 1)) = None
  /\ exists clause,
       ExtractAgent._parse_extraction_response Samples.env_compare_down
         Samples.scanned_reply Samples.eu_document = Ok [clause]
       /\ ExtractedClause.confidence_score clause = Some (6 # 10).
Proof.
  split; [reflexivity|].
  assert (H := proj1 (C5_extraction_parse_failure_is_absorbed
                        Samples.env_compare_down Samples.scanned_reply
                        Samples.eu_document)).
  cbv zeta in H. rewrite H.
  - eexists. split; [vm_compute; reflexivity | reflexivity].
  - vm_compute. discriminate.
  - vm_compute. discriminate.
  - reflexivity.
Defined.

(** * Further properties of the agents and of the workflow *)

From Stdlib Require Import Sorted Permutation.

(** ** Grouping by one key

    The agents build several dictionaries of lists with the same loop,
    [d[key(x)].append(x)] over the input; [group_by] is that loop. *)

Definition group_by {A} (key : A -> string) (l : list A) : Dict.t (list A) :=
  fold_left (fun d x => Dict.append (key x) x d) l [].

(** The concatenation of the buckets of a dictionary of lists. *)
Definition buckets {A} (d : Dict.t (list A)) : list A := flat_map snd d.

(** Every bucket is non-empty and holds only elements of its own key, and
    no key occurs twice. *)
Definition well_grouped {A} (key : A -> string) (d : Dict.t (list A)) : Prop :=
  NoDup (Dict.keys d)
  /\ forall k xs, In (k, xs) d ->
                  xs <> [] /\ forall x, In x xs -> key x = k.

Section GroupBy.

Context {A : Type} (key : A -> string).

Lemma group_by_snoc (l : list A) (x : A) :
  group_by key (l ++ [x])%list = Dict.append (key x) x (group_by key l).
Proof. unfold group_by. rewrite fold_left_app. reflexivity. Qed.

Lemma group_by_keys_NoDup (l : list A) : NoDup (Dict.keys (group_by key l)).
Proof.
  induction l as [|x l IH] using rev_ind; [constructor|].
  rewrite group_by_snoc. apply keys_upsert_NoDup. exact IH.
Qed.

Lemma filter_snoc (p : A -> bool) (l : list A) (x : A) :
  filter p (l ++ [x])%list
  = (filter p l ++ if p x then [x] else [])%list.
Proof. rewrite filter_app. reflexivity. Qed.

(** A bucket is the sub-list of the input with that key, in input order,
    and a key is present exactly when that sub-list is not empty. *)
Lemma group_by_get (l : list A) (k : string) :
  Dict.get (group_by key l) k
  = match filter (fun x => String.eqb (key x) k) l with
    | [] => None
    | xs => Some xs
    end.
Proof.
  induction l as [|x l IH] using rev_ind; [reflexivity|].
  rewrite group_by_snoc. unfold Dict.append. rewrite get_upsert, filter_snoc.
  destruct (String.eqb (key x) k) eqn:E.
  - apply String.eqb_eq in E. subst k. rewrite IH.
    destruct (filter (fun y => String.eqb (key y) (key x)) l);
      reflexivity.
  - rewrite IH, app_nil_r. reflexivity.
Qed.

Lemma group_by_In (l : list A) (k : string) (xs : list A) :
  In (k, xs) (group_by key l)
  <-> xs = filter (fun x => String.eqb (key x) k) l /\ xs <> [].
Proof.
  split.
  - intros Hin. apply In_get in Hin; [|apply group_by_keys_NoDup].
    rewrite group_by_get in Hin.
    destruct (filter (fun x => String.eqb (key x) k) l) as [|y ys];
      [discriminate|].
    injection Hin as <-. split; [reflexivity | discriminate].
  - intros [-> Hne]. apply get_In. rewrite group_by_get.
    destruct (filter (fun x => String.eqb (key x) k) l);
      [congruence | reflexivity].
Qed.

Lemma group_by_well_grouped (l : list A) : well_grouped key (group_by key l).
Proof.
  split; [apply group_by_keys_NoDup|].
  intros k xs Hin. apply group_by_In in Hin. destruct Hin as [-> Hne].
  split; [exact Hne|]. intros x Hx. apply filter_In in Hx.
  apply String.eqb_eq. exact (proj2 Hx).
Qed.

Lemma group_by_keys_In (l : list A) (k : string) :
  In k (Dict.keys (group_by key l)) <-> exists x, In x l /\ key x = k.
Proof.
  induction l as [|x l IH] using rev_ind.
  - cbn. split; [intros [] | intros [x [[] _]]].
  - rewrite group_by_snoc. unfold Dict.append. rewrite keys_upsert_In, IH.
    split.
    + intros [-> | [y [Hy Hk]]].
      * exists x. split; [apply in_app_iff; right; left|]; reflexivity.
      * exists y. split; [apply in_app_iff; left; exact Hy | exact Hk].
    + intros [y [Hy Hk]]. apply in_app_iff in Hy.
      destruct Hy as [Hy | [<- | []]]; [right; eauto | left; auto].
Qed.

(** *** Appending to a dictionary whose last key is known *)

Lemma upsert_fresh {V} (init : V) (f : V -> V) (k : string) (d : Dict.t V) :
  ~ In k (Dict.keys d) ->
  Dict.upsert init f k d = (d ++ [(k, f init)])%list.
Proof.
  induction d as [|[k' v] d IH]; intros Hk; [reflexivity|].
  cbn [Dict.upsert]. destruct (String.eqb k' k) eqn:E.
  - apply String.eqb_eq in E. subst. exfalso. apply Hk. left. reflexivity.
  - rewrite IH; [reflexivity|]. intros H. apply Hk. right. exact H.
Qed.

Lemma upsert_last {V} (init : V) (f : V -> V) (k : string) (v : V)
    (d1 d2 : Dict.t V) :
  ~ In k (Dict.keys d1) ->
  Dict.upsert init f k (d1 ++ (k, v) :: d2)%list
  = (d1 ++ (k, f v) :: d2)%list.
Proof.
  induction d1 as [|[k' v'] d1 IH]; intros Hk.
  - cbn. rewrite String.eqb_refl. reflexivity.
  - cbn [app Dict.upsert]. destruct (String.eqb k' k) eqn:E.
    + apply String.eqb_eq in E. subst. exfalso. apply Hk. left. reflexivity.
    + rewrite IH; [reflexivity|]. intros H. apply Hk. right. exact H.
Qed.

Lemma regroup_bucket (xs ys : list A) (k : string) (d1 : Dict.t (list A)) :
  ~ In k (Dict.keys d1) ->
  (forall x, In x xs -> key x = k) ->
  fold_left (fun d x => Dict.append (key x) x d) xs (d1 ++ [(k, ys)])%list
  = (d1 ++ [(k, ys ++ xs)])%list.
Proof.
  intros Hk. revert ys. induction xs as [|x xs IH]; intros ys Hall.
  - rewrite app_nil_r. reflexivity.
  - cbn [fold_left]. rewrite (Hall x (or_introl eq_refl)).
    assert (E : Dict.append k x (d1 ++ [(k, ys)])%list
                = (d1 ++ [(k, ys ++ [x])])%list)
      by exact (upsert_last [] (fun l => (l ++ [x])%list) k ys d1 [] Hk).
    rewrite E. rewrite IH by (intros y Hy; apply Hall; right; exact Hy).
    rewrite <- app_assoc. reflexivity.
Qed.

Lemma regroup_from (d2 d1 : Dict.t (list A)) :
  well_grouped key (d1 ++ d2)%list ->
  fold_left (fun d x => Dict.append (key x) x d) (buckets d2) d1
  = (d1 ++ d2)%list.
Proof.
  revert d1. induction d2 as [|[k xs] d2 IH]; intros d1 [Hnd Hwf].
  - rewrite app_nil_r. reflexivity.
  - unfold buckets. cbn [flat_map snd]. rewrite fold_left_app.
    assert (Hk : ~ In k (Dict.keys d1)).
    { unfold Dict.keys in Hnd. rewrite map_app in Hnd. cbn in Hnd.
      apply NoDup_remove_2 in Hnd. intros H. apply Hnd. apply in_app_iff.
      left. exact H. }
    destruct (Hwf k xs) as [Hne Hkey];
      [apply in_app_iff; right; left; reflexivity|].
    destruct xs as [|x xs]; [congruence|].
    cbn [fold_left]. rewrite (Hkey x (or_introl eq_refl)).
    assert (E : Dict.append k x d1 = (d1 ++ [(k, [x])])%list)
      by exact (upsert_fresh [] (fun l => (l ++ [x])%list) k d1 Hk).
    rewrite E. rewrite regroup_bucket
      by (try exact Hk; intros y Hy; apply Hkey; right; exact Hy).
    cbn [app]. fold (buckets d2).
    rewrite IH.
    + rewrite <- app_assoc. reflexivity.
    + rewrite <- app_assoc. cbn [app]. split; assumption.
Qed.

(** Regrouping the concatenated buckets of a well-grouped dictionary
    rebuilds that dictionary. *)
Lemma regroup_well_grouped (d : Dict.t (list A)) :
  well_grouped key d -> group_by key (buckets d) = d.
Proof.
  intros H. unfold group_by. apply (regroup_from d []). exact H.
Qed.

End GroupBy.

Lemma buckets_append {A} (k : string) (x : A) (d : Dict.t (list A)) :
  Permutation (buckets (Dict.append k x d)) (buckets d ++ [x])%list.
Proof.
  unfold buckets, Dict.append. induction d as [|[k' xs] d IH].
  - cbn. constructor. constructor.
  - cbn [Dict.upsert]. destruct (String.eqb k' k).
    + cbn [flat_map snd]. rewrite <- !app_assoc.
      apply Permutation_app_head. apply Permutation_app_comm.
    + cbn [flat_map snd]. rewrite <- app_assoc.
      apply Permutation_app_head. exact IH.
Qed.

Lemma group_by_permutation {A} (key : A -> string) (l : list A) :
  Permutation l (buckets (group_by key l)).
Proof.
  induction l as [|x l IH] using rev_ind; [constructor|].
  rewrite group_by_snoc.
  rewrite (buckets_append (key x) x (group_by key l)).
  apply Permutation_app_tail. exact IH.
Qed.

Lemma map_upsert {V W} (g : V -> W) (init : V) (f : V -> V)
    (init' : W) (f' : W -> W) (k : string) (d : Dict.t V) :
  (forall v, g (f v) = f' (g v)) ->
  g (f init) = f' init' ->
  map (fun kv => (fst kv, g (snd kv))) (Dict.upsert init f k d)
  = Dict.upsert init' f' k (map (fun kv => (fst kv, g (snd kv))) d).
Proof.
  intros Hf Hinit. induction d as [|[k' v] d IH].
  - cbn. rewrite Hinit. reflexivity.
  - cbn [Dict.upsert map fst snd]. destruct (String.eqb k' k).
    + cbn [map fst snd]. rewrite Hf. reflexivity.
    + cbn [map fst snd]. rewrite IH. reflexivity.
Qed.

(** The clauses of a grouping, topic by topic and jurisdiction by
    jurisdiction. *)
Definition flatten_groups (grouped : Dict.t CompareAgent.JurisdictionClauses)
  : list ExtractedClause.t :=
  flat_map (fun kv => buckets (snd kv)) grouped.

(** [_group_clauses] groups by topic key and then, inside each topic, by
    jurisdiction. *)
Lemma group_clauses_two_level (clauses : list ExtractedClause.t) :
  CompareAgent._group_clauses clauses
  = map (fun kv =>
           (fst kv, group_by ExtractedClause.jurisdiction (snd kv)))
        (group_by topic_key clauses).
Proof.
  induction clauses as [|c clauses IH] using rev_ind; [reflexivity|].
  rewrite group_clauses_snoc, group_by_snoc, IH. unfold Dict.append at 2.
  symmetry. apply map_upsert.
  - intros v. apply group_by_snoc.
  - reflexivity.
Qed.

Lemma filter_filter {A} (p q : A -> bool) (l : list A) :
  filter q (filter p l) = filter (fun x => p x && q x) l.
Proof.
  induction l as [|x l IH]; [reflexivity|]. cbn.
  destruct (p x); cbn; [destruct (q x)|]; rewrite IH; reflexivity.
Qed.

(** Each bucket of the grouping holds exactly the input clauses with its
    topic key and jurisdiction, in input order; every input clause is in
    the bucket of its own key; and the buckets together are a
    rearrangement of the input: no clause is lost or duplicated. *)
Theorem group_clauses_buckets (clauses : list ExtractedClause.t) :
  (forall t js j cs,
      In (t, js) (CompareAgent._group_clauses clauses) ->
      In (j, cs) js ->
      cs <> []
      /\ cs = filter
                (fun c =>
                   String.eqb (topic_key c) t
                   && String.eqb (ExtractedClause.jurisdiction c) j)
                clauses)
  /\ (forall c, In c clauses ->
        exists js cs,
          In (topic_key c, js) (CompareAgent._group_clauses clauses)
          /\ In (ExtractedClause.jurisdiction c, cs) js
          /\ In c cs)
  /\ Permutation clauses
       (flatten_groups (CompareAgent._group_clauses clauses)).
Proof.
  rewrite group_clauses_two_level. split; [|split].
  - intros t js j cs Hjs Hcs. apply in_map_iff in Hjs.
    destruct Hjs as [[t' xs] [Heq Hin]]. cbn in Heq.
    injection Heq as -> <-.
    apply group_by_In in Hin. destruct Hin as [-> _].
    apply group_by_In in Hcs. destruct Hcs as [-> Hne].
    split; [exact Hne|]. apply filter_filter.
  - intros c Hc.
    set (xs := filter (fun x => String.eqb (topic_key x) (topic_key c))
                      clauses).
    assert (Hxs : In c xs)
      by (apply filter_In; split; [exact Hc | apply String.eqb_refl]).
    set (cs := filter
                 (fun x => String.eqb (ExtractedClause.jurisdiction x)
                             (ExtractedClause.jurisdiction c)) xs).
    assert (Hcs : In c cs)
      by (apply filter_In; split; [exact Hxs | apply String.eqb_refl]).
    exists (group_by ExtractedClause.jurisdiction xs), cs.
    split; [|split; [|exact Hcs]].
    + apply in_map_iff. exists (topic_key c, xs). split; [reflexivity|].
      apply group_by_In. split; [reflexivity|]. intros E. rewrite E in Hxs.
      destruct Hxs.
    + apply group_by_In. split; [reflexivity|]. intros E. rewrite E in Hcs.
      destruct Hcs.
  - unfold flatten_groups. rewrite flat_map_concat_map, map_map.
    cbn [snd]. rewrite <- flat_map_concat_map.
    rewrite (group_by_permutation topic_key clauses) at 1.
    unfold buckets at 1.
    induction (group_by topic_key clauses) as [|[t xs] d IH];
      [constructor|].
    cbn [flat_map snd]. apply Permutation_app; [|exact IH].
    apply group_by_permutation.
Qed.

(** Grouping the clauses of a grouping again, in the order the grouping
    lists them, gives the same grouping. *)
Theorem group_clauses_regroup (clauses : list ExtractedClause.t) :
  CompareAgent._group_clauses
    (flatten_groups (CompareAgent._group_clauses clauses))
  = CompareAgent._group_clauses clauses.
Proof.
  rewrite (group_clauses_two_level clauses).
  set (D := group_by topic_key clauses).
  assert (HD : well_grouped topic_key D) by apply group_by_well_grouped.
  set (D' := map (fun kv =>
                    (fst kv,
                     buckets (group_by ExtractedClause.jurisdiction (snd kv))))
                 D).
  assert (Hflat : flatten_groups
                    (map (fun kv =>
                            (fst kv,
                             group_by ExtractedClause.jurisdiction (snd kv)))
                         D)
                  = buckets D').
  { unfold flatten_groups, buckets, D'.
    rewrite !flat_map_concat_map, !map_map. reflexivity. }
  rewrite Hflat, group_clauses_two_level.
  assert (HD' : well_grouped topic_key D').
  { destruct HD as [Hnd Hwf]. split.
    - unfold D', Dict.keys. rewrite map_map. exact Hnd.
    - intros k xs Hin. apply in_map_iff in Hin.
      destruct Hin as [[k' ys] [Heq Hin]]. cbn in Heq.
      injection Heq as -> <-.
      destruct (Hwf _ _ Hin) as [Hne Hkey].
      pose proof (group_by_permutation ExtractedClause.jurisdiction ys)
        as Hperm.
      split.
      + intros E. unfold buckets, group_by in Hperm, E.
        rewrite E in Hperm. apply Permutation_sym in Hperm.
        apply Permutation_nil in Hperm. congruence.
      + intros x Hx. apply Hkey.
        apply (Permutation_in _ (Permutation_sym Hperm)). exact Hx. }
  rewrite (regroup_well_grouped topic_key D' HD').
  unfold D'. rewrite map_map. cbn [fst snd].
  apply map_ext. intros [k xs]. cbn [fst snd]. f_equal.
  apply regroup_well_grouped. apply group_by_well_grouped.
Qed.

(** ** Similarity scores ([app/agents/compare_agent.py])

    The two functions of the compare agent that score jurisdictions
    against each other.  A Python [set] of strings is a list without
    repetition; the quotient of two lengths and the weighted sum are taken
    in [Q]. *)

From Stdlib Require Import Lqa.

Module CompareMetrics.

(** [set(xs)] *)
Definition to_set (xs : list string) : list string :=
  CompareAgent.set_update [] xs.

(** [a & b] *)
Definition intersection (a b : list string) : list string :=
  filter (fun x => Py.mem x b) a.

(** [a | b] *)
Definition union (a b : list string) : list string :=
  (a ++ filter (fun x => negb (Py.mem x a)) b)%list.

(** [len(a & b) / len(a | b) if a | b else 0] *)
Definition jaccard (a b : list string) : Q :=
  match union a b with
  | [] => 0%Q
  | u => Z.of_nat (List.length (intersection a b))
         # Pos.of_nat (List.length u)
  end.

Definition _calculate_jurisdiction_similarity
    (clauses1 clauses2 : list ExtractedClause.t) : Q :=
  match clauses1, clauses2 with
  | [], _ => 0%Q
  | _, [] => 0%Q
  | _, _ =>
      let topics1 :=
        to_set (map (fun c => Py.lower (ExtractedClause.topic c)) clauses1) in
      let topics2 :=
        to_set (map (fun c => Py.lower (ExtractedClause.topic c)) clauses2) in
      let types1 :=
        to_set (map (fun c => Py.lower (ExtractedClause.clause_type c))
                    clauses1) in
      let types2 :=
        to_set (map (fun c => Py.lower (ExtractedClause.clause_type c))
                    clauses2) in
      let topic_similarity := jaccard topics1 topics2 in
      let type_similarity := jaccard types1 types2 in
      (topic_similarity * (7 # 10) + type_similarity * (3 # 10))%Q
  end.

(** [for i, j1 in enumerate(js): for j2 in js[i+1:]] *)
Fixpoint pairs (js : list string) : list (string * string) :=
  match js with
  | [] => []
  | j1 :: rest => (map (fun j2 => (j1, j2)) rest ++ pairs rest)%list
  end.

(** [jurisdiction_clauses[j]] on the [defaultdict(list)]. *)
Definition clauses_of (d : Dict.t (list ExtractedClause.t)) (j : string)
  : list ExtractedClause.t :=
  match Dict.get d j with Some cs => cs | None => [] end.

Definition pair_key (j1 j2 : string) : string := j1 ++ "_vs_" ++ j2.

Definition calculate_similarity_scores (clauses : list ExtractedClause.t)
  : Dict.t Q :=
  let jurisdiction_clauses :=
    fold_left
      (fun d clause =>
         Dict.append (ExtractedClause.jurisdiction clause) clause d)
      clauses [] in
  let jurisdictions := Dict.keys jurisdiction_clauses in
  fold_left
    (fun similarity_scores '(j1, j2) =>
       let score :=
         _calculate_jurisdiction_similarity
           (clauses_of jurisdiction_clauses j1)
           (clauses_of jurisdiction_clauses j2) in
       Dict.upsert score (fun _ => score) (pair_key j1 j2) similarity_scores)
    (pairs jurisdictions) [].

End CompareMetrics.

Lemma set_update_NoDup (acc xs : list string) :
  NoDup acc -> NoDup (CompareAgent.set_update acc xs).
Proof.
  unfold CompareAgent.set_update. revert acc.
  induction xs as [|x xs IH]; intros acc Hacc; [exact Hacc|].
  cbn [fold_left]. apply IH. destruct (Py.mem x acc) eqn:M; [exact Hacc|].
  apply mem_false in M. apply NoDup_app; [exact Hacc | repeat constructor; auto|].
  intros a Ha [<- | []]. exact (M Ha).
Qed.

Lemma to_set_NoDup (xs : list string) : NoDup (CompareMetrics.to_set xs).
Proof. apply set_update_NoDup. constructor. Qed.

Lemma to_set_In (xs : list string) (x : string) :
  In x (CompareMetrics.to_set xs) <-> In x xs.
Proof.
  unfold CompareMetrics.to_set. rewrite set_update_In. cbn. tauto.
Qed.

Lemma intersection_In (a b : list string) (x : string) :
  In x (CompareMetrics.intersection a b) <-> In x a /\ In x b.
Proof.
  unfold CompareMetrics.intersection. rewrite filter_In, mem_In. tauto.
Qed.

Lemma union_In (a b : list string) (x : string) :
  In x (CompareMetrics.union a b) <-> In x a \/ In x b.
Proof.
  unfold CompareMetrics.union.
  rewrite in_app_iff, filter_In, negb_true_iff, mem_false.
  destruct (in_dec string_dec x a); tauto.
Qed.

Lemma union_NoDup (a b : list string) :
  NoDup a -> NoDup b -> NoDup (CompareMetrics.union a b).
Proof.
  intros Ha Hb. unfold CompareMetrics.union.
  apply NoDup_app; [exact Ha | apply NoDup_filter; exact Hb|].
  intros x Hx Hf. apply filter_In in Hf. destruct Hf as [_ Hf].
  apply negb_true_iff, mem_false in Hf. exact (Hf Hx).
Qed.

Lemma intersection_length_comm (a b : list string) :
  NoDup a -> NoDup b ->
  List.length (CompareMetrics.intersection a b)
  = List.length (CompareMetrics.intersection b a).
Proof.
  intros Ha Hb. apply Permutation_length. apply NoDup_Permutation.
  - apply NoDup_filter. exact Ha.
  - apply NoDup_filter. exact Hb.
  - intros x. rewrite !intersection_In. tauto.
Qed.

Lemma union_length_comm (a b : list string) :
  NoDup a -> NoDup b ->
  List.length (CompareMetrics.union a b)
  = List.length (CompareMetrics.union b a).
Proof.
  intros Ha Hb. apply Permutation_length. apply NoDup_Permutation.
  - apply union_NoDup; assumption.
  - apply union_NoDup; assumption.
  - intros x. rewrite !union_In. tauto.
Qed.

Lemma jaccard_by_lengths (a b : list string) :
  CompareMetrics.jaccard a b
  = match List.length (CompareMetrics.union a b) with
    | O => 0%Q
    | n => Z.of_nat (List.length (CompareMetrics.intersection a b))
           # Pos.of_nat n
    end.
Proof.
  unfold CompareMetrics.jaccard.
  destruct (CompareMetrics.union a b); reflexivity.
Qed.

Lemma jaccard_comm (a b : list string) :
  NoDup a -> NoDup b ->
  CompareMetrics.jaccard a b = CompareMetrics.jaccard b a.
Proof.
  intros Ha Hb. rewrite !jaccard_by_lengths.
  rewrite (union_length_comm a b Ha Hb),
    (intersection_length_comm a b Ha Hb).
  reflexivity.
Qed.

Lemma jaccard_range (a b : list string) :
  (0 <= CompareMetrics.jaccard a b)%Q /\ (CompareMetrics.jaccard a b <= 1)%Q.
Proof.
  rewrite jaccard_by_lengths.
  assert (Hle : List.length (CompareMetrics.intersection a b)
                <= List.length (CompareMetrics.union a b)).
  { unfold CompareMetrics.intersection, CompareMetrics.union.
    rewrite length_app.
    pose proof (filter_length_le (fun x => Py.mem x b) a). lia. }
  destruct (List.length (CompareMetrics.union a b)) as [|n] eqn:E.
  - split; [apply Qle_refl | discriminate].
  - split; unfold Qle; cbn [Qnum Qden].
    + lia.
    + rewrite <- Pos.of_nat_succ, Zpos_P_of_succ_nat. lia.
Qed.

Lemma filter_none {A} (p : A -> bool) (l : list A) :
  (forall x, In x l -> p x = false) -> filter p l = [].
Proof.
  induction l as [|a l IH]; intros H; [reflexivity|]. cbn.
  rewrite (H a (or_introl eq_refl)). apply IH.
  intros x Hx. apply H. right. exact Hx.
Qed.

Lemma jaccard_same (a b : list string) :
  NoDup a -> a <> [] -> (forall x, In x a <-> In x b) ->
  (CompareMetrics.jaccard a b == 1)%Q.
Proof.
  intros Ha Hne Hsame. rewrite jaccard_by_lengths.
  assert (Hi : CompareMetrics.intersection a b = a).
  { apply filter_all. intros x Hx. apply mem_In. apply Hsame. exact Hx. }
  assert (Hu : CompareMetrics.union a b = a).
  { unfold CompareMetrics.union. rewrite filter_none; [apply app_nil_r|].
    intros x Hx. apply negb_false_iff, mem_In, Hsame. exact Hx. }
  rewrite Hi, Hu. destruct a as [|x a]; [congruence|].
  unfold Qeq. cbn [Qnum Qden List.length].
  rewrite <- Pos.of_nat_succ, Zpos_P_of_succ_nat. lia.
Qed.

(** The lower-cased topics, and the lower-cased clause types, of a list of
    clauses, as sets. *)
Definition topic_set (clauses : list ExtractedClause.t) : list string :=
  CompareMetrics.to_set
    (map (fun c => Py.lower (ExtractedClause.topic c)) clauses).

Definition type_set (clauses : list ExtractedClause.t) : list string :=
  CompareMetrics.to_set
    (map (fun c => Py.lower (ExtractedClause.clause_type c)) clauses).

(** The similarity of two jurisdictions does not depend on their order. *)
Theorem jurisdiction_similarity_symmetric
    (clauses1 clauses2 : list ExtractedClause.t) :
  CompareMetrics._calculate_jurisdiction_similarity clauses1 clauses2
  = CompareMetrics._calculate_jurisdiction_similarity clauses2 clauses1.
Proof.
  destruct clauses1 as [|c1 l1], clauses2 as [|c2 l2]; try reflexivity.
  unfold CompareMetrics._calculate_jurisdiction_similarity.
  cbv zeta.
  rewrite (jaccard_comm
             (CompareMetrics.to_set
                (map (fun c => Py.lower (ExtractedClause.topic c))
                     (c1 :: l1)))
             (CompareMetrics.to_set
                (map (fun c => Py.lower (ExtractedClause.topic c))
                     (c2 :: l2))))
    by apply to_set_NoDup.
  rewrite (jaccard_comm
             (CompareMetrics.to_set
                (map (fun c => Py.lower (ExtractedClause.clause_type c))
                     (c1 :: l1)))
             (CompareMetrics.to_set
                (map (fun c => Py.lower (ExtractedClause.clause_type c))
                     (c2 :: l2))))
    by apply to_set_NoDup.
  reflexivity.
Qed.

Lemma similarity_nonempty (c1 c2 : ExtractedClause.t)
    (l1 l2 : list ExtractedClause.t) :
  CompareMetrics._calculate_jurisdiction_similarity (c1 :: l1) (c2 :: l2)
  = (CompareMetrics.jaccard (topic_set (c1 :: l1)) (topic_set (c2 :: l2))
     * (7 # 10)
     + CompareMetrics.jaccard (type_set (c1 :: l1)) (type_set (c2 :: l2))
       * (3 # 10))%Q.
Proof. reflexivity. Qed.

(** The similarity lies between 0 and 1; it is 0 when either list is
    empty, and 1 when both lists are non-empty and carry the same set of
    lower-cased topics and the same set of lower-cased clause types. *)
Theorem jurisdiction_similarity_range
    (clauses1 clauses2 : list ExtractedClause.t) :
  (0 <= CompareMetrics._calculate_jurisdiction_similarity clauses1 clauses2
   <= 1)%Q
  /\ (clauses1 = [] \/ clauses2 = [] ->
      CompareMetrics._calculate_jurisdiction_similarity clauses1 clauses2
      = 0%Q)
  /\ (clauses1 <> [] -> clauses2 <> [] ->
      (forall t, In t (topic_set clauses1) <-> In t (topic_set clauses2)) ->
      (forall t, In t (type_set clauses1) <-> In t (type_set clauses2)) ->
      (CompareMetrics._calculate_jurisdiction_similarity clauses1 clauses2
       == 1)%Q).
Proof.
  split; [|split].
  - destruct clauses1 as [|c1 l1], clauses2 as [|c2 l2];
      try (cbn; split; discriminate).
    rewrite similarity_nonempty.
    pose proof (jaccard_range (topic_set (c1 :: l1)) (topic_set (c2 :: l2))).
    pose proof (jaccard_range (type_set (c1 :: l1)) (type_set (c2 :: l2))).
    split; lra.
  - intros [-> | ->]; [reflexivity|]. destruct clauses1; reflexivity.
  - intros H1 H2 Htopics Htypes.
    destruct clauses1 as [|c1 l1]; [congruence|].
    destruct clauses2 as [|c2 l2]; [congruence|].
    rewrite similarity_nonempty.
    assert (Ht : (CompareMetrics.jaccard (topic_set (c1 :: l1))
                    (topic_set (c2 :: l2)) == 1)%Q).
    { apply jaccard_same; [apply to_set_NoDup | | exact Htopics].
      intros E.
      assert (Hin : In (Py.lower (ExtractedClause.topic c1))
                       (topic_set (c1 :: l1)))
        by (apply to_set_In; left; reflexivity).
      rewrite E in Hin. destruct Hin. }
    assert (Hy : (CompareMetrics.jaccard (type_set (c1 :: l1))
                    (type_set (c2 :: l2)) == 1)%Q).
    { apply jaccard_same; [apply to_set_NoDup | | exact Htypes].
      intros E.
      assert (Hin : In (Py.lower (ExtractedClause.clause_type c1))
                       (type_set (c1 :: l1)))
        by (apply to_set_In; left; reflexivity).
      rewrite E in Hin. destruct Hin. }
    rewrite Ht, Hy. reflexivity.
Qed.

Lemma jurisdiction_similarity_range_witness :
  (CompareMetrics._calculate_jurisdiction_similarity
     [Samples.clause "Safety" "EU"] [Samples.clause "safety" "US"] == 1)%Q.
Proof.
  apply (proj2 (proj2 (jurisdiction_similarity_range
                         [Samples.clause "Safety" "EU"]
                         [Samples.clause "safety" "US"]))).
  - discriminate.
  - discriminate.
  - intros t. reflexivity.
  - intros t. reflexivity.
Defined.

Lemma group_by_keys_to_set {A} (key : A -> string) (l : list A) :
  Dict.keys (group_by key l) = CompareMetrics.to_set (map key l).
Proof.
  induction l as [|x l IH] using rev_ind; [reflexivity|].
  rewrite group_by_snoc. unfold Dict.append. rewrite keys_upsert, IH.
  unfold CompareMetrics.to_set, CompareAgent.set_update.
  rewrite map_app, fold_left_app. reflexivity.
Qed.

Lemma clauses_of_group (clauses : list ExtractedClause.t) (j : string) :
  CompareMetrics.clauses_of
    (group_by ExtractedClause.jurisdiction clauses) j
  = filter (fun c => String.eqb (ExtractedClause.jurisdiction c) j) clauses.
Proof.
  unfold CompareMetrics.clauses_of. rewrite group_by_get.
  destruct (filter _ clauses); reflexivity.
Qed.

Lemma pairs_In (l : list string) (a b : string) :
  In (a, b) (CompareMetrics.pairs l)
  <-> exists l1 l2 l3, l = (l1 ++ a :: l2 ++ b :: l3)%list.
Proof.
  induction l as [|x l IH]; cbn [CompareMetrics.pairs].
  - split; [intros [] | intros [l1 [l2 [l3 H]]]; destruct l1; discriminate].
  - rewrite in_app_iff, in_map_iff, IH. split.
    + intros [[y [Heq Hy]] | [l1 [l2 [l3 ->]]]].
      * injection Heq as -> ->. apply in_split in Hy.
        destruct Hy as [l2 [l3 ->]]. exists [], l2, l3. reflexivity.
      * exists (x :: l1), l2, l3. reflexivity.
    + intros [l1 [l2 [l3 H]]]. destruct l1 as [|y l1]; cbn in H.
      * injection H as -> ->. left. exists b. split; [reflexivity|].
        apply in_app_iff. right. left. reflexivity.
      * injection H as -> ->. right. exists l1, l2, l3. reflexivity.
Qed.

Lemma pairs_length (l : list string) :
  List.length (CompareMetrics.pairs l) * 2
  = List.length l * (List.length l - 1).
Proof.
  induction l as [|x l IH]; [reflexivity|].
  cbn [CompareMetrics.pairs List.length].
  rewrite length_app, length_map. nia.
Qed.

Section ScoreTable.

Variable sc : string -> string -> Q.

Let write (scores : Dict.t Q) (p : string * string) : Dict.t Q :=
  let '(j1, j2) := p in
  Dict.upsert (sc j1 j2) (fun _ => sc j1 j2)
              (CompareMetrics.pair_key j1 j2) scores.

Lemma upsert_const_In {V} (v : V) (k k' : string) (v' : V) (d : Dict.t V) :
  In (k', v') (Dict.upsert v (fun _ => v) k d) ->
  (k' = k /\ v' = v) \/ In (k', v') d.
Proof.
  induction d as [|[k0 v0] d IH]; cbn [Dict.upsert].
  - intros [H | []]. injection H as <- <-. left. auto.
  - destruct (String.eqb k0 k) eqn:E.
    + apply String.eqb_eq in E. subst k0. intros [H | H].
      * injection H as <- <-. left. auto.
      * right. right. exact H.
    + intros [H | H]; [right; left; exact H|].
      destruct (IH H) as [Hl | Hr]; [left; exact Hl | right; right; exact Hr].
Qed.

Lemma score_table_In (ps : list (string * string)) (acc : Dict.t Q)
    (k : string) (v : Q) :
  In (k, v) (fold_left write ps acc) ->
  In (k, v) acc
  \/ exists j1 j2,
       In (j1, j2) ps /\ k = CompareMetrics.pair_key j1 j2 /\ v = sc j1 j2.
Proof.
  revert acc. induction ps as [|[j1 j2] ps IH]; intros acc; cbn [fold_left].
  - auto.
  - intros H. destruct (IH _ H) as [Hacc | [a [b [Hin Hk]]]].
    + unfold write in Hacc. apply upsert_const_In in Hacc.
      destruct Hacc as [[-> ->] | Hacc]; [|left; exact Hacc].
      right. exists j1, j2. split; [left; reflexivity | auto].
    + right. exists a, b. split; [right; exact Hin | exact Hk].
Qed.

Lemma score_table_keys (ps : list (string * string)) (acc : Dict.t Q)
    (k : string) :
  In k (Dict.keys (fold_left write ps acc))
  <-> In k (Dict.keys acc)
      \/ exists j1 j2, In (j1, j2) ps /\ k = CompareMetrics.pair_key j1 j2.
Proof.
  revert acc. induction ps as [|[j1 j2] ps IH]; intros acc; cbn [fold_left].
  - split; [auto | intros [H | [a [b [[] _]]]]; exact H].
  - rewrite IH. unfold write. rewrite keys_upsert_In. split.
    + intros [[-> | H] | [a [b [Hin Hk]]]].
      * right. exists j1, j2. split; [left; reflexivity | reflexivity].
      * left. exact H.
      * right. exists a, b. split; [right; exact Hin | exact Hk].
    + intros [H | [a [b [[Heq | Hin] Hk]]]].
      * left. right. exact H.
      * injection Heq as <- <-. left. left. exact Hk.
      * right. exists a, b. split; assumption.
Qed.

Lemma score_table_NoDup (ps : list (string * string)) (acc : Dict.t Q) :
  NoDup (Dict.keys acc) ->
  NoDup (Dict.keys (fold_left write ps acc))
  /\ List.length (fold_left write ps acc)
     <= List.length acc + List.length ps.
Proof.
  revert acc. induction ps as [|[j1 j2] ps IH]; intros acc Hnd;
    cbn [fold_left].
  - split; [exact Hnd | cbn; lia].
  - destruct (IH (write acc (j1, j2))) as [H1 H2].
    + unfold write. apply keys_upsert_NoDup. exact Hnd.
    + split; [exact H1|].
      assert (Hlen : List.length (write acc (j1, j2)) <= S (List.length acc)).
      { unfold write.
        rewrite <- (length_map fst (Dict.upsert _ _ _ acc)).
        fold (Dict.keys (Dict.upsert (sc j1 j2) (fun _ => sc j1 j2)
                           (CompareMetrics.pair_key j1 j2) acc)).
        rewrite keys_upsert.
        destruct (Py.mem _ _); [|rewrite length_app];
          unfold Dict.keys; rewrite length_map; cbn; lia. }
      cbn [List.length]. lia.
Qed.

End ScoreTable.

(** The distinct jurisdictions of a clause list, in order of first
    occurrence. *)
Definition jurisdictions_seen (clauses : list ExtractedClause.t)
  : list string :=
  CompareMetrics.to_set (map ExtractedClause.jurisdiction clauses).

Definition clauses_in (clauses : list ExtractedClause.t) (j : string)
  : list ExtractedClause.t :=
  filter (fun c => String.eqb (ExtractedClause.jurisdiction c) j) clauses.

Lemma similarity_scores_table (clauses : list ExtractedClause.t) :
  CompareMetrics.calculate_similarity_scores clauses
  = fold_left
      (fun scores p =>
         let '(j1, j2) := p in
         Dict.upsert
           (CompareMetrics._calculate_jurisdiction_similarity
              (clauses_in clauses j1) (clauses_in clauses j2))
           (fun _ =>
              CompareMetrics._calculate_jurisdiction_similarity
                (clauses_in clauses j1) (clauses_in clauses j2))
           (CompareMetrics.pair_key j1 j2) scores)
      (CompareMetrics.pairs (jurisdictions_seen clauses)) [].
Proof.
  unfold CompareMetrics.calculate_similarity_scores, jurisdictions_seen.
  cbv zeta.
  change (fold_left
            (fun d clause =>
               Dict.append (ExtractedClause.jurisdiction clause) clause d)
            clauses [])
    with (group_by ExtractedClause.jurisdiction clauses).
  rewrite group_by_keys_to_set.
  generalize (@nil (string * Q)).
  induction (CompareMetrics.pairs
               (CompareMetrics.to_set
                  (map ExtractedClause.jurisdiction clauses)))
    as [|[j1 j2] ps IH]; intros acc; [reflexivity|].
  cbn [fold_left]. rewrite IH, !clauses_of_group. reflexivity.
Qed.

(** Every entry of the score table is keyed [j1_vs_j2] for two
    jurisdictions of the input, [j1] first met before [j2], and holds the
    similarity of their clauses; every such pair has an entry; no key
    occurs twice, and there are at most n(n-1)/2 entries for n
    jurisdictions; a single jurisdiction gives an empty table. *)
Theorem similarity_scores_entries (clauses : list ExtractedClause.t) :
  let scores := CompareMetrics.calculate_similarity_scores clauses in
  let js := jurisdictions_seen clauses in
  (forall k v, In (k, v) scores ->
     exists j1 j2 l1 l2 l3,
       js = (l1 ++ j1 :: l2 ++ j2 :: l3)%list
       /\ k = j1 ++ "_vs_" ++ j2
       /\ v = CompareMetrics._calculate_jurisdiction_similarity
                (clauses_in clauses j1) (clauses_in clauses j2))
  /\ (forall j1 j2 l1 l2 l3,
        js = (l1 ++ j1 :: l2 ++ j2 :: l3)%list ->
        exists v, In (j1 ++ "_vs_" ++ j2, v) scores)
  /\ NoDup (Dict.keys scores)
  /\ List.length scores * 2 <= List.length js * (List.length js - 1)
  /\ ((forall c1 c2, In c1 clauses -> In c2 clauses ->
         ExtractedClause.jurisdiction c1 = ExtractedClause.jurisdiction c2) ->
      scores = []).
Proof.
  intros scores js. subst scores. rewrite similarity_scores_table.
  fold js.
  set (sc := fun j1 j2 =>
               CompareMetrics._calculate_jurisdiction_similarity
                 (clauses_in clauses j1) (clauses_in clauses j2)).
  split; [|split; [|split; [|split]]].
  - intros k v Hin.
    destruct (score_table_In sc _ _ _ _ Hin) as [[] | [j1 [j2 [Hp [Hk Hv]]]]].
    apply pairs_In in Hp. destruct Hp as [l1 [l2 [l3 Hjs]]].
    exists j1, j2, l1, l2, l3. auto.
  - intros j1 j2 l1 l2 l3 Hjs.
    assert (Hk : In (CompareMetrics.pair_key j1 j2)
                    (Dict.keys
                       (fold_left
                          (fun scores p =>
                             let '(a, b) := p in
                             Dict.upsert (sc a b) (fun _ => sc a b)
                               (CompareMetrics.pair_key a b) scores)
                          (CompareMetrics.pairs js) []))).
    { apply score_table_keys. right. exists j1, j2.
      split; [|reflexivity]. apply pairs_In. eauto. }
    destruct (keys_get _ _ Hk) as [v Hv]. exists v. apply get_In. exact Hv.
  - apply (score_table_NoDup sc). constructor.
  - pose proof (proj2 (score_table_NoDup sc (CompareMetrics.pairs js) []
                         (NoDup_nil _))) as Hlen.
    cbn [List.length Nat.add] in Hlen.
    rewrite <- (pairs_length js). apply Nat.mul_le_mono_r. exact Hlen.
  - intros Hsame.
    assert (Hjs : CompareMetrics.pairs js = []).
    { assert (Hnd : NoDup js) by apply to_set_NoDup.
      assert (Hall : forall a b, In a js -> In b js -> a = b).
      { intros a b Ha Hb. apply to_set_In, in_map_iff in Ha, Hb.
        destruct Ha as [ca [<- Ha]]. destruct Hb as [cb [<- Hb]].
        apply Hsame; assumption. }
      destruct js as [|a [|b js']]; try reflexivity.
      exfalso. inversion Hnd as [|? ? Hnot _]. subst. apply Hnot.
      rewrite (Hall a b); [left; reflexivity | left; reflexivity |
                           right; left; reflexivity]. }
    rewrite Hjs. reflexivity.
Qed.

Lemma similarity_scores_entries_witness :
  (forall c1 c2, In c1 Samples.eu_only -> In c2 Samples.eu_only ->
     ExtractedClause.jurisdiction c1 = ExtractedClause.jurisdiction c2)
  /\ CompareMetrics.calculate_similarity_scores Samples.eu_only = [].
Proof.
  assert (Hsame : forall c1 c2,
             In c1 Samples.eu_only -> In c2 Samples.eu_only ->
             ExtractedClause.jurisdiction c1
             = ExtractedClause.jurisdiction c2).
  { intros c1 c2 [<- | [<- | []]] [<- | [<- | []]]; reflexivity. }
  split; [exact Hsame|].
  exact (proj2 (proj2 (proj2 (proj2
           (similarity_scores_entries Samples.eu_only)))) Hsame).
Defined.

(** ** One result per key *)

Lemma flat_map_at_most_one {A B K} (h : A -> K) (g : B -> K)
    (f : A -> list B) (l : list A) :
  NoDup (map h l) ->
  (forall a b, In b (f a) -> g b = h a) ->
  (forall a, List.length (f a) <= 1) ->
  NoDup (map g (flat_map f l))
  /\ List.length (flat_map f l) <= List.length l
  /\ forall b, In b (flat_map f l) -> In (g b) (map h l).
Proof.
  intros Hnd Hkey Hone. induction l as [|a l IH].
  - cbn. split; [constructor | split; [lia | intros b []]].
  - inversion Hnd as [|? ? Hnot Hnd']. subst.
    destruct (IH Hnd') as [IH1 [IH2 IH3]]. cbn [flat_map map].
    specialize (Hone a). specialize (Hkey a).
    destruct (f a) as [|b [|b' rest]]; cbn [app List.length] in *.
    + split; [exact IH1 | split; [lia|]]. intros b Hb. right. auto.
    + split; [|split; [lia|]].
      * cbn [map]. constructor; [|exact IH1].
        rewrite (Hkey b (or_introl eq_refl)). intros Hin.
        apply in_map_iff in Hin. destruct Hin as [b' [Hg Hb']].
        apply Hnot. rewrite <- Hg. apply IH3. exact Hb'.
      * intros b0 [<- | Hb0]; [left; symmetry; apply Hkey; left; reflexivity|].
        right. auto.
    + lia.
Qed.

Lemma group_clauses_keys (clauses : list ExtractedClause.t) :
  Dict.keys (CompareAgent._group_clauses clauses) = topic_set clauses.
Proof.
  rewrite group_clauses_two_level. unfold Dict.keys. rewrite map_map.
  cbn [fst]. fold (Dict.keys (group_by topic_key clauses)).
  apply group_by_keys_to_set.
Qed.

Lemma compare_clauses_topics
    (env : Env) (clauses : list ExtractedClause.t)
    (comparisons : list Comparison.t) :
  CompareAgent.compare_clauses env clauses = Ok comparisons ->
  NoDup (map Comparison.topic comparisons)
  /\ List.length comparisons
     <= List.length (CompareAgent._group_clauses clauses)
  /\ forall cmp, In cmp comparisons ->
                 In (Comparison.topic cmp)
                    (map fst (CompareAgent._group_clauses clauses)).
Proof.
  unfold CompareAgent.compare_clauses. intros [= <-].
  assert (Hnd : NoDup (map fst (CompareAgent._group_clauses clauses)))
    by apply (proj1 (group_clauses_inv clauses)).
  apply (flat_map_at_most_one fst Comparison.topic); [exact Hnd | |].
  - intros [t js] cmp Hin. cbn [fst].
    destruct (1 <? List.length js); [|destruct Hin].
    destruct (CompareAgent._compare_topic env t js) as [c|] eqn:E;
      [|destruct Hin].
    destruct Hin as [<- | []]. exact (proj1 (compare_topic_fields _ _ _ _ E)).
  - intros [t js]. destruct (1 <? List.length js); [|cbn; lia].
    destruct (CompareAgent._compare_topic env t js); cbn; lia.
Qed.

(** The Compare stage produces at most one comparison per topic key: the
    topics of its comparisons are pairwise different, each is a topic key
    of the input, and there are no more comparisons than distinct topic
    keys. *)
Theorem comparisons_one_per_topic
    (env : Env) (clauses : list ExtractedClause.t) :
  exists comparisons,
    CompareAgent.compare_clauses env clauses = Ok comparisons
    /\ NoDup (map Comparison.topic comparisons)
    /\ List.length comparisons <= List.length (topic_set clauses)
    /\ forall cmp, In cmp comparisons ->
                   In (Comparison.topic cmp) (topic_set clauses).
Proof.
  eexists. split; [reflexivity|].
  rewrite <- group_clauses_keys. unfold Dict.keys. rewrite length_map.
  apply (compare_clauses_topics env). reflexivity.
Qed.

(** When the comparison collaborator answers every prompt with text that
    holds no JSON object that parses, the Compare stage returns, for each
    topic key with more than one jurisdiction and in the order of the
    grouping, the template comparison of that topic, whose score is
    0.5. *)
Theorem compare_unparsable_gives_fallbacks
    (env : Env) (clauses : list ExtractedClause.t) :
  (forall prompt, exists response,
      ollama_compare env prompt = Ok response
      /\ no_json_object env response) ->
  CompareAgent.compare_clauses env clauses
  = Ok (map (fun kv =>
               CompareAgent._create_fallback_comparison (fst kv) (snd kv))
            (filter (fun kv => 1 <? List.length (snd kv))
                    (CompareAgent._group_clauses clauses)))
  /\ forall kv,
       Comparison.comparison_score
         (CompareAgent._create_fallback_comparison (fst kv) (snd kv))
       = Some (5 # 10)
       /\ Comparison.similarities
            (CompareAgent._create_fallback_comparison (fst kv) (snd kv))
          = ["All jurisdictions have some form of " ++ fst kv
               ++ " regulation"].
Proof.
  intros Hreply. split; [|intros kv; split; reflexivity].
  unfold CompareAgent.compare_clauses. f_equal.
  induction (CompareAgent._group_clauses clauses) as [|[t js] d IH];
    [reflexivity|].
  cbn [flat_map filter map fst snd]. rewrite IH.
  destruct (1 <? List.length js); [|reflexivity].
  cbn [map fst snd app].
  unfold CompareAgent._compare_topic, CompareAgent._call_ollama.
  destruct (Hreply (CompareAgent._create_comparison_prompt t js))
    as [response [-> Hgarbage]].
  unfold CompareAgent._parse_comparison_response.
  unfold no_json_object in Hgarbage. cbv zeta in Hgarbage.
  destruct Hgarbage as [H | [H | H]].
  - rewrite H. reflexivity.
  - rewrite H, orb_true_r. reflexivity.
  - rewrite H. destruct (_ || _); reflexivity.
Qed.

Lemma compare_unparsable_gives_fallbacks_witness :
  CompareAgent.compare_clauses
    (Samples.env_of (Ok None) (Ok "") (Ok "not json") (Ok ""))
    Samples.eu_and_us
  = Ok [CompareAgent._create_fallback_comparison "safety"
          [("EU", [Samples.clause "Safety" "EU"]);
           ("US", [Samples.clause "safety" "US"])]].
Proof.
  apply (proj1 (compare_unparsable_gives_fallbacks
                  (Samples.env_of (Ok None) (Ok "") (Ok "not json") (Ok ""))
                  Samples.eu_and_us
                  (fun _ => ex_intro _ "not json"
                              (conj eq_refl (or_introl eq_refl))))).
Defined.

(** ** Shape of the coverage gaps *)

Lemma jurisdiction_topics_keys (clauses : list ExtractedClause.t) :
  Dict.keys (CompareAgent.jurisdiction_topics clauses)
  = jurisdictions_seen clauses.
Proof.
  unfold jurisdictions_seen.
  induction clauses as [|c clauses IH] using rev_ind; [reflexivity|].
  rewrite jurisdiction_topics_snoc. unfold Dict.add.
  rewrite keys_upsert, IH.
  unfold CompareMetrics.to_set, CompareAgent.set_update.
  rewrite map_app, fold_left_app. reflexivity.
Qed.

Lemma all_topics_NoDup (jt : Dict.t (list string)) :
  NoDup (CompareAgent.all_topics jt).
Proof.
  unfold CompareAgent.all_topics.
  assert (H : forall acc, NoDup acc ->
                NoDup (fold_left
                         (fun acc kv => CompareAgent.set_update acc (snd kv))
                         jt acc)).
  { induction jt as [|kv jt IH]; intros acc Hacc; [exact Hacc|].
    cbn [fold_left]. apply IH. apply set_update_NoDup. exact Hacc. }
  apply H. constructor.
Qed.

(** Does jurisdiction [j] have a clause on topic key [t]? *)
Definition covers (clauses : list ExtractedClause.t) (t j : string) : bool :=
  existsb
    (fun c => String.eqb (ExtractedClause.jurisdiction c) j
              && String.eqb (topic_key c) t)
    clauses.

Lemma covers_iff (clauses : list ExtractedClause.t) (t j : string) :
  covers clauses t j = true <-> contributes clauses t j.
Proof.
  unfold covers, contributes. rewrite existsb_exists.
  split; intros [c [Hc H]]; exists c; split; try exact Hc.
  - apply andb_true_iff in H. rewrite !String.eqb_eq in H. tauto.
  - apply andb_true_iff. rewrite !String.eqb_eq. tauto.
Qed.

Lemma same_jurisdiction_no_gaps (clauses : list ExtractedClause.t) :
  (forall c1 c2, In c1 clauses -> In c2 clauses ->
     ExtractedClause.jurisdiction c1 = ExtractedClause.jurisdiction c2) ->
  CompareAgent.identify_regulatory_gaps clauses = [].
Proof.
  intros Hsame. unfold CompareAgent.identify_regulatory_gaps.
  destruct (CompareAgent.gap_entries clauses) as [|[t m] rest] eqn:E;
    [reflexivity|].
  exfalso.
  assert (Hin : In (t, m) (CompareAgent.gap_entries clauses))
    by (rewrite E; left; reflexivity).
  destruct (gap_entries_In _ _ _ Hin) as [[c [Hc Ht]] [Hne Hm]].
  destruct m as [|j m']; [congruence|].
  destruct (proj1 (Hm j) (or_introl eq_refl)) as [[c' [Hc' Hj]] Hnot].
  apply Hnot. exists c. split; [exact Hc|]. split; [exact Ht|].
  rewrite <- Hj. apply Hsame; assumption.
Qed.

(** There is at most one gap entry per topic key, and no more gap
    statements than distinct topic keys; the jurisdictions an entry names
    are the jurisdictions of the input that have no clause on the topic,
    in order of first occurrence; and a clause list with a single
    jurisdiction, or none, has no gap. *)
Theorem gap_entries_shape (clauses : list ExtractedClause.t) :
  NoDup (map fst (CompareAgent.gap_entries clauses))
  /\ List.length (CompareAgent.identify_regulatory_gaps clauses)
     <= List.length (topic_set clauses)
  /\ (forall t m, In (t, m) (CompareAgent.gap_entries clauses) ->
        m = filter (fun j => negb (covers clauses t j))
                   (jurisdictions_seen clauses))
  /\ ((forall c1 c2, In c1 clauses -> In c2 clauses ->
         ExtractedClause.jurisdiction c1 = ExtractedClause.jurisdiction c2) ->
      CompareAgent.identify_regulatory_gaps clauses = []).
Proof.
  set (jt := CompareAgent.jurisdiction_topics clauses).
  assert (Hshape :
            NoDup (map fst (CompareAgent.gap_entries clauses))
            /\ List.length (CompareAgent.gap_entries clauses)
               <= List.length (CompareAgent.all_topics jt)
            /\ forall e, In e (CompareAgent.gap_entries clauses) ->
                         In (fst e) (map (fun t => t)
                                         (CompareAgent.all_topics jt))).
  { unfold CompareAgent.gap_entries. fold jt.
    apply (flat_map_at_most_one (fun t : string => t) fst).
    - rewrite map_id. apply all_topics_NoDup.
    - intros t e He. destruct (_ <? _); [|destruct He].
      destruct He as [<- | []]. reflexivity.
    - intros t. destruct (_ <? _); cbn; lia. }
  destruct Hshape as [Hnd [Hlen _]].
  split; [exact Hnd|]. split; [|split].
  - unfold CompareAgent.identify_regulatory_gaps. rewrite length_map.
    assert (Hperm : List.length (CompareAgent.all_topics jt)
                    = List.length (topic_set clauses)).
    { apply Permutation_length. apply NoDup_Permutation.
      - apply all_topics_NoDup.
      - apply to_set_NoDup.
      - intros t. subst jt. rewrite all_topics_seen. unfold topic_set.
        rewrite to_set_In, in_map_iff. unfold topic_seen, topic_key.
        split; intros [c H]; exists c; tauto. }
    lia.
  - intros t m Hin. unfold CompareAgent.gap_entries in Hin. fold jt in Hin.
    apply in_flat_map in Hin. destruct Hin as [t' [_ Hin]].
    destruct (_ <? _); [|destruct Hin].
    destruct Hin as [Heq | []]. injection Heq as -> <-.
    rewrite <- jurisdiction_topics_keys. fold jt.
    apply filter_ext_in. intros j Hj. f_equal.
    assert (Hp : Py.mem t (CompareAgent.topics_of jt j)
                 = covers clauses t j).
    { destruct (covers clauses t j) eqn:E.
      - apply has_topic_iff; [exact Hj|]. apply covers_iff. exact E.
      - destruct (Py.mem t (CompareAgent.topics_of jt j)) eqn:M;
          [|reflexivity].
        apply has_topic_iff in M; [|exact Hj]. apply covers_iff in M.
        congruence. }
    rewrite <- Hp.
    destruct (Py.mem t (CompareAgent.topics_of jt j)) eqn:M.
    + apply mem_In. apply filter_In. split; assumption.
    + apply mem_false. intros H. apply filter_In in H. destruct H as [_ H].
      congruence.
  - apply same_jurisdiction_no_gaps.
Qed.

Lemma gap_entries_shape_witness :
  (forall c1 c2, In c1 Samples.eu_only -> In c2 Samples.eu_only ->
     ExtractedClause.jurisdiction c1 = ExtractedClause.jurisdiction c2)
  /\ CompareAgent.identify_regulatory_gaps Samples.eu_only = [].
Proof.
  assert (Hsame : forall c1 c2,
             In c1 Samples.eu_only -> In c2 Samples.eu_only ->
             ExtractedClause.jurisdiction c1
             = ExtractedClause.jurisdiction c2).
  { intros c1 c2 [<- | [<- | []]] [<- | [<- | []]]; reflexivity. }
  split; [exact Hsame|].
  exact (proj2 (proj2 (proj2 (gap_entries_shape Samples.eu_only))) Hsame).
Defined.

(** ** Ranking of the search results *)

(** [a] may stand before [b] in the ranking: its score is not lower. *)
Definition ranked_before (a b : Document.t) : Prop :=
  (SearchAgent.sort_key b <= SearchAgent.sort_key a)%Q.

(** The documents whose sort key equals [q]. *)
Definition with_key (q : Q) (l : list Document.t) : list Document.t :=
  filter (fun d => Qeq_bool (SearchAgent.sort_key d) q) l.

Lemma insert_desc_permutation (d : Document.t) (l : list Document.t) :
  Permutation (d :: l) (SearchAgent.insert_desc d l).
Proof.
  induction l as [|d' l IH]; cbn [SearchAgent.insert_desc].
  - apply Permutation_refl.
  - destruct (Qle_bool _ _); [apply Permutation_refl|].
    apply perm_trans with (d' :: d :: l); [apply perm_swap|].
    apply perm_skip. exact IH.
Qed.

Lemma insert_desc_sorted (d : Document.t) (l : list Document.t) :
  StronglySorted ranked_before l ->
  StronglySorted ranked_before (SearchAgent.insert_desc d l).
Proof.
  induction l as [|d' l IH]; intros Hs; cbn [SearchAgent.insert_desc].
  - repeat constructor.
  - inversion Hs as [|? ? Hs' Hall]. subst.
    destruct (Qle_bool (SearchAgent.sort_key d') (SearchAgent.sort_key d))
      eqn:E.
    + apply Qle_bool_iff in E. constructor; [exact Hs|].
      constructor; [exact E|].
      apply Forall_forall. intros x Hx.
      rewrite Forall_forall in Hall. specialize (Hall x Hx).
      unfold ranked_before in *. apply Qle_trans with (2 := E). exact Hall.
    + constructor; [apply IH; exact Hs'|].
      apply Forall_forall. intros x Hx.
      apply (Permutation_in _ (Permutation_sym (insert_desc_permutation d l)))
        in Hx.
      destruct Hx as [<- | Hx].
      * unfold ranked_before. apply Qlt_le_weak. apply Qnot_le_lt.
        intros H. apply Qle_bool_iff in H. congruence.
      * rewrite Forall_forall in Hall. exact (Hall x Hx).
Qed.

Lemma insert_desc_with_key (q : Q) (d : Document.t) (l : list Document.t) :
  with_key q (SearchAgent.insert_desc d l) = with_key q (d :: l).
Proof.
  unfold with_key. induction l as [|d' l IH]; [reflexivity|].
  cbn [SearchAgent.insert_desc].
  destruct (Qle_bool (SearchAgent.sort_key d') (SearchAgent.sort_key d))
    eqn:E; [reflexivity|].
  cbn [filter] in *. rewrite IH.
  destruct (Qeq_bool (SearchAgent.sort_key d') q) eqn:E1;
    destruct (Qeq_bool (SearchAgent.sort_key d) q) eqn:E2; try reflexivity.
  exfalso. apply Qeq_bool_iff in E1, E2.
  assert (H : Qle_bool (SearchAgent.sort_key d') (SearchAgent.sort_key d)
              = true).
  { apply Qle_bool_iff. rewrite E1, E2. apply Qle_refl. }
  congruence.
Qed.

Lemma sort_desc_facts (l : list Document.t) :
  Permutation l (SearchAgent.sort_desc l)
  /\ StronglySorted ranked_before (SearchAgent.sort_desc l)
  /\ forall q, with_key q (SearchAgent.sort_desc l) = with_key q l.
Proof.
  unfold SearchAgent.sort_desc.
  induction l as [|d l [IHp [IHs IHk]]]; cbn [fold_right].
  - split; [constructor | split; [constructor | reflexivity]].
  - split; [|split].
    + apply perm_trans with (d :: fold_right SearchAgent.insert_desc [] l);
        [apply perm_skip; exact IHp | apply insert_desc_permutation].
    + apply insert_desc_sorted. exact IHs.
    + intros q. rewrite insert_desc_with_key. unfold with_key in *.
      cbn [filter]. rewrite IHk. reflexivity.
Qed.

Lemma built_documents_length (env : Env) (results : list Json)
    (regions : option (list string)) :
  List.length (SearchAgent.built_documents env results regions)
  <= List.length results.
Proof.
  unfold SearchAgent.built_documents.
  induction results as [|entry results IH]; cbn [flat_map]; [cbn; lia|].
  rewrite length_app. destruct (SearchAgent.read_result env entry); cbn;
    lia.
Qed.

Lemma read_result_content (env : Env) (members : list (string * Json))
    (value : Json) :
  Dict.get members "content" = Some value ->
  (forall text, value <> JStr text) ->
  SearchAgent.read_result env (JObj members) = None.
Proof.
  intros Hget Hvalue.
  assert (E : SearchAgent.get_text members "content" = None).
  { unfold SearchAgent.get_text. rewrite Hget.
    destruct value; try reflexivity. exfalso. exact (Hvalue s eq_refl). }
  unfold SearchAgent.read_result. rewrite E.
  destruct (SearchAgent.get_validated env members "title");
    [|reflexivity].
  destruct (SearchAgent.get_text members "url"); reflexivity.
Qed.

(** The documents returned are those built from the entries of the
    search response that the loop body could read, in descending order
    of relevance score; the sort adds and loses nothing, and documents of
    equal score keep the order of their entries.  An entry that is not a
    dictionary, or whose content is present but is not a string (null
    included), has no document: it is skipped, and there are at most as
    many documents as entries. *)
Theorem process_search_results_ranked
    (env : Env) (results : list Json) (regions : option (list string)) :
  let made := SearchAgent.built_documents env results regions in
  let docs := SearchAgent._process_search_results env results regions in
  Permutation made docs
  /\ StronglySorted ranked_before docs
  /\ (forall q, with_key q docs = with_key q made)
  /\ List.length docs <= List.length results
  /\ (forall doc,
        In doc docs
        <-> exists entry result,
              In entry results
              /\ SearchAgent.read_result env entry = Some result
              /\ doc = SearchAgent.make_document result regions)
  /\ (forall entry,
        (forall members, entry <> JObj members) ->
        SearchAgent.read_result env entry = None)
  /\ (forall members value,
        Dict.get members "content" = Some value ->
        (forall text, value <> JStr text) ->
        SearchAgent.read_result env (JObj members) = None).
Proof.
  intros made docs. subst docs. unfold SearchAgent._process_search_results.
  fold made. destruct (sort_desc_facts made) as [Hp [Hs Hk]].
  split; [exact Hp|]. split; [exact Hs|]. split; [exact Hk|].
  split; [|split; [|split]].
  - rewrite <- (Permutation_length Hp). subst made.
    apply built_documents_length.
  - intros doc. rewrite sort_desc_In. subst made.
    apply built_documents_In.
  - intros entry Hentry. destruct entry; try reflexivity.
    exfalso. exact (Hentry members eq_refl).
  - apply read_result_content.
Qed.

Lemma process_search_results_ranked_witness :
  SearchAgent._process_search_results Samples.env_twelve
    [JObj [("title", JStr "Report"); ("content", JNull)];
     Samples.entry (Samples.raw "EU AI Act" "https://europa.eu/ai-act" "text");
     JStr "noise"]
    None
  = [SearchAgent.make_document
       (Samples.raw "EU AI Act" "https://europa.eu/ai-act" "text") None].
Proof.
  assert (Hnull : SearchAgent.read_result Samples.env_twelve
                    (JObj [("title", JStr "Report"); ("content", JNull)])
                  = None).
  { apply (proj2 (proj2 (proj2 (proj2 (proj2 (proj2
             (process_search_results_ranked Samples.env_twelve [] None)))))))
      with (value := JNull).
    - reflexivity.
    - discriminate. }
  unfold SearchAgent._process_search_results, SearchAgent.built_documents.
  cbn [flat_map]. rewrite Hnull. reflexivity.
Defined.

(** The relevance score never exceeds 1, and it is not negative when the
    provider gave no score or a score that is not negative. *)
Theorem relevance_score_bounds (result : RawResult.t) :
  (SearchAgent._calculate_relevance_score result <= 1)%Q
  /\ (match RawResult.score result with
      | Some s => (0 <= s)%Q
      | None => True
      end ->
      (0 <= SearchAgent._calculate_relevance_score result)%Q).
Proof.
  unfold SearchAgent._calculate_relevance_score.
  set (s0 := match RawResult.score result with
             | Some s => (0 + s * (1 # 2))%Q
             | None => 0%Q
             end).
  set (b1 := existsb _ _). set (b2 := RawResult.published_date result).
  set (b3 := 1000 <? _).
  set (s1 := if b1 then (s0 + (3 # 10))%Q else s0).
  set (s2 := if b2 then (s1 + (1 # 10))%Q else s1).
  set (s3 := if b3 then (s2 + (1 # 10))%Q else s2).
  split.
  - destruct (Qle_bool s3 1) eqn:E; [apply Qle_bool_iff; exact E|].
    apply Qle_refl.
  - intros Hs.
    assert (H0 : (0 <= s0)%Q).
    { subst s0. destruct (RawResult.score result); lra. }
    assert (H1 : (0 <= s1)%Q) by (subst s1; destruct b1; lra).
    assert (H2 : (0 <= s2)%Q) by (subst s2; destruct b2; lra).
    assert (H3 : (0 <= s3)%Q) by (subst s3; destruct b3; lra).
    destruct (Qle_bool s3 1); [exact H3 | lra].
Qed.

Lemma relevance_score_bounds_witness :
  (0 <= SearchAgent._calculate_relevance_score
          (RawResult.mk (Some "EU AI Act") (Some "https://europa.eu/ai")
             (Some "text") None (Some (9 # 10)) true))%Q.
Proof.
  apply (proj2 (relevance_score_bounds
                  (RawResult.mk (Some "EU AI Act")
                     (Some "https://europa.eu/ai") (Some "text") None
                     (Some (9 # 10)) true))).
  cbn. discriminate.
Defined.

(** ** What a run does *)

(** The documents the Search node keeps of those found. *)
Definition kept_documents (limit : Z) (found : list Document.t)
  : list Document.t :=
  if (limit =? 0)%Z then found else Py.list_upto limit found.

Lemma search_node_ok_state (env : Env) (state : Workflow.State)
    (found : list Document.t) :
  SearchAgent.search_documents env (Workflow.query state)
    (Some (Workflow.regions state)) (Some (Workflow.document_types state))
  = Ok found ->
  Workflow._search_node env state
  = Workflow.mkState (Workflow.query state) (Workflow.regions state)
      (Workflow.document_types state) (Workflow.max_documents state)
      SEARCHING
      (Workflow.set_search_agent 1
         (Workflow.set_search_agent 0 (Workflow.progress state)))
      (kept_documents (Workflow.max_documents state) found)
      (Workflow.clauses state) (Workflow.comparisons state)
      (Workflow.summary state) (Workflow.result state)
      (Workflow.error state).
Proof.
  intros H. unfold Workflow._search_node.
  cbn [Workflow.query Workflow.regions Workflow.document_types
       Workflow.set_status Workflow.set_progress].
  rewrite H. reflexivity.
Qed.

Lemma search_node_raise_state (env : Env) (state : Workflow.State)
    (e : string) :
  SearchAgent.search_documents env (Workflow.query state)
    (Some (Workflow.regions state)) (Some (Workflow.document_types state))
  = Raise e ->
  Workflow._search_node env state
  = Workflow.mkState (Workflow.query state) (Workflow.regions state)
      (Workflow.document_types state) (Workflow.max_documents state)
      FAILED
      (Workflow.set_search_agent 0 (Workflow.progress state))
      (Workflow.documents state)
      (Workflow.clauses state) (Workflow.comparisons state)
      (Workflow.summary state) (Workflow.result state)
      (Some ("Search failed: " ++ e)).
Proof.
  intros H. unfold Workflow._search_node.
  cbn [Workflow.query Workflow.regions Workflow.document_types
       Workflow.set_status Workflow.set_progress].
  rewrite H. reflexivity.
Qed.

Lemma summarize_node_state (env : Env) (state : Workflow.State) :
  Workflow._summarize_node env state
  = match SummarizeAgent.generate_summary env (Workflow.query state)
            (Workflow.documents state) (Workflow.clauses state)
            (Workflow.comparisons state) with
    | Ok summary =>
        Workflow.mkState (Workflow.query state) (Workflow.regions state)
          (Workflow.document_types state) (Workflow.max_documents state)
          SUMMARIZING
          (Workflow.set_summarize_agent 1
             (Workflow.set_summarize_agent 0 (Workflow.progress state)))
          (Workflow.documents state)
          (Workflow.clauses state) (Workflow.comparisons state)
          (Some summary) (Workflow.result state) (Workflow.error state)
    | Raise e =>
        Workflow.mkState (Workflow.query state) (Workflow.regions state)
          (Workflow.document_types state) (Workflow.max_documents state)
          FAILED
          (Workflow.set_summarize_agent 0 (Workflow.progress state))
          (Workflow.documents state)
          (Workflow.clauses state) (Workflow.comparisons state)
          (Workflow.summary state) (Workflow.result state)
          (Some ("Summarization failed: " ++ e))
    end.
Proof.
  unfold Workflow._summarize_node.
  cbn [Workflow.query Workflow.documents Workflow.clauses Workflow.comparisons
       Workflow.set_status Workflow.set_progress].
  destruct (SummarizeAgent.generate_summary _ _ _ _ _); reflexivity.
Qed.

Definition progress_of (a b c d : Q) : Workflow.Progress :=
  {| Workflow.search_agent := a; Workflow.extract_agent := b;
     Workflow.compare_agent := c; Workflow.summarize_agent := d |}.

(** The search a run makes. *)
Definition search_of (env : Env) (research_query : ResearchQuery.t)
  : Result (list Document.t) :=
  SearchAgent.search_documents env (ResearchQuery.query research_query)
    (Some (Workflow.list_or_empty (ResearchQuery.regions research_query)))
    (Some (Workflow.list_or_empty
             (ResearchQuery.document_types research_query))).

(** The documents a run works on: those kept of the documents found, and
    none when the search failed. *)
Definition run_documents (env : Env) (research_query : ResearchQuery.t)
  : list Document.t :=
  match search_of env research_query with
  | Ok found =>
      kept_documents
        (Workflow.max_documents_or_10
           (ResearchQuery.max_documents research_query))
        found
  | Raise _ => []
  end.

Definition run_clauses (env : Env) (research_query : ResearchQuery.t)
  : list ExtractedClause.t :=
  ExtractAgent.validate_clauses
    (flat_map (ExtractAgent._extract_from_document env)
              (run_documents env research_query)).

Definition run_comparisons (env : Env) (research_query : ResearchQuery.t)
  : list Comparison.t :=
  match CompareAgent.compare_clauses env (run_clauses env research_query)
  with
  | Ok comparisons => comparisons
  | Raise _ => []
  end.

(** The call the Summarize node makes in a run. *)
Definition run_summary (env : Env) (research_query : ResearchQuery.t)
  : Result Summary.t :=
  SummarizeAgent.generate_summary env (ResearchQuery.query research_query)
    (run_documents env research_query) (run_clauses env research_query)
    (run_comparisons env research_query).

(** 1 for a call that returned, 0 for one that raised. *)
Definition done {A} (r : Result A) : Q :=
  match r with
  | Ok _ => 1
  | Raise _ => 0
  end.

(** The status a stage leaves: its own when its call returned. *)
Definition status_after {A} (own : QueryStatus) (r : Result A)
  : QueryStatus :=
  match r with
  | Ok _ => own
  | Raise _ => FAILED
  end.

(** The error field at the end of a run: the Summarize stage overwrites
    what the Search stage recorded. *)
Definition run_error (env : Env) (research_query : ResearchQuery.t)
  : option string :=
  match run_summary env research_query, search_of env research_query with
  | Raise e, _ => Some ("Summarization failed: " ++ e)
  | Ok _, Raise e => Some ("Search failed: " ++ e)
  | Ok _, Ok _ => None
  end.

Lemma state_before_summarize_eq (env : Env)
    (research_query : ResearchQuery.t) :
  state_before_summarize env research_query
  = Workflow.mkState (ResearchQuery.query research_query)
      (Workflow.list_or_empty (ResearchQuery.regions research_query))
      (Workflow.list_or_empty (ResearchQuery.document_types research_query))
      (Workflow.max_documents_or_10
         (ResearchQuery.max_documents research_query))
      COMPARING
      (progress_of (done (search_of env research_query)) 1 1 0)
      (run_documents env research_query) (run_clauses env research_query)
      (run_comparisons env research_query) None None
      (match search_of env research_query with
       | Ok _ => None
       | Raise e => Some ("Search failed: " ++ e)
       end).
Proof.
  unfold state_before_summarize, run_comparisons, run_clauses,
    run_documents.
  set (state0 := Workflow.initial_state research_query).
  destruct (search_of env research_query) as [found | e] eqn:Hsearch;
    unfold search_of in Hsearch.
  - rewrite (search_node_ok_state env state0 found Hsearch). reflexivity.
  - rewrite (search_node_raise_state env state0 e Hsearch). reflexivity.
Qed.

Lemma after_compare_eq (env : Env) (research_query : ResearchQuery.t) :
  after_compare env (Workflow.initial_state research_query)
  = state_before_summarize env research_query.
Proof. reflexivity. Qed.

(** Every run executes the five nodes in the order of the plain edges,
    whatever a node recorded, and ends [COMPLETED] with a result built
    from the final state.  A failed search leaves the run without
    documents; a failed Search or Summarize stage shows in the status it
    left, in its progress and in the error field, where the message of
    Summarize replaces that of Search; neither keeps the finalize step
    from running. *)
Theorem run_outcome (env : Env) (research_query : ResearchQuery.t) :
  exists trace final,
    Workflow.ainvoke env (Workflow.initial_state research_query)
    = Some (trace, final)
    /\ map fst trace
       = [Workflow.search; Workflow.extract; Workflow.compare;
          Workflow.summarize; Workflow.finalize]
    /\ last (map snd trace) (Workflow.initial_state research_query) = final
    /\ map (fun p => Workflow.status (snd p)) trace
       = [status_after SEARCHING (search_of env research_query);
          EXTRACTING; COMPARING;
          status_after SUMMARIZING (run_summary env research_query);
          COMPLETED]
    /\ Workflow.status final = COMPLETED
    /\ Workflow.error final = run_error env research_query
    /\ Workflow.progress final
       = progress_of (done (search_of env research_query)) 1 1
                     (done (run_summary env research_query))
    /\ Workflow.documents final = run_documents env research_query
    /\ Workflow.clauses final = run_clauses env research_query
    /\ Workflow.comparisons final = run_comparisons env research_query
    /\ Workflow.summary final
       = match run_summary env research_query with
         | Ok summary => Some summary
         | Raise _ => None
         end
    /\ Workflow.result final
       = Some (ResearchResult.mk
                 (ResearchQuery.query research_query)
                 (Workflow.documents final) (Workflow.clauses final)
                 (Workflow.comparisons final) (Workflow.summary final)
                 (Workflow.list_or_empty
                    (ResearchQuery.regions research_query))
                 (Workflow.list_or_empty
                    (ResearchQuery.document_types research_query))
                 (Workflow.max_documents_or_10
                    (ResearchQuery.max_documents research_query))).
Proof.
  eexists. eexists. split; [apply ainvoke_runs_every_node|].
  split; [reflexivity|]. split; [reflexivity|].
  unfold after_finalize, after_summarize. rewrite after_compare_eq.
  cbn [map fst snd].
  assert (Hs1 : Workflow.status
                  (after_search env (Workflow.initial_state research_query))
                = status_after SEARCHING (search_of env research_query)).
  { unfold after_search, search_of.
    destruct (SearchAgent.search_documents env
                (ResearchQuery.query research_query) _ _)
      as [found | e] eqn:Hsearch.
    - rewrite (search_node_ok_state env
                 (Workflow.initial_state research_query) found Hsearch).
      reflexivity.
    - rewrite (search_node_raise_state env
                 (Workflow.initial_state research_query) e Hsearch).
      reflexivity. }
  rewrite Hs1. clear Hs1.
  rewrite summarize_node_state, state_before_summarize_eq.
  cbn [Workflow.query Workflow.documents Workflow.clauses
       Workflow.comparisons].
  fold (run_summary env research_query). unfold run_error.
  destruct (run_summary env research_query) as [summary | e2];
    destruct (search_of env research_query) as [found | e1];
    repeat split.
Qed.

(** ** Comparisons without a score *)

Lemma digest_all_ok (comparisons : list Comparison.t)
    (digests : list ComparisonDigest) :
  SummarizeAgent.digest_all comparisons = Ok digests ->
  forall cmp, In cmp comparisons ->
              exists s, Comparison.comparison_score cmp = Some s.
Proof.
  revert digests. induction comparisons as [|c cs IH]; intros digests H cmp;
    [intros []|].
  cbn [SummarizeAgent.digest_all] in H.
  unfold SummarizeAgent.digest_comparison in H.
  destruct (Comparison.comparison_score c) as [s|] eqn:Es; [|discriminate].
  destruct (SummarizeAgent.digest_all cs) as [ds|] eqn:Ed; [|discriminate].
  intros [<- | Hin]; [eauto | exact (IH ds eq_refl cmp Hin)].
Qed.

Lemma digest_all_raise (comparisons : list Comparison.t)
    (cmp : Comparison.t) :
  In cmp comparisons -> Comparison.comparison_score cmp = None ->
  SummarizeAgent.digest_all comparisons
  = Raise "unsupported format string passed to NoneType.__format__".
Proof.
  induction comparisons as [|c cs IH]; [intros []|].
  intros Hin Hnone. cbn [SummarizeAgent.digest_all].
  unfold SummarizeAgent.digest_comparison.
  destruct (Comparison.comparison_score c) as [s|] eqn:Es; [|reflexivity].
  destruct Hin as [-> | Hin]; [congruence|].
  rewrite (IH Hin Hnone). reflexivity.
Qed.

Lemma generate_summary_ok_scores (env : Env) (query : string)
    (documents : list Document.t) (clauses : list ExtractedClause.t)
    (comparisons : list Comparison.t) (summary : Summary.t) :
  SummarizeAgent.generate_summary env query documents clauses comparisons
  = Ok summary ->
  forall cmp, In cmp comparisons ->
              exists s, Comparison.comparison_score cmp = Some s.
Proof.
  unfold SummarizeAgent.generate_summary,
    SummarizeAgent._create_summary_prompt,
    SummarizeAgent._summarize_comparisons.
  destruct comparisons as [|c cs]; [intros _ cmp []|].
  destruct (SummarizeAgent.digest_all (c :: cs)) as [ds|] eqn:E;
    [|discriminate].
  intros _. exact (digest_all_ok _ _ E).
Qed.

(** A comparison without a score makes the Summarize stage fail before
    the summary collaborator is called: whatever the environment, the
    node ends [FAILED] with the message of the formatting error. *)
Theorem null_score_fails_summarize
    (env : Env) (state : Workflow.State) (cmp : Comparison.t) :
  In cmp (Workflow.comparisons state) ->
  Comparison.comparison_score cmp = None ->
  Workflow.status (Workflow._summarize_node env state) = FAILED
  /\ Workflow.error (Workflow._summarize_node env state)
     = Some ("Summarization failed: "
               ++ "unsupported format string passed to NoneType.__format__")
  /\ Workflow.summary (Workflow._summarize_node env state)
     = Workflow.summary state
  /\ Workflow.summarize_agent
       (Workflow.progress (Workflow._summarize_node env state)) = 0%Q.
Proof.
  intros Hin Hnone. rewrite summarize_node_state.
  assert (Hgen : SummarizeAgent.generate_summary env (Workflow.query state)
                   (Workflow.documents state) (Workflow.clauses state)
                   (Workflow.comparisons state)
                 = Raise "unsupported format string passed to NoneType.__format__").
  { unfold SummarizeAgent.generate_summary,
      SummarizeAgent._create_summary_prompt,
      SummarizeAgent._summarize_comparisons.
    destruct (Workflow.comparisons state) as [|c cs] eqn:E; [destruct Hin|].
    rewrite (digest_all_raise _ _ Hin Hnone). reflexivity. }
  rewrite Hgen. repeat split.
Qed.

Lemma StronglySorted_firstn {A} (R : A -> A -> Prop) (n : nat) (l : list A) :
  StronglySorted R l -> StronglySorted R (firstn n l).
Proof.
  revert n. induction l as [|a l IH]; intros n Hs.
  - rewrite firstn_nil. constructor.
  - destruct n as [|n]; [constructor|]. cbn [firstn].
    inversion Hs as [|? ? Hs' Hall]. subst. constructor; [apply IH; exact Hs'|].
    apply Forall_forall. intros x Hx. rewrite Forall_forall in Hall.
    apply Hall. exact (firstn_In _ _ _ Hx).
Qed.

Lemma kept_documents_sorted (limit : Z) (found : list Document.t) :
  StronglySorted ranked_before found ->
  StronglySorted ranked_before (kept_documents limit found).
Proof.
  intros Hs. unfold kept_documents, Py.list_upto.
  destruct (limit =? 0)%Z; [exact Hs|].
  destruct (limit <? 0)%Z; apply StronglySorted_firstn; exact Hs.
Qed.

Lemma search_documents_sorted (env : Env) (query : string)
    (regions document_types : option (list string))
    (found : list Document.t) :
  SearchAgent.search_documents env query regions document_types = Ok found ->
  StronglySorted ranked_before found.
Proof.
  unfold SearchAgent.search_documents.
  destruct (SearchAgent._perform_search env _) as [results|]; [|discriminate].
  intros [= <-]. unfold SearchAgent._process_search_results.
  exact (proj1 (proj2 (sort_desc_facts _))).
Qed.

(** Whatever the providers answer, the state that reaches the Summarize
    stage is well formed: its documents are in descending order of
    relevance, every clause passed validation, no two comparisons share
    a topic, and when the summary call returns, every comparison has a
    score, so formatting it as a number did not fail. *)
Theorem pipeline_state_invariants
    (env : Env) (research_query : ResearchQuery.t) :
  let state3 := state_before_summarize env research_query in
  StronglySorted ranked_before (Workflow.documents state3)
  /\ Forall retained_ok (Workflow.clauses state3)
  /\ NoDup (map Comparison.topic (Workflow.comparisons state3))
  /\ (forall summary,
        SummarizeAgent.generate_summary env (Workflow.query state3)
          (Workflow.documents state3) (Workflow.clauses state3)
          (Workflow.comparisons state3) = Ok summary ->
        forall cmp, In cmp (Workflow.comparisons state3) ->
                    exists s, Comparison.comparison_score cmp = Some s).
Proof.
  intros state3. subst state3. rewrite state_before_summarize_eq.
  cbn [Workflow.query Workflow.documents Workflow.clauses
       Workflow.comparisons].
  split; [|split; [|split]].
  - unfold run_documents.
    destruct (search_of env research_query) as [found | e] eqn:Hsearch;
      [|constructor].
    apply kept_documents_sorted.
    exact (search_documents_sorted _ _ _ _ _ Hsearch).
  - apply Forall_forall. intros c Hc. unfold run_clauses in Hc.
    apply validate_keeps_iff in Hc. exact (proj2 Hc).
  - exact (proj1 (compare_clauses_topics env
                    (run_clauses env research_query)
                    (run_comparisons env research_query) eq_refl)).
  - intros summary Hgen.
    exact (generate_summary_ok_scores _ _ _ _ _ _ Hgen).
Qed.

(** ** The document limit of the Search node *)

Lemma StronglySorted_cross {A} (R : A -> A -> Prop) (l1 l2 : list A) :
  StronglySorted R (l1 ++ l2)%list ->
  forall a b, In a l1 -> In b l2 -> R a b.
Proof.
  induction l1 as [|x l1 IH]; intros Hs a b Ha Hb; [destruct Ha|].
  cbn [app] in Hs. inversion Hs as [|? ? Hs' Hall]. subst.
  destruct Ha as [<- | Ha].
  - rewrite Forall_forall in Hall. apply Hall. apply in_app_iff. right.
    exact Hb.
  - exact (IH Hs' a b Ha Hb).
Qed.

Lemma search_node_documents_eq (env : Env) (state : Workflow.State)
    (found : list Document.t) :
  SearchAgent.search_documents env (Workflow.query state)
    (Some (Workflow.regions state)) (Some (Workflow.document_types state))
  = Ok found ->
  Workflow.documents (Workflow._search_node env state)
  = kept_documents (Workflow.max_documents state) found.
Proof.
  intros H. rewrite (search_node_ok_state _ _ _ H). reflexivity.
Qed.

(** With a positive limit [n] the Search node keeps the first [n]
    documents of the ranking, all of them when fewer were found, and
    every document it keeps scores at least as high as every document it
    drops. *)
Theorem search_node_keeps_best
    (env : Env) (state : Workflow.State) (found : list Document.t)
    (n : nat) :
  SearchAgent.search_documents env (Workflow.query state)
    (Some (Workflow.regions state)) (Some (Workflow.document_types state))
  = Ok found ->
  Workflow.max_documents state = Z.of_nat n ->
  0 < n ->
  let kept := Workflow.documents (Workflow._search_node env state) in
  kept = firstn n found
  /\ List.length kept = Nat.min n (List.length found)
  /\ found = (kept ++ skipn n found)%list
  /\ forall a b, In a kept -> In b (skipn n found) ->
                 (SearchAgent.sort_key b <= SearchAgent.sort_key a)%Q.
Proof.
  intros Hfound Hmax Hn kept.
  assert (Hkept : kept = firstn n found).
  { subst kept. rewrite (search_node_documents_eq _ _ _ Hfound), Hmax.
    unfold kept_documents, Py.list_upto.
    destruct (Z.of_nat n =? 0)%Z eqn:E0; [apply Z.eqb_eq in E0; lia|].
    destruct (Z.of_nat n <? 0)%Z eqn:E1; [apply Z.ltb_lt in E1; lia|].
    rewrite Nat2Z.id. reflexivity. }
  split; [exact Hkept|]. rewrite Hkept.
  split; [apply length_firstn|].
  split; [symmetry; apply firstn_skipn|].
  intros a b Ha Hb.
  pose proof (search_documents_sorted _ _ _ _ _ Hfound) as Hs.
  rewrite <- (firstn_skipn n found) in Hs.
  exact (StronglySorted_cross _ _ _ Hs a b Ha Hb).
Qed.

Lemma search_node_keeps_best_witness :
  List.length
    (Workflow.documents
       (Workflow._search_node Samples.env_twelve
          (Workflow.initial_state
             (Samples.plain_query "ai act" (Some 3%Z))))) = 3.
Proof.
  destruct (search_node_keeps_best Samples.env_twelve
              (Workflow.initial_state
                 (Samples.plain_query "ai act" (Some 3%Z)))
              _ 3 eq_refl eq_refl (Nat.lt_0_succ 2))
    as [_ [H _]].
  rewrite H. reflexivity.
Defined.

(** With a negative limit [-k] the Search node drops the last [k]
    documents of the ranking instead of keeping a number of them: it
    keeps none when at most [k] were found. *)
Theorem search_node_negative_limit
    (env : Env) (state : Workflow.State) (found : list Document.t)
    (k : nat) :
  SearchAgent.search_documents env (Workflow.query state)
    (Some (Workflow.regions state)) (Some (Workflow.document_types state))
  = Ok found ->
  Workflow.max_documents state = (- Z.of_nat k)%Z ->
  0 < k ->
  let kept := Workflow.documents (Workflow._search_node env state) in
  kept = firstn (List.length found - k) found
  /\ List.length kept = List.length found - k
  /\ (List.length found <= k -> kept = []).
Proof.
  intros Hfound Hmax Hk kept.
  assert (Hkept : kept = firstn (List.length found - k) found).
  { subst kept. rewrite (search_node_documents_eq _ _ _ Hfound), Hmax.
    unfold kept_documents, Py.list_upto.
    destruct (- Z.of_nat k =? 0)%Z eqn:E0; [apply Z.eqb_eq in E0; lia|].
    destruct (- Z.of_nat k <? 0)%Z eqn:E1; [|apply Z.ltb_ge in E1; lia].
    f_equal. lia. }
  split; [exact Hkept|]. rewrite Hkept. split.
  - rewrite length_firstn. lia.
  - intros Hle. replace (List.length found - k) with 0 by lia. reflexivity.
Qed.

Lemma search_node_negative_limit_witness :
  List.length
    (Workflow.documents
       (Workflow._search_node Samples.env_twelve
          (Workflow.initial_state
             (Samples.plain_query "ai act" (Some (-5)%Z))))) = 7.
Proof.
  destruct (search_node_negative_limit Samples.env_twelve
              (Workflow.initial_state
                 (Samples.plain_query "ai act" (Some (-5)%Z)))
              _ 5 eq_refl eq_refl (Nat.lt_0_succ 4))
    as [_ [H _]].
  rewrite H. reflexivity.
Defined.

(** A state in which a comparison has no score. *)
Definition state_with_null_score : Workflow.State :=
  Workflow.set_comparisons
    [Comparison.mk "safety" [] [] [] ["EU"; "US"] None]
    (Workflow.initial_state (Samples.plain_query "ai act" None)).

Lemma null_score_fails_summarize_witness :
  Workflow.status
    (Workflow._summarize_node Samples.env_twelve state_with_null_score)
  = FAILED.
Proof.
  exact (proj1 (null_score_fails_summarize Samples.env_twelve
                  state_with_null_score
                  (Comparison.mk "safety" [] [] [] ["EU"; "US"] None)
                  (or_introl eq_refl) eq_refl)).
Defined.

(** ** The extraction prompt and the provenance of clauses *)

Lemma take_length (n : nat) (s : string) :
  Py.len (Py.take n s) = Nat.min n (Py.len s).
Proof.
  unfold Py.take, Py.len. revert s.
  induction n as [|n IH]; intros s; destruct s as [|c s]; cbn;
    try reflexivity.
  rewrite IH. reflexivity.
Qed.

Lemma take_prefix (n : nat) (s : string) :
  exists rest, s = Py.take n s ++ rest.
Proof.
  unfold Py.take. revert s.
  induction n as [|n IH]; intros s; destruct s as [|c s]; cbn.
  - exists "". reflexivity.
  - exists (String c s). reflexivity.
  - exists "". reflexivity.
  - destruct (IH s) as [rest Hrest]. exists rest. congruence.
Qed.

Lemma region_or_unknown_nonempty (document : Document.t) :
  ExtractAgent.region_or_unknown document <> "".
Proof.
  unfold ExtractAgent.region_or_unknown.
  destruct (Document.region document) as [[|c r]|]; discriminate.
Qed.

(** The extraction prompt carries the beginning of the document content,
    cut at 4000 characters, and a region label that is never empty: the
    document's region, or "Unknown" when it is absent or empty. *)
Theorem extraction_prompt_bounds (document : Document.t) :
  let prompt := ExtractAgent._create_extraction_prompt document in
  Py.len (ep_content prompt)
  = Nat.min 4000 (Py.len (Document.content document))
  /\ (exists rest, Document.content document = ep_content prompt ++ rest)
  /\ ep_region prompt <> ""
  /\ (forall r, Document.region document = Some r -> r <> "" ->
                ep_region prompt = r)
  /\ (Document.region document = None
      \/ Document.region document = Some "" ->
      ep_region prompt = "Unknown").
Proof.
  intros prompt. subst prompt. unfold ExtractAgent._create_extraction_prompt.
  cbn [ep_content ep_region].
  split; [apply take_length|]. split; [apply take_prefix|].
  split; [apply region_or_unknown_nonempty|].
  unfold ExtractAgent.region_or_unknown. split.
  - intros r -> Hr. destruct r; [congruence | reflexivity].
  - intros [-> | ->]; reflexivity.
Qed.

Lemma extraction_prompt_bounds_witness :
  ep_region (ExtractAgent._create_extraction_prompt Samples.eu_document)
  = "EU".
Proof.
  apply (proj1 (proj2 (proj2 (proj2
           (extraction_prompt_bounds Samples.eu_document)))) "EU").
  - reflexivity.
  - discriminate.
Defined.

Lemma lstrip_length (s : string) : Py.len (Py.lstrip s) <= Py.len s.
Proof.
  unfold Py.len. induction s as [|c s IH]; cbn; [lia|].
  destruct (Py.isspace c); cbn; lia.
Qed.

Lemma rstrip_length (s : string) : Py.len (Py.rstrip s) <= Py.len s.
Proof.
  unfold Py.len. induction s as [|c s IH]; cbn; [lia|].
  destruct (Py.isspace c && Py.is_empty (Py.rstrip s)); cbn; lia.
Qed.

Lemma strip_length (s : string) : Py.len (Py.strip s) <= Py.len s.
Proof.
  unfold Py.strip. pose proof (rstrip_length (Py.lstrip s)).
  pose proof (lstrip_length s). lia.
Qed.

Lemma parse_item_clause (env : Env) (item : Json) (document : Document.t)
    (clause : ExtractedClause.t) :
  ExtractAgent.parse_item env item document = Some clause ->
  ExtractedClause.jurisdiction clause
  = ExtractAgent.region_or_unknown document
  /\ ExtractedClause.document_source clause = Document.title document
  /\ 10 < Py.len (Py.strip (ExtractedClause.clause_text clause)).
Proof.
  unfold ExtractAgent.parse_item.
  repeat match goal with
         | |- context [match json_get ?a ?b ?c with _ => _ end] =>
             destruct (json_get a b c)
         | |- context [match as_str ?e ?j with _ => _ end] =>
             destruct (as_str e j)
         | |- context [match as_opt_float ?e ?j with _ => _ end] =>
             destruct (as_opt_float e j)
         | |- context [match as_opt_str_list ?e ?j with _ => _ end] =>
             destruct (as_opt_str_list e j)
         end; try discriminate.
  match goal with
  | |- context [if ?b then _ else _] => destruct b eqn:Hlen
  end; [|discriminate].
  intros [= <-]. apply Nat.ltb_lt in Hlen.
  cbn [ExtractedClause.clause_text ExtractedClause.jurisdiction
       ExtractedClause.document_source] in *.
  auto.
Qed.

Lemma extract_from_document_clause (env : Env) (document : Document.t)
    (clause : ExtractedClause.t) :
  In clause (ExtractAgent._extract_from_document env document) ->
  ExtractedClause.jurisdiction clause
  = ExtractAgent.region_or_unknown document
  /\ ExtractedClause.document_source clause = Document.title document
  /\ 10 < Py.len (ExtractedClause.clause_text clause).
Proof.
  unfold ExtractAgent._extract_from_document.
  destruct (ExtractAgent._call_ollama env _) as [response|]; [|intros []].
  unfold ExtractAgent._parse_extraction_response.
  destruct (_ || _); [intros []|].
  destruct (json_loads env _) as [data|].
  - destruct (ExtractAgent.iterate data) as [items|]; [|intros []].
    rewrite in_flat_map. intros [item [_ Hin]].
    destruct (ExtractAgent.parse_item env item document) as [c|] eqn:E;
      [|destruct Hin].
    destruct Hin as [<- | []].
    destruct (parse_item_clause _ _ _ _ E) as [Hj [Hs Hl]].
    split; [exact Hj|]. split; [exact Hs|].
    pose proof (strip_length (ExtractedClause.clause_text c)). lia.
  - intros Hin.
    destruct (fallback_extraction_In _ _ _ Hin) as [line [_ Hsome]].
    destruct (fallback_line_clause _ _ _ Hsome) as [_ [Hl [_ [Hj Hs]]]].
    auto.
Qed.

(** Every clause the Extract stage leaves in the context comes from one
    of the documents of the context: its jurisdiction is that document's
    region, or "Unknown" when the region is absent or empty, hence never
    empty, and its source is that document's title. *)
Theorem extracted_clause_provenance (env : Env) (state : Workflow.State) :
  forall clause,
    In clause (Workflow.clauses (Workflow._extract_node env state)) ->
    exists document,
      In document (Workflow.documents state)
      /\ ExtractedClause.jurisdiction clause
         = ExtractAgent.region_or_unknown document
      /\ ExtractedClause.document_source clause = Document.title document
      /\ ExtractedClause.jurisdiction clause <> ""
      /\ retained_ok clause.
Proof.
  intros clause Hin.
  change (Workflow.clauses (Workflow._extract_node env state))
    with (ExtractAgent.validate_clauses
            (flat_map (ExtractAgent._extract_from_document env)
                      (Workflow.documents state))) in Hin.
  apply validate_keeps_iff in Hin. destruct Hin as [Hin Hok].
  apply in_flat_map in Hin. destruct Hin as [document [Hdoc Hin]].
  destruct (extract_from_document_clause _ _ _ Hin) as [Hj [Hs _]].
  exists document. split; [exact Hdoc|]. split; [exact Hj|].
  split; [exact Hs|]. split; [|exact Hok].
  rewrite Hj. apply region_or_unknown_nonempty.
Qed.

(** A clause recovered by the text scan passes validation exactly when
    its stripped text is longer than 20 characters: the confidence the
    scan assigns is above the validation threshold. *)
Theorem scanned_clause_validation
    (response : string) (document : Document.t) (clause : ExtractedClause.t) :
  In clause (ExtractAgent._fallback_extraction response document) ->
  (In clause (ExtractAgent.validate_clauses
                (ExtractAgent._fallback_extraction response document))
   <-> 20 < Py.len (Py.strip (ExtractedClause.clause_text clause))).
Proof.
  intros Hin. rewrite validate_keeps_iff. unfold retained_ok.
  destruct (fallback_extraction_In _ _ _ Hin) as [line [_ Hsome]].
  destruct (fallback_line_clause _ _ _ Hsome) as [Hconf _].
  split.
  - intros [_ [Hlen _]]. exact Hlen.
  - intros Hlen. split; [exact Hin|]. split; [exact Hlen|].
    exists ExtractAgent.fallback_confidence. split; [exact Hconf|].
    reflexivity.
Qed.

Lemma scanned_clause_validation_witness :
  exists clause,
    ExtractAgent._fallback_extraction Samples.scanned_reply
      Samples.eu_document = [clause]
    /\ In clause (ExtractAgent.validate_clauses
                    (ExtractAgent._fallback_extraction Samples.scanned_reply
                       Samples.eu_document)).
Proof.
  eexists. split; [vm_compute; reflexivity|].
  apply (proj2 (scanned_clause_validation Samples.scanned_reply
                  Samples.eu_document _ (or_introl eq_refl))).
  apply Nat.ltb_lt. vm_compute. reflexivity.
Defined.

(** ** Requested regions *)

(** The region returned when the keyword scan finds nothing. *)
Definition region_fallback (regions : option (list string)) : string :=
  match regions with
  | None => "Global"
  | Some [] => "Unknown"
  | Some (r :: _) => r
  end.

Lemma chain_inferred (fallback : string) (result : RawResult.t) :
  inferred_region fallback result
    (if SearchAgent.any_term SearchAgent.eu_terms
          (Py.lower (SearchAgent.opt_str "" (RawResult.content result)))
          (Py.lower (SearchAgent.opt_str "" (RawResult.url result)))
     then "EU"
     else if SearchAgent.any_term SearchAgent.us_terms
          (Py.lower (SearchAgent.opt_str "" (RawResult.content result)))
          (Py.lower (SearchAgent.opt_str "" (RawResult.url result)))
     then "US"
     else if SearchAgent.any_term SearchAgent.uk_terms
          (Py.lower (SearchAgent.opt_str "" (RawResult.content result)))
          (Py.lower (SearchAgent.opt_str "" (RawResult.url result)))
     then "UK"
     else fallback).
Proof.
  pose proof (any_term_iff SearchAgent.eu_terms result) as Heu.
  pose proof (any_term_iff SearchAgent.us_terms result) as Hus.
  pose proof (any_term_iff SearchAgent.uk_terms result) as Huk.
  unfold inferred_region.
  destruct (SearchAgent.any_term SearchAgent.eu_terms _ _);
    destruct (SearchAgent.any_term SearchAgent.us_terms _ _);
    destruct (SearchAgent.any_term SearchAgent.uk_terms _ _);
    repeat split; intros;
    try reflexivity;
    repeat match goal with
           | H : ~ mentions _ _, I : true = true <-> mentions _ _ |- _ =>
               exfalso; apply H; apply I; reflexivity
           | H : mentions _ _, I : false = true <-> mentions _ _ |- _ =>
               apply I in H; discriminate
           end.
Qed.

Lemma search_documents_made (env : Env) (query : string)
    (regions document_types : option (list string))
    (found : list Document.t) (doc : Document.t) :
  SearchAgent.search_documents env query regions document_types = Ok found ->
  In doc found ->
  exists result, doc = SearchAgent.make_document result regions.
Proof.
  unfold SearchAgent.search_documents.
  destruct (SearchAgent._perform_search env _) as [results|]; [|discriminate].
  intros [= <-] Hin. unfold SearchAgent._process_search_results in Hin.
  apply (proj1 (sort_desc_In _ _)) in Hin.
  apply built_documents_In in Hin.
  destruct Hin as [entry [result [_ [_ ->]]]]. exists result. reflexivity.
Qed.

Lemma single_region_document
    (env : Env) (query r : string) (document_types : option (list string))
    (found : list Document.t) (doc : Document.t) :
  SearchAgent.search_documents env query (Some [r]) document_types
  = Ok found ->
  In doc found -> Document.region doc = Some r.
Proof.
  intros Hfound Hin.
  destruct (search_documents_made _ _ _ _ _ _ Hfound Hin) as [result ->].
  reflexivity.
Qed.

(** When exactly one region is requested, every document gets that
    region, whatever its content says.  When several are requested, the
    region is inferred from the content as if none were, so it may be a
    region that was not requested, and the first requested region is used
    only when no jurisdiction keyword occurs. *)
Theorem requested_regions_rule
    (env : Env) (query : string) (regions : list string)
    (document_types : option (list string)) (found : list Document.t) :
  SearchAgent.search_documents env query (Some regions) document_types
  = Ok found ->
  forall doc, In doc found ->
    match regions with
    | [r] => Document.region doc = Some r
    | _ =>
        exists result region,
          doc = SearchAgent.make_document result (Some regions)
          /\ Document.region doc = Some region
          /\ inferred_region (region_fallback (Some regions)) result region
    end.
Proof.
  intros Hfound doc Hin.
  destruct (search_documents_made _ _ _ _ _ _ Hfound Hin) as [result ->].
  destruct regions as [|r [|r' rest]].
  - exists result, (SearchAgent._extract_region result (Some [])).
    split; [reflexivity|]. split; [reflexivity|]. apply chain_inferred.
  - reflexivity.
  - exists result,
      (SearchAgent._extract_region result (Some (r :: r' :: rest))).
    split; [reflexivity|]. split; [reflexivity|]. apply chain_inferred.
Qed.

Lemma requested_regions_rule_witness :
  Forall (fun doc => Document.region doc = Some "UK")
         (SearchAgent._process_search_results
            (Samples.env_of (Ok (Some Samples.two_results))
               (Ok "") (Ok "") (Ok ""))
            (map Samples.entry Samples.two_results) (Some ["UK"])).
Proof.
  apply Forall_forall. intros doc Hin.
  exact (requested_regions_rule
           (Samples.env_of (Ok (Some Samples.two_results))
              (Ok "") (Ok "") (Ok ""))
           "ai" ["UK"] None _ eq_refl doc Hin).
Defined.

Lemma same_jurisdiction_no_comparisons
    (env : Env) (clauses : list ExtractedClause.t) :
  (forall c1 c2, In c1 clauses -> In c2 clauses ->
     ExtractedClause.jurisdiction c1 = ExtractedClause.jurisdiction c2) ->
  CompareAgent.compare_clauses env clauses = Ok [].
Proof.
  intros Hsame. unfold CompareAgent.compare_clauses. f_equal.
  match goal with |- ?l = [] => destruct l as [|cmp rest] eqn:E end;
    [reflexivity|].
  exfalso.
  assert (Hin : In cmp (cmp :: rest)) by (left; reflexivity).
  rewrite <- E in Hin.
  destruct (compare_clauses_member _ _ _ Hin) as [js [Hg [Hlen _]]].
  destruct (group_clauses_entry _ _ _ Hg) as [Hnd Hmem].
  assert (Hlen' : 1 < List.length (Dict.keys js))
    by (unfold Dict.keys; rewrite length_map; exact Hlen).
  destruct (two_distinct_keys _ Hnd Hlen') as [j1 [j2 [H1 [H2 Hne]]]].
  apply Hmem in H1. apply Hmem in H2.
  destruct H1 as [c1 [Hc1 [_ Hj1]]]. destruct H2 as [c2 [Hc2 [_ Hj2]]].
  apply Hne. rewrite <- Hj1, <- Hj2. apply Hsame; assumption.
Qed.

Lemma kept_documents_In (limit : Z) (found : list Document.t)
    (doc : Document.t) :
  In doc (kept_documents limit found) -> In doc found.
Proof.
  unfold kept_documents. destruct (limit =? 0)%Z; [tauto|].
  apply list_upto_In.
Qed.

Lemma kept_documents_nil (limit : Z) : kept_documents limit [] = [].
Proof.
  unfold kept_documents, Py.list_upto.
  destruct (limit =? 0)%Z; [reflexivity|].
  destruct (limit <? 0)%Z; apply firstn_nil.
Qed.

(** When the query names exactly one region, the state that reaches the
    Summarize stage holds no comparison, and its clauses have no coverage
    gap: every document carries that region, and every clause carries it
    as its jurisdiction ("Unknown" if the region is the empty string). *)
Theorem single_region_compares_nothing
    (env : Env) (research_query : ResearchQuery.t) (r : string) :
  ResearchQuery.regions research_query = Some [r] ->
  let state3 := state_before_summarize env research_query in
  (forall doc, In doc (Workflow.documents state3) ->
     Document.region doc = Some r)
  /\ (forall clause, In clause (Workflow.clauses state3) ->
        ExtractedClause.jurisdiction clause
        = if Py.is_empty r then "Unknown" else r)
  /\ Workflow.comparisons state3 = []
  /\ CompareAgent.identify_regulatory_gaps (Workflow.clauses state3) = [].
Proof.
  intros Hreg state3. subst state3. rewrite state_before_summarize_eq.
  cbn [Workflow.documents Workflow.clauses Workflow.comparisons].
  assert (Hdocs : forall doc, In doc (run_documents env research_query) ->
                    Document.region doc = Some r).
  { intros doc Hdoc. unfold run_documents in Hdoc.
    destruct (search_of env research_query) as [found | e] eqn:Hsearch;
      [|destruct Hdoc].
    unfold search_of in Hsearch. rewrite Hreg in Hsearch.
    cbn [Workflow.list_or_empty] in Hsearch.
    apply kept_documents_In in Hdoc.
    exact (single_region_document _ _ _ _ _ _ Hsearch Hdoc). }
  assert (Hjur : forall clause, In clause (run_clauses env research_query) ->
                   ExtractedClause.jurisdiction clause
                   = if Py.is_empty r then "Unknown" else r).
  { intros clause Hin. unfold run_clauses in Hin.
    apply validate_keeps_iff in Hin. destruct Hin as [Hin _].
    apply in_flat_map in Hin. destruct Hin as [doc [Hdoc Hin]].
    destruct (extract_from_document_clause _ _ _ Hin) as [Hj _].
    rewrite Hj. unfold ExtractAgent.region_or_unknown.
    rewrite (Hdocs doc Hdoc). reflexivity. }
  assert (Hsame : forall c1 c2,
             In c1 (run_clauses env research_query) ->
             In c2 (run_clauses env research_query) ->
             ExtractedClause.jurisdiction c1
             = ExtractedClause.jurisdiction c2).
  { intros c1 c2 H1 H2. rewrite (Hjur c1 H1), (Hjur c2 H2). reflexivity. }
  split; [exact Hdocs|]. split; [exact Hjur|]. split.
  - unfold run_comparisons.
    rewrite (same_jurisdiction_no_comparisons env _ Hsame). reflexivity.
  - exact (same_jurisdiction_no_gaps _ Hsame).
Qed.

(** Every provider answers; the comparison reply holds no JSON object,
    so a topic shared by two jurisdictions gets the template
    comparison. *)
Definition env_template_comparisons : Env :=
  Samples.env_of (Ok (Some Samples.two_results)) (Ok Samples.scanned_reply)
                 (Ok "none") (Ok "none").

Lemma single_region_compares_nothing_witness :
  List.length
    (Workflow.comparisons
       (state_before_summarize env_template_comparisons
          (Samples.plain_query "compare ai rules" None))) = 1
  /\ map ExtractedClause.jurisdiction
       (Workflow.clauses
          (state_before_summarize env_template_comparisons
             (ResearchQuery.mk "compare ai rules" (Some ["UK"]) None None)))
     = ["UK"; "UK"]
  /\ Workflow.comparisons
       (state_before_summarize env_template_comparisons
          (ResearchQuery.mk "compare ai rules" (Some ["UK"]) None None))
     = [].
Proof.
  split; [vm_compute; reflexivity|]. split; [vm_compute; reflexivity|].
  exact (proj1 (proj2 (proj2
           (single_region_compares_nothing env_template_comparisons
              (ResearchQuery.mk "compare ai rules" (Some ["UK"]) None None)
              "UK" eq_refl)))).
Defined.

(** ** A search without results *)

(** When the search provider returns no result, or a response without a
    result list, the stages go on with nothing: no error is recorded and
    the state that reaches the Summarize stage has no document, no
    clause and no comparison, whatever the extraction and comparison
    providers would answer.  The summary provider is asked with three
    empty digests: when it fails the Summarize stage fails, and when its
    reply holds no JSON object that decodes the stage keeps the fallback
    summary, which reports zero of each. *)
Theorem empty_search_stages (env : Env) (research_query : ResearchQuery.t) :
  let state0 := Workflow.initial_state research_query in
  let prompt :=
    {| sp_query := ResearchQuery.query research_query;
       sp_documents := None; sp_clauses := None; sp_comparisons := None |} in
  (tavily_search env
     (SearchAgent._build_search_query (Workflow.query state0)
        (Some (Workflow.regions state0))
        (Some (Workflow.document_types state0))) = Ok None
   \/ tavily_search env
        (SearchAgent._build_search_query (Workflow.query state0)
           (Some (Workflow.regions state0))
           (Some (Workflow.document_types state0))) = Ok (Some [])) ->
  let state3 := state_before_summarize env research_query in
  Workflow.error state3 = None
  /\ Workflow.documents state3 = []
  /\ Workflow.clauses state3 = []
  /\ Workflow.comparisons state3 = []
  /\ SummarizeAgent._create_summary_prompt
       (ResearchQuery.query research_query) [] [] [] = Ok prompt
  /\ (forall e, ollama_summarize env prompt = Raise e ->
        Workflow.status (Workflow._summarize_node env state3) = FAILED
        /\ Workflow.error (Workflow._summarize_node env state3)
           = Some ("Summarization failed: " ++ e))
  /\ (forall response,
        ollama_summarize env prompt = Ok response ->
        no_json_object env response ->
        Workflow.error (Workflow._summarize_node env state3) = None
        /\ option_map Summary.key_findings
             (Workflow.summary (Workflow._summarize_node env state3))
           = Some ["Analyzed 0 policy documents from multiple jurisdictions";
                   "Extracted 0 legal clauses covering various regulatory topics";
                   "Identified 0 key areas of regulatory comparison"]).
Proof.
  intros state0 prompt Hempty state3.
  assert (Hsearch : search_of env research_query = Ok []).
  { unfold search_of, SearchAgent.search_documents,
      SearchAgent._perform_search.
    destruct Hempty as [H | H]; subst state0;
      cbn [Workflow.initial_state Workflow.query Workflow.regions
           Workflow.document_types] in H;
      rewrite H; reflexivity. }
  assert (Hd : run_documents env research_query = []).
  { unfold run_documents. rewrite Hsearch. apply kept_documents_nil. }
  assert (Hc : run_clauses env research_query = []).
  { unfold run_clauses. rewrite Hd. reflexivity. }
  assert (Hm : run_comparisons env research_query = []).
  { unfold run_comparisons. rewrite Hc. reflexivity. }
  assert (Hs3 : state3
                = Workflow.mkState (ResearchQuery.query research_query)
                    (Workflow.list_or_empty
                       (ResearchQuery.regions research_query))
                    (Workflow.list_or_empty
                       (ResearchQuery.document_types research_query))
                    (Workflow.max_documents_or_10
                       (ResearchQuery.max_documents research_query))
                    COMPARING (progress_of 1 1 1 0) [] [] [] None None None).
  { subst state3. rewrite state_before_summarize_eq, Hsearch, Hd, Hc, Hm.
    reflexivity. }
  rewrite Hs3.
  split; [reflexivity|]. split; [reflexivity|]. split; [reflexivity|].
  split; [reflexivity|]. split; [reflexivity|].
  rewrite summarize_node_state.
  cbn [Workflow.query Workflow.documents Workflow.clauses
       Workflow.comparisons].
  split.
  - intros e He.
    assert (Hgen : SummarizeAgent.generate_summary env
                     (ResearchQuery.query research_query) [] [] []
                   = Raise e).
    { unfold SummarizeAgent.generate_summary. cbn.
      unfold SummarizeAgent._call_ollama. fold prompt. rewrite He.
      reflexivity. }
    rewrite Hgen. split; reflexivity.
  - intros response Hreply Hgarbage.
    assert (Hgen : SummarizeAgent.generate_summary env
                     (ResearchQuery.query research_query) [] [] []
                   = Ok (SummarizeAgent._create_fallback_summary
                           (ResearchQuery.query research_query) [] [] [])).
    { unfold SummarizeAgent.generate_summary. cbn.
      unfold SummarizeAgent._call_ollama. fold prompt. rewrite Hreply.
      apply parse_summary_fallback. exact Hgarbage. }
    rewrite Hgen. split; reflexivity.
Qed.

Lemma empty_search_stages_witness :
  Workflow.documents
    (state_before_summarize
       (Samples.env_of (Ok None) (Ok "") (Ok "") (Ok ""))
       (Samples.plain_query "ai act" None)) = []
  /\ Workflow.error
       (Workflow._summarize_node
          (Samples.env_of (Ok None) (Ok "") (Ok "") (Ok ""))
          (state_before_summarize
             (Samples.env_of (Ok None) (Ok "") (Ok "") (Ok ""))
             (Samples.plain_query "ai act" None))) = None.
Proof.
  destruct (empty_search_stages
              (Samples.env_of (Ok None) (Ok "") (Ok "") (Ok ""))
              (Samples.plain_query "ai act" None) (or_introl eq_refl))
    as [_ [Hd [_ [_ [_ [_ Hok]]]]]].
  split; [exact Hd|].
  exact (proj1 (Hok "" eq_refl (or_introl eq_refl))).
Defined.

(** ** The digests of the summary prompt *)

Lemma group_by_sizes {A} (key : A -> string) (l : list A) :
  list_sum (map (fun kv => List.length (snd kv)) (group_by key l))
  = List.length l.
Proof.
  rewrite (Permutation_length (group_by_permutation key l)).
  unfold buckets. rewrite length_flat_map. reflexivity.
Qed.

Lemma some_pair_inj {A B} (a c : A) (b d : B) :
  Some (a, b) = Some (c, d) -> a = c /\ b = d.
Proof. intros [= -> ->]. split; reflexivity. Qed.

(** What a digest entry says it omitted. *)
Definition omitted (more : option nat) : nat :=
  match more with Some k => k | None => 0 end.

Lemma more_than_accounts (k n : nat) (A : Type) (l : list A) :
  List.length l = n ->
  List.length (firstn k l) + omitted (SummarizeAgent.more_than k n) = n.
Proof.
  intros <-. rewrite length_firstn. unfold SummarizeAgent.more_than.
  destruct (k <? List.length l) eqn:E; cbn [omitted].
  - apply Nat.ltb_lt in E. lia.
  - apply Nat.ltb_ge in E. lia.
Qed.

(** The document digest is absent exactly for an empty list.  Otherwise
    it has one entry per distinct region label, in order of first
    occurrence; an entry counts the documents of its region, shows the
    title and source of the first three of them, and the number it
    reports as omitted is the rest; the counts add up to the total. *)
Theorem documents_digest (documents : list Document.t) :
  (SummarizeAgent._summarize_documents documents = None <-> documents = [])
  /\ forall n digests,
       SummarizeAgent._summarize_documents documents = Some (n, digests) ->
       n = List.length documents
       /\ map rd_region digests
          = CompareMetrics.to_set
              (map ExtractAgent.region_or_unknown documents)
       /\ list_sum (map rd_count digests) = n
       /\ forall d, In d digests ->
            let mine :=
              filter (fun doc =>
                        String.eqb (ExtractAgent.region_or_unknown doc)
                                   (rd_region d))
                     documents in
            rd_count d = List.length mine
            /\ 0 < rd_count d
            /\ rd_shown d
               = map (fun doc => (Document.title doc, Document.source doc))
                     (firstn 3 mine)
            /\ List.length (rd_shown d) <= 3
            /\ List.length (rd_shown d) + omitted (rd_more d) = rd_count d.
Proof.
  split.
  - destruct documents; cbn; split; intros H; try reflexivity;
      discriminate.
  - intros n digests H.
    assert (E : SummarizeAgent._summarize_documents documents
                = match documents with
                  | [] => None
                  | _ =>
                      Some (List.length documents,
                            map (fun kv =>
                                   {| rd_region := fst kv;
                                      rd_count := List.length (snd kv);
                                      rd_shown :=
                                        map (fun doc =>
                                               (Document.title doc,
                                                Document.source doc))
                                            (firstn 3 (snd kv));
                                      rd_more :=
                                        SummarizeAgent.more_than 3
                                          (List.length (snd kv)) |})
                                (group_by ExtractAgent.region_or_unknown
                                          documents))
                  end).
    { unfold SummarizeAgent._summarize_documents, group_by.
      destruct documents; [reflexivity|]. f_equal. f_equal.
      apply map_ext. intros [k v]. reflexivity. }
    rewrite E in H. clear E.
    destruct documents as [|d0 ds] eqn:Ed; [discriminate|].
    rewrite <- Ed in *. apply some_pair_inj in H. destruct H as [<- <-].
    split; [reflexivity|]. split; [|split].
    + rewrite map_map. cbn [rd_region].
      apply (group_by_keys_to_set ExtractAgent.region_or_unknown documents).
    + rewrite map_map. cbn [rd_count]. apply group_by_sizes.
    + intros d Hd mine. apply in_map_iff in Hd.
      destruct Hd as [[k v] [<- Hin]]. subst mine. cbn [rd_region fst snd
        rd_count rd_shown rd_more].
      apply group_by_In in Hin. destruct Hin as [Hv Hne].
      rewrite <- Hv.
      split; [reflexivity|]. split; [destruct v; [congruence | cbn; lia]|].
      split; [reflexivity|]. rewrite length_map.
      split; [rewrite length_firstn; lia|].
      apply more_than_accounts. reflexivity.
Qed.

Lemma documents_digest_witness :
  SummarizeAgent._summarize_documents [] = None.
Proof.
  exact (proj2 (proj1 (documents_digest [])) eq_refl).
Defined.

(** The clause digest is absent exactly for an empty list.  Otherwise it
    has one entry per distinct topic as written (not lower-cased), in
    order of first occurrence; an entry counts the clauses of its topic,
    shows the first two of them, each cut at 100 characters, and the
    number it reports as omitted is the rest; the counts add up to the
    total. *)
Theorem clauses_digest (clauses : list ExtractedClause.t) :
  (SummarizeAgent._summarize_clauses clauses = None <-> clauses = [])
  /\ forall n digests,
       SummarizeAgent._summarize_clauses clauses = Some (n, digests) ->
       n = List.length clauses
       /\ map td_topic digests
          = CompareMetrics.to_set (map ExtractedClause.topic clauses)
       /\ list_sum (map td_count digests) = n
       /\ forall d, In d digests ->
            let mine :=
              filter (fun c =>
                        String.eqb (ExtractedClause.topic c) (td_topic d))
                     clauses in
            td_count d = List.length mine
            /\ 0 < td_count d
            /\ td_shown d
               = map (fun c => Py.take 100 (ExtractedClause.clause_text c))
                     (firstn 2 mine)
            /\ (forall text, In text (td_shown d) -> Py.len text <= 100)
            /\ List.length (td_shown d) + omitted (td_more d) = td_count d.
Proof.
  split.
  - destruct clauses; cbn; split; intros H; try reflexivity; discriminate.
  - intros n digests H.
    assert (E : SummarizeAgent._summarize_clauses clauses
                = match clauses with
                  | [] => None
                  | _ =>
                      Some (List.length clauses,
                            map (fun kv =>
                                   {| td_topic := fst kv;
                                      td_count := List.length (snd kv);
                                      td_shown :=
                                        map (fun c =>
                                               Py.take 100
                                                 (ExtractedClause.clause_text
                                                    c))
                                            (firstn 2 (snd kv));
                                      td_more :=
                                        SummarizeAgent.more_than 2
                                          (List.length (snd kv)) |})
                                (group_by ExtractedClause.topic clauses))
                  end).
    { unfold SummarizeAgent._summarize_clauses, group_by.
      destruct clauses; [reflexivity|]. f_equal. f_equal.
      apply map_ext. intros [k v]. reflexivity. }
    rewrite E in H. clear E.
    destruct clauses as [|c0 cs] eqn:Ec; [discriminate|].
    rewrite <- Ec in *. apply some_pair_inj in H. destruct H as [<- <-].
    split; [reflexivity|]. split; [|split].
    + rewrite map_map. cbn [td_topic].
      apply (group_by_keys_to_set ExtractedClause.topic clauses).
    + rewrite map_map. cbn [td_count]. apply group_by_sizes.
    + intros d Hd mine. apply in_map_iff in Hd.
      destruct Hd as [[k v] [<- Hin]]. subst mine. cbn [td_topic fst snd
        td_count td_shown td_more].
      apply group_by_In in Hin. destruct Hin as [Hv Hne].
      rewrite <- Hv.
      split; [reflexivity|]. split; [destruct v; [congruence | cbn; lia]|].
      split; [reflexivity|]. split.
      * intros text Ht. apply in_map_iff in Ht. destruct Ht as [c [<- _]].
        rewrite take_length. apply Nat.le_min_l.
      * rewrite length_map. apply more_than_accounts. reflexivity.
Qed.

Lemma clauses_digest_witness :
  exists digests,
    SummarizeAgent._summarize_clauses Samples.eu_and_us = Some (2, digests)
    /\ map td_topic digests = ["Safety"; "safety"].
Proof.
  eexists. split; [vm_compute; reflexivity|].
  exact (proj1 (proj2 (proj2 (clauses_digest Samples.eu_and_us) 2 _
                         eq_refl))).
Defined.

Lemma extracted_clause_provenance_witness :
  exists clause document,
    In clause
       (Workflow.clauses
          (Workflow._extract_node Samples.env_compare_down
             (Workflow._search_node Samples.env_compare_down
                (Workflow.initial_state
                   (Samples.plain_query "compare ai rules" None)))))
    /\ In document
          (Workflow.documents
             (Workflow._search_node Samples.env_compare_down
                (Workflow.initial_state
                   (Samples.plain_query "compare ai rules" None))))
    /\ ExtractedClause.document_source clause = Document.title document.
Proof.
  assert (H : exists clause rest,
             Workflow.clauses
               (Workflow._extract_node Samples.env_compare_down
                  (Workflow._search_node Samples.env_compare_down
                     (Workflow.initial_state
                        (Samples.plain_query "compare ai rules" None))))
             = clause :: rest)
    by (vm_compute; eexists; eexists; reflexivity).
  destruct H as [clause [rest E]].
  assert (Hin : In clause
                  (Workflow.clauses
                     (Workflow._extract_node Samples.env_compare_down
                        (Workflow._search_node Samples.env_compare_down
                           (Workflow.initial_state
                              (Samples.plain_query "compare ai rules"
                                 None))))))
    by (rewrite E; left; reflexivity).
  destruct (extracted_clause_provenance _ _ clause Hin)
    as [document [Hdoc [_ [Hsource _]]]].
  exists clause, document. split; [exact Hin|]. split; assumption.
Defined.

(** ** Replies that decode but do not validate *)

(** [data.get(key, default)] on a decoded object. *)
Definition field (members : list (string * Json)) (key : string)
    (default : Json) : Json :=
  match Dict.get members key with
  | Some v => v
  | None => default
  end.

Lemma json_get_field (members : list (string * Json)) (key : string)
    (default : Json) :
  json_get (JObj members) key default = Ok (field members key default).
Proof.
  unfold json_get, field. destruct (Dict.get members key); reflexivity.
Qed.

(** One of the five fields of a summary reply is rejected by the
    validation of [Summary]. *)
Definition ill_typed_summary (env : Env) (members : list (string * Json))
  : Prop :=
  as_str env (field members "executive_summary" (JStr "")) = None
  \/ as_str_list env (field members "key_findings" (JArr [])) = None
  \/ as_str_list env (field members "recommendations" (JArr [])) = None
  \/ as_str env (field members "methodology" (JStr "")) = None
  \/ as_str_list env (field members "limitations" (JArr [])) = None.

(** One of the four fields of a comparison reply is rejected by the
    validation of [Comparison]. *)
Definition ill_typed_comparison (env : Env)
    (members : list (string * Json)) : Prop :=
  as_str_list env (field members "similarities" (JArr [])) = None
  \/ as_str_list env (field members "differences" (JArr [])) = None
  \/ as_str_list env (field members "gaps" (JArr [])) = None
  \/ as_opt_float env (field members "comparison_score" (JNum (5 # 10)))
     = None.

Lemma parse_summary_ill_typed (env : Env) (response query : string)
    (documents : list Document.t) (clauses : list ExtractedClause.t)
    (comparisons : list Comparison.t) (members : list (string * Json)) :
  Py.find "{" response <> (-1)%Z ->
  (Py.rfind "}" response + 1)%Z <> 0%Z ->
  json_loads env
    (Py.slice response (Py.find "{" response) (Py.rfind "}" response + 1))
  = Some (JObj members) ->
  ill_typed_summary env members ->
  SummarizeAgent._parse_summary_response env response query documents
    clauses comparisons
  = Raise "validation error for Summary".
Proof.
  intros Hs He Hloads Hill.
  unfold SummarizeAgent._parse_summary_response.
  apply Z.eqb_neq in Hs. apply Z.eqb_neq in He. rewrite Hs, He.
  cbn [orb]. rewrite Hloads, !json_get_field.
  destruct Hill as [H | [H | [H | [H | H]]]]; rewrite H;
    repeat match goal with
           | |- context [match ?x with Some _ => _ | None => _ end] =>
               destruct x
           end; reflexivity.
Qed.

(** The fallback summary covers only a reply without a JSON object that
    decodes.  When the reply decodes to an object and one of its fields
    does not validate, the Summarize stage fails: the node ends [FAILED]
    with an error that starts with "Summarization failed: ", keeps no
    summary, and the routing function answers "error". *)
Theorem ill_typed_summary_fails_stage
    (env : Env) (state : Workflow.State) (prompt : SummaryPrompt)
    (response : string) (members : list (string * Json)) :
  SummarizeAgent._create_summary_prompt (Workflow.query state)
    (Workflow.documents state) (Workflow.clauses state)
    (Workflow.comparisons state) = Ok prompt ->
  ollama_summarize env prompt = Ok response ->
  Py.find "{" response <> (-1)%Z ->
  (Py.rfind "}" response + 1)%Z <> 0%Z ->
  json_loads env
    (Py.slice response (Py.find "{" response) (Py.rfind "}" response + 1))
  = Some (JObj members) ->
  ill_typed_summary env members ->
  let after := Workflow._summarize_node env state in
  Workflow.status after = FAILED
  /\ (exists e, Workflow.error after = Some ("Summarization failed: " ++ e))
  /\ Workflow.summary after = Workflow.summary state
  /\ Workflow._should_continue after = "error".
Proof.
  intros Hprompt Hreply Hs He Hloads Hill after. subst after.
  rewrite summarize_node_state.
  assert (Hgen : SummarizeAgent.generate_summary env (Workflow.query state)
                   (Workflow.documents state) (Workflow.clauses state)
                   (Workflow.comparisons state)
                 = Raise "validation error for Summary").
  { unfold SummarizeAgent.generate_summary. rewrite Hprompt.
    unfold SummarizeAgent._call_ollama. rewrite Hreply.
    exact (parse_summary_ill_typed _ _ _ _ _ _ _ Hs He Hloads Hill). }
  rewrite Hgen. split; [reflexivity|]. split; [eexists; reflexivity|].
  split; reflexivity.
Qed.

(** Every text decodes to an object whose only member is a string where
    a list is expected; the providers answer with an empty object. *)
Definition env_ill_typed : Env :=
  {| tavily_search :=
       fun _ => Ok (Some (map Samples.entry Samples.two_results));
     ollama_extract := fun _ => Ok Samples.scanned_reply;
     ollama_compare := fun _ => Ok "{}";
     ollama_summarize := fun _ => Ok "{}";
     json_loads :=
       fun _ => Some (JObj [("key_findings", JStr "none");
                            ("similarities", JStr "none")]);
     as_str := Samples.strict_str;
     as_str_list := Samples.strict_str_list;
     as_opt_str_list := Samples.strict_opt_str_list;
     as_opt_float := Samples.strict_opt_float;
     as_float := Samples.strict_float |}.

Lemma ill_typed_summary_fails_stage_witness :
  Workflow.status
    (Workflow._summarize_node env_ill_typed
       (Workflow.initial_state (Samples.plain_query "ai act" None)))
  = FAILED.
Proof.
  refine (proj1 (ill_typed_summary_fails_stage env_ill_typed
                   (Workflow.initial_state (Samples.plain_query "ai act" None))
                   _ "{}" _ eq_refl eq_refl _ _ eq_refl _)).
  - vm_compute. discriminate.
  - vm_compute. discriminate.
  - right. left. reflexivity.
Defined.

Lemma parse_comparison_ill_typed (env : Env) (response topic : string)
    (js : CompareAgent.JurisdictionClauses)
    (members : list (string * Json)) :
  Py.find "{" response <> (-1)%Z ->
  (Py.rfind "}" response + 1)%Z <> 0%Z ->
  json_loads env
    (Py.slice response (Py.find "{" response) (Py.rfind "}" response + 1))
  = Some (JObj members) ->
  ill_typed_comparison env members ->
  CompareAgent._parse_comparison_response env response topic js
  = Raise "validation error for Comparison".
Proof.
  intros Hs He Hloads Hill.
  unfold CompareAgent._parse_comparison_response.
  apply Z.eqb_neq in Hs. apply Z.eqb_neq in He. rewrite Hs, He.
  cbn [orb]. rewrite Hloads, !json_get_field.
  destruct Hill as [H | [H | [H | H]]]; rewrite H;
    repeat match goal with
           | |- context [match ?x with Some _ => _ | None => _ end] =>
               destruct x
           end; reflexivity.
Qed.

(** In the Compare stage the same kind of reply is not an error: when
    the reply for a topic decodes to an object one of whose fields does
    not validate, the topic is dropped.  The stage still returns its
    list, and no comparison of the list has that topic. *)
Theorem ill_typed_comparison_drops_topic
    (env : Env) (clauses : list ExtractedClause.t) (topic : string)
    (js : CompareAgent.JurisdictionClauses) (response : string)
    (members : list (string * Json)) :
  Dict.get (CompareAgent._group_clauses clauses) topic = Some js ->
  ollama_compare env (CompareAgent._create_comparison_prompt topic js)
  = Ok response ->
  Py.find "{" response <> (-1)%Z ->
  (Py.rfind "}" response + 1)%Z <> 0%Z ->
  json_loads env
    (Py.slice response (Py.find "{" response) (Py.rfind "}" response + 1))
  = Some (JObj members) ->
  ill_typed_comparison env members ->
  CompareAgent._compare_topic env topic js = None
  /\ exists comparisons,
       CompareAgent.compare_clauses env clauses = Ok comparisons
       /\ forall cmp, In cmp comparisons -> Comparison.topic cmp <> topic.
Proof.
  intros Hget Hreply Hs He Hloads Hill.
  assert (Hnone : CompareAgent._compare_topic env topic js = None).
  { unfold CompareAgent._compare_topic, CompareAgent._call_ollama.
    rewrite Hreply.
    rewrite (parse_comparison_ill_typed _ _ _ _ _ Hs He Hloads Hill).
    reflexivity. }
  split; [exact Hnone|].
  eexists. split; [reflexivity|].
  intros cmp Hin Htopic. apply in_flat_map in Hin.
  destruct Hin as [[t js'] [Hentry Hin]].
  destruct (1 <? List.length js'); [|destruct Hin].
  destruct (CompareAgent._compare_topic env t js') as [c|] eqn:E;
    [|destruct Hin].
  destruct Hin as [<- | []].
  destruct (compare_topic_fields _ _ _ _ E) as [Ht _].
  rewrite Htopic in Ht. subst t.
  apply (In_get _ _ _ (proj1 (group_clauses_inv clauses))) in Hentry.
  rewrite Hget in Hentry. injection Hentry as <-. congruence.
Qed.

Lemma ill_typed_comparison_drops_topic_witness :
  exists comparisons,
    CompareAgent.compare_clauses env_ill_typed Samples.eu_and_us
    = Ok comparisons
    /\ forall cmp, In cmp comparisons -> Comparison.topic cmp <> "safety".
Proof.
  refine (proj2 (ill_typed_comparison_drops_topic env_ill_typed
                   Samples.eu_and_us "safety" _ "{}" _
                   _ eq_refl _ _ eq_refl _)).
  - vm_compute. reflexivity.
  - vm_compute. discriminate.
  - vm_compute. discriminate.
  - left. reflexivity.
Defined.

(** ** The search query *)

Definition ai_suffix : string :=
  " artificial intelligence AI machine learning algorithm".

Lemma join_cons (sep p q : string) (l : list string) :
  Py.join sep (p :: q :: l) = p ++ sep ++ Py.join sep (q :: l).
Proof. reflexivity. Qed.

Lemma join_app (sep : string) (l1 l2 : list string) :
  l1 <> [] -> l2 <> [] ->
  Py.join sep (l1 ++ l2)%list = Py.join sep l1 ++ sep ++ Py.join sep l2.
Proof.
  intros H1 H2. induction l1 as [|p l1 IH]; [congruence|].
  destruct l1 as [|q l1].
  - destruct l2 as [|r l2]; [congruence|]. reflexivity.
  - change ((p :: q :: l1) ++ l2)%list with (p :: q :: (l1 ++ l2))%list.
    rewrite !join_cons.
    change (q :: (l1 ++ l2))%list with ((q :: l1) ++ l2)%list.
    rewrite IH by discriminate. rewrite !append_assoc. reflexivity.
Qed.

Lemma region_terms_upper (r1 r2 : string) :
  Py.upper r1 = Py.upper r2 ->
  In (Py.upper r1) ["EU"; "US"; "UK"] ->
  SearchAgent.region_terms r1 = SearchAgent.region_terms r2.
Proof.
  intros Heq Hin. unfold SearchAgent.region_terms. rewrite <- Heq.
  destruct Hin as [<- | [<- | [<- | []]]]; reflexivity.
Qed.

(** The search query always starts with the user's text and always ends
    with the four AI terms, so it is never the user's text alone; with
    neither regions nor document types it is exactly the text followed
    by those terms.  An empty list of regions or of document types is
    the same as none.  The region codes EU, US and UK are recognised
    whatever their case. *)
Theorem search_query_shape
    (query : string) (regions document_types : option (list string)) :
  (exists rest,
      SearchAgent._build_search_query query regions document_types
      = query ++ " " ++ rest)
  /\ (exists before,
        SearchAgent._build_search_query query regions document_types
        = before ++ ai_suffix)
  /\ SearchAgent._build_search_query query None None = query ++ ai_suffix
  /\ SearchAgent._build_search_query query (Some []) document_types
     = SearchAgent._build_search_query query None document_types
  /\ SearchAgent._build_search_query query regions (Some [])
     = SearchAgent._build_search_query query regions None
  /\ (forall r1 r2,
        Py.upper r1 = Py.upper r2 ->
        In (Py.upper r1) ["EU"; "US"; "UK"] ->
        SearchAgent._build_search_query query (Some [r1]) document_types
        = SearchAgent._build_search_query query (Some [r2]) document_types).
Proof.
  assert (Hshape : exists middle,
             SearchAgent._build_search_query query regions document_types
             = Py.join " "
                 ((query :: middle)
                  ++ ["artificial intelligence"; "AI"; "machine learning";
                      "algorithm"])%list).
  { exists ((match regions with
              | Some (r :: rs) =>
                  flat_map SearchAgent.region_terms (r :: rs)
              | _ => []
              end)
             ++ (match document_types with
                 | Some (d :: ds) =>
                     flat_map SearchAgent.type_terms (d :: ds)
                 | _ => []
                 end))%list.
    unfold SearchAgent._build_search_query.
    destruct regions as [[|r rs]|]; destruct document_types as [[|d ds]|];
      rewrite ?app_nil_r; reflexivity. }
  destruct Hshape as [middle Hshape].
  split; [|split; [|split; [|split; [|split]]]].
  - rewrite Hshape. cbn [app]. destruct middle as [|m middle].
    + eexists. reflexivity.
    + cbn [app]. rewrite join_cons. eexists. reflexivity.
  - rewrite Hshape. rewrite join_app by discriminate.
    exists (Py.join " " (query :: middle)).
    reflexivity.
  - reflexivity.
  - reflexivity.
  - destruct regions as [[|r rs]|]; reflexivity.
  - intros r1 r2 Heq Hin. unfold SearchAgent._build_search_query.
    cbn [flat_map]. rewrite (region_terms_upper r1 r2 Heq Hin). reflexivity.
Qed.

Lemma search_query_shape_witness :
  SearchAgent._build_search_query "privacy" (Some ["eu"]) None
  = SearchAgent._build_search_query "privacy" (Some ["Eu"]) None.
Proof.
  apply (proj2 (proj2 (proj2 (proj2 (proj2
           (search_query_shape "privacy" None None)))))).
  - reflexivity.
  - left. reflexivity.
Defined.

(** ** The type of a document *)

Definition legislation_terms : list string :=
  ["act"; "regulation"; "law"; "legislation"].
Definition policy_terms : list string := ["policy"; "framework"; "guidelines"].
Definition paper_terms : list string := ["white paper"; "whitepaper"; "report"].

(** The type of a document is one of four labels, decided by the first
    keyword list of which a term occurs in the lower-cased content or
    URL: legislation before policy framework before white paper, and
    "other" when none occurs.  A term counts wherever it occurs, inside
    a longer word too.  The document types of the request play no part:
    the document built from a result carries this label. *)
Theorem document_type_rule (result : RawResult.t) :
  let label := SearchAgent._classify_document_type result in
  (label = "legislation" <-> mentions legislation_terms result)
  /\ (label = "policy_framework"
      <-> ~ mentions legislation_terms result
          /\ mentions policy_terms result)
  /\ (label = "white_paper"
      <-> ~ mentions legislation_terms result
          /\ ~ mentions policy_terms result
          /\ mentions paper_terms result)
  /\ (label = "other"
      <-> ~ mentions legislation_terms result
          /\ ~ mentions policy_terms result
          /\ ~ mentions paper_terms result)
  /\ (forall content word,
        RawResult.content result = Some content ->
        occurs_in "act" (Py.lower word) ->
        occurs_in (Py.lower word) (Py.lower content) ->
        label = "legislation")
  /\ forall regions,
       Document.document_type (SearchAgent.make_document result regions)
       = Some label.
Proof.
  intros label.
  pose proof (any_term_iff legislation_terms result) as Hl.
  pose proof (any_term_iff policy_terms result) as Hp.
  pose proof (any_term_iff paper_terms result) as Hw.
  assert (Hrule :
            (label = "legislation" <-> mentions legislation_terms result)
            /\ (label = "policy_framework"
                <-> ~ mentions legislation_terms result
                    /\ mentions policy_terms result)
            /\ (label = "white_paper"
                <-> ~ mentions legislation_terms result
                    /\ ~ mentions policy_terms result
                    /\ mentions paper_terms result)
            /\ (label = "other"
                <-> ~ mentions legislation_terms result
                    /\ ~ mentions policy_terms result
                    /\ ~ mentions paper_terms result)).
  { subst label. unfold SearchAgent._classify_document_type.
    fold legislation_terms policy_terms paper_terms.
    destruct (SearchAgent.any_term legislation_terms _ _);
      destruct (SearchAgent.any_term policy_terms _ _);
      destruct (SearchAgent.any_term paper_terms _ _);
      repeat split; intros;
      try reflexivity; try discriminate;
      repeat match goal with
             | H : _ /\ _ |- _ => destruct H
             end;
      try (apply Hl; reflexivity); try (apply Hp; reflexivity);
      try (apply Hw; reflexivity);
      try (intros Hm; apply Hl in Hm; discriminate);
      try (intros Hm; apply Hp in Hm; discriminate);
      try (intros Hm; apply Hw in Hm; discriminate);
      repeat match goal with
             | H : ~ mentions ?t _, I : true = true <-> mentions ?t _ |- _ =>
                 exfalso; apply H; apply I; reflexivity
             | H : mentions ?t _, I : false = true <-> mentions ?t _ |- _ =>
                 apply I in H; discriminate
             end. }
  destruct Hrule as [H1 [H2 [H3 H4]]].
  split; [exact H1|]. split; [exact H2|]. split; [exact H3|].
  split; [exact H4|]. split; [|reflexivity].
  intros content word Hc [p1 [q1 Hact]] [p2 [q2 Hword]].
  apply H1. exists "act". split; [left; reflexivity|]. left.
  rewrite Hc. cbn [SearchAgent.opt_str]. rewrite Hword, Hact.
  exists (p2 ++ p1), (q1 ++ q2). rewrite !append_assoc. reflexivity.
Qed.

Lemma document_type_rule_witness :
  SearchAgent._classify_document_type
    (Samples.raw "Guide" "https://oecd.org/guide"
       "Good practice for model cards")
  = "legislation".
Proof.
  apply (proj1 (proj2 (proj2 (proj2 (proj2
           (document_type_rule
              (Samples.raw "Guide" "https://oecd.org/guide"
                 "Good practice for model cards"))))))
           "Good practice for model cards" "practice" eq_refl).
  - exists "pr", "ice". reflexivity.
  - exists "good ", " for model cards". reflexivity.
Defined.
